(** * Account flows of the Epic Stack: verification hand-off, onboarding,
      password management and profile photo

    A shallow embedding of the route handlers (loaders and actions) of the
    application.  A handler is a computation over the persisted state (the
    tables reached through the ORM) that either returns a value or throws,
    exactly as an [async] function of the source either resolves or
    rejects.  Cookie-backed sessions, the form library and the validation
    library are modelled by the small interfaces the handlers use. *)

From stdpp Require Import base strings list gmap option.
From Stdlib Require Import ZArith Lia.

Local Open Scope Z_scope.
Local Open Scope string_scope.

(** ** Form data *)

(** A [File] as seen by the handlers: [file.name], [file.type], [file.size]
    and the bytes read by [file.arrayBuffer()]. *)
Record File := mkFile {
  file_name : string;
  file_type : string;
  file_size : Z;
  file_bytes : string;
}.

Inductive FormValue :=
| FText (s : string)
| FFile (f : File).

(** [Record<string, FormValue>]: the object a form submission parses to. *)
Abbreviation FormObject := (gmap string FormValue).

(** ** HTTP responses and cookie-backed sessions *)

Inductive SessionValue :=
| VString (s : string)
| VNumber (n : Z)
| VBool (b : bool)
| VObject (fields : list (string * string)).

Abbreviation SessionData := (gmap string SessionValue).

(** The cookie session storages the handlers use. *)
Inductive Store := VerifyStore | AuthStore | ConnectionStore.

Record Toast := mkToast {
  toast_type : option string;
  toast_title : string;
  toast_description : string;
}.

(** One [set-cookie] header value.  The codec (signing, encoding) is the
    storage's business; a header either commits a session's data, with the
    expiry the caller asked for, or clears the cookie. *)
Inductive SetCookie :=
| Commit (st : Store) (data : SessionData) (expires : option Z)
| Destroy (st : Store)
| ToastCookie (t : Toast).

(** ** The form library: submissions and reports *)

Record Submission := mkSubmission {
  sub_value : FormObject;
  sub_intent : option FormValue;
}.

(** The error part of a report: form-level messages and messages per field
    name. *)
Record FormError := mkFormError {
  formError : list string;
  fieldError : gmap string (list string);
}.

Record ReportOptions := mkReportOptions {
  opt_error : option FormError;
  opt_hideFields : list string;
}.

(** What a report carries back to the form: the submitted values that are
    echoed as default values, the intent and the errors. *)
Record SubmissionResult := mkSubmissionResult {
  res_value : FormObject;
  res_intent : option FormValue;
  res_error : option FormError;
}.

Inductive Body :=
| BodyEmpty
| BodyResult (r : SubmissionResult)   (* data({ result }, init) *)
| BodyJson (r : SubmissionResult).    (* json(result, init) *)

Record Response := mkResponse {
  resp_status : Z;
  resp_location : option string;
  resp_set_cookie : list SetCookie;
  resp_body : Body;
}.

Record ResponseInit := mkInit {
  init_status : option Z;
  init_headers : list SetCookie;
}.

Definition noInit : ResponseInit := mkInit None [].

(** [redirect(url, init)] of the router: status 302 unless [init] gives one. *)
Definition redirect (url : string) (init : ResponseInit) : Response :=
  mkResponse (default 302 (init_status init)) (Some url) (init_headers init)
    BodyEmpty.

(** [data(body, init)] of the router: status 200 unless [init] gives one. *)
Definition data (body : Body) (init : ResponseInit) : Response :=
  mkResponse (default 200 (init_status init)) None (init_headers init) body.

(** [json(body, init)] of the legacy router. *)
Definition json (r : SubmissionResult) (init : ResponseInit) : Response :=
  mkResponse (default 200 (init_status init)) None (init_headers init)
    (BodyJson r).

(** The name of the form field that carries a non-submit intent. *)
Definition INTENT : string := "__intent__".

(** [parseSubmission(formData)]: the intent field is split off, the other
    fields are the submission's value. *)
Definition parseSubmission (formData : FormObject) : Submission :=
  mkSubmission (delete INTENT formData) (formData !! INTENT).

(** Modelled from the spec: the effect of [hideFields]: "sensitive fields
    (passwords) are flagged to be excluded from any echoed default
    values".  The named fields are removed from the values. *)
Definition hide (names : list string) (v : FormObject) : FormObject :=
  foldr (fun name acc => delete name acc) v names.

(** Modelled from the spec: [report] of the form library (`conform-react`,
    not under src/): "return a structured per-field + per-form error
    report"; the response carries the "submission-echo-with-errors".  The
    report echoes the submission, without the hidden fields, and carries
    the given error. *)
Definition report (submission : Submission) (options : ReportOptions)
  : SubmissionResult :=
  mkSubmissionResult (hide (opt_hideFields options) (sub_value submission))
    (sub_intent submission) (opt_error options).

(** ** The validation library *)

Record Issue := mkIssue {
  issue_path : list string;
  issue_message : string;
}.

(** The result of parsing with a schema, with the three statuses the
    library distinguishes: [PValid] (no issue), [PDirty] (a value was
    produced but checks or refinements added issues) and [PAborted] (no
    value, for instance a missing or ill-typed field). *)
Inductive Parsed (A : Type) :=
| PValid (a : A)
| PDirty (a : A) (issues : list Issue)
| PAborted (issues : list Issue).
Arguments PValid {A} a.
Arguments PDirty {A} a issues.
Arguments PAborted {A} issues.

(** [safeParse]'s result: [success] holds exactly for a valid parse. *)
Inductive ZodResult (A : Type) :=
| ZSuccess (data : A)
| ZFailure (issues : list Issue).
Arguments ZSuccess {A} data.
Arguments ZFailure {A} issues.

Definition toResult {A} (p : Parsed A) : ZodResult A :=
  match p with
  | PValid a => ZSuccess a
  | PDirty _ issues => ZFailure issues
  | PAborted issues => ZFailure issues
  end.

Definition success {A} (r : ZodResult A) : bool :=
  match r with ZSuccess _ => true | ZFailure _ => false end.

Definition issuesOf {A} (p : Parsed A) : list Issue :=
  match p with
  | PValid _ => []
  | PDirty _ issues => issues
  | PAborted issues => issues
  end.

(** A schema for one (possibly absent) form value. *)
Definition Schema (A : Type) : Type := option FormValue -> Parsed A.

(** A schema for the whole form object. *)
Definition ObjectSchema (A : Type) : Type := FormObject -> Parsed A.

Definition prefixIssue (name : string) (i : Issue) : Issue :=
  mkIssue (name :: issue_path i) (issue_message i).

(** The value a field of an object schema sees, and its issues under the
    field's name. *)
Definition field {A} (name : string) (s : Schema A) (v : FormObject)
  : Parsed A :=
  match s (v !! name) with
  | PValid a => PValid a
  | PDirty a issues => PDirty a (prefixIssue name <$> issues)
  | PAborted issues => PAborted (prefixIssue name <$> issues)
  end.

(** Merging the parse of one more key into an object: an aborted key
    aborts the object, a dirty key makes it dirty, all issues are kept in
    order. *)
Definition merge {A B C} (f : A -> B -> C) (pa : Parsed A) (pb : Parsed B)
  : Parsed C :=
  match pa, pb with
  | PValid a, PValid b => PValid (f a b)
  | PValid a, PDirty b ib => PDirty (f a b) ib
  | PDirty a ia, PValid b => PDirty (f a b) ia
  | PDirty a ia, PDirty b ib => PDirty (f a b) (ia ++ ib)%list
  | _, _ => PAborted (issuesOf pa ++ issuesOf pb)%list
  end.

(** The coercion of form values (`coerceZodFormData`): an empty text value
    counts as absent. *)
Definition coerceEmpty (v : option FormValue) : option FormValue :=
  match v with
  | Some (FText "") => None
  | _ => v
  end.

(** [z.string().optional()] on a coerced form value. *)
Definition z_string_optional : Schema (option string) := fun v =>
  match coerceEmpty v with
  | None => PValid None
  | Some (FText s) => PValid (Some s)
  | Some (FFile _) => PAborted [mkIssue [] "Expected string, received object"]
  end.

(** [z.boolean({ required_error })] on a coerced form value: a checked
    checkbox submits ["on"]. *)
Definition z_boolean (required_error : string) : Schema bool := fun v =>
  match coerceEmpty v with
  | None => PAborted [mkIssue [] required_error]
  | Some (FText "on") => PValid true
  | Some (FText _) => PAborted [mkIssue [] "Expected boolean, received string"]
  | Some (FFile _) => PAborted [mkIssue [] "Expected boolean, received object"]
  end.

(** [z.boolean().optional()] on a coerced form value. *)
Definition z_boolean_optional : Schema (option bool) := fun v =>
  match coerceEmpty v with
  | None => PValid None
  | Some (FText "on") => PValid (Some true)
  | Some (FText _) => PAborted [mkIssue [] "Expected boolean, received string"]
  | Some (FFile _) => PAborted [mkIssue [] "Expected boolean, received object"]
  end.

(** The name under which an issue is reported: its path joined by dots. *)
Fixpoint formatPath (path : list string) : string :=
  match path with
  | [] => ""
  | [name] => name
  | name :: rest => String.append name (String.append "." (formatPath rest))
  end.

Definition addFieldError (i : Issue) (m : gmap string (list string))
  : gmap string (list string) :=
  <[formatPath (issue_path i) :=
      (default [] (m !! formatPath (issue_path i)) ++ [issue_message i])%list]> m.

(** The issues sorted into form-level messages (empty path) and messages
    per field name, each list in the order of the issues. *)
Definition resolveIssues (issues : list Issue) : FormError :=
  mkFormError
    (issue_message <$> filter (fun i => issue_path i = []) issues)
    (foldl (fun m i => addFieldError i m) ∅
       (filter (fun i => issue_path i ≠ []) issues)).

(** [resolveZodResult(result)]: [null] for a success, the sorted issues for
    a failure. *)
Definition resolveZodResult {A} (r : ZodResult A) : option FormError :=
  match r with
  | ZSuccess _ => None
  | ZFailure issues => Some (resolveIssues issues)
  end.

(** ** The persisted state *)

Record User := mkUser {
  user_id : string;
  user_email : string;
  user_username : string;
  user_name : string;
}.

Record Password := mkPassword {
  password_userId : string;
  password_hash : string;
}.

Record Image := mkImage {
  image_contentType : string;
  image_blob : string;
}.

Record UserImage := mkUserImage {
  userImage_userId : string;
  userImage_image : Image;
}.

(** AuthSession: [{ id, userId, expirationDate }]. *)
Record AuthSession := mkAuthSession {
  session_id : string;
  session_userId : string;
  session_expirationDate : Z;
}.

(** VerificationRecord, identified by [(type, target)]. *)
Record Verification := mkVerification {
  ver_type : string;
  ver_target : string;
  ver_secret : string;
  ver_algorithm : string;
  ver_period : Z;
  ver_charSet : string;
  ver_expiresAt : option Z;
}.

(** The tables the handlers reach through the ORM, and the clock. *)
Record World := mkWorld {
  users : list User;
  passwords : list Password;
  userImages : list UserImage;
  sessions : list AuthSession;
  verifications : list Verification;
  now : Z;
}.

(** ** Handlers as computations *)

(** What an [async] function can throw: a [Response] (the router turns it
    into the response of the request) or an error. *)
Inductive Thrown :=
| ThrownResponse (r : Response)
| ThrownError (message : string).

Inductive Outcome (A : Type) :=
| Ok (a : A)
| Throw (t : Thrown).
Arguments Ok {A} a.
Arguments Throw {A} t.

(** State passing with exceptions; a throw keeps the state reached so far
    (nothing is undone unless a transaction does it). *)
Definition M (A : Type) : Type := World -> Outcome A * World.

Definition ret {A} (a : A) : M A := fun w => (Ok a, w).

Definition bind {A B} (c : M A) (k : A -> M B) : M B := fun w =>
  match c w with
  | (Ok a, w') => k a w'
  | (Throw t, w') => (Throw t, w')
  end.

Definition throw {A} (t : Thrown) : M A := fun w => (Throw t, w).

Definition throwResponse {A} (r : Response) : M A := throw (ThrownResponse r).

Definition gets {A} (f : World -> A) : M A := fun w => (Ok (f w), w).

Definition modify (f : World -> World) : M unit := fun w => (Ok tt, f w).

Declare Scope handler_scope.
Delimit Scope handler_scope with handler.
Notation "x <- c1 ;;; c2" := (bind c1 (fun x => c2))
  (at level 100, c1 at next level, right associativity) : handler_scope.
Notation "c1 ;;; c2" := (bind c1 (fun _ => c2))
  (at level 100, right associativity) : handler_scope.
Local Open Scope handler_scope.

(** ** The ORM calls of the handlers *)

Module prisma.

Definition setPasswords (ps : list Password) (w : World) : World :=
  mkWorld (users w) ps (userImages w) (sessions w) (verifications w) (now w).

Definition setUserImages (imgs : list UserImage) (w : World) : World :=
  mkWorld (users w) (passwords w) imgs (sessions w) (verifications w) (now w).

Definition setVerifications (vs : list Verification) (w : World) : World :=
  mkWorld (users w) (passwords w) (userImages w) (sessions w) vs (now w).

(** [user.findFirst({ where: { OR: [{ email }, { username }] } })] *)
Definition user_findFirst_emailOrUsername (target : string)
  : M (option User) :=
  gets (fun w =>
    find (fun u => bool_decide (user_email u = target)
                   || bool_decide (user_username u = target)) (users w)).

(** [user.findUnique({ where: { username } })] *)
Definition user_findUnique_username (username : string) : M (option User) :=
  gets (fun w =>
    find (fun u => bool_decide (user_username u = username)) (users w)).

Definition user_findUnique_id (id : string) : M (option User) :=
  gets (fun w => find (fun u => bool_decide (user_id u = id)) (users w)).

(** [password.findUnique({ where: { userId } })] *)
Definition password_findUnique (userId : string) : M (option Password) :=
  gets (fun w =>
    find (fun p => bool_decide (password_userId p = userId)) (passwords w)).

Definition image_findUnique (userId : string) : M (option UserImage) :=
  gets (fun w =>
    find (fun i => bool_decide (userImage_userId i = userId)) (userImages w)).

(** [user.update({ where: { id }, data: { password: { create: { hash } } } })]:
    the user must exist and must not have a password yet. *)
Definition user_update_password_create (id hash : string) : M unit :=
  user <- user_findUnique_id id ;;;
  match user with
  | None => throw (ThrownError "Record to update not found")
  | Some _ =>
      existing <- password_findUnique id ;;;
      match existing with
      | Some _ => throw (ThrownError "Unique constraint failed")
      | None =>
          modify (fun w => setPasswords (passwords w ++ [mkPassword id hash]) w)
      end
  end.

(** [user.update({ where: { id }, data: { password: { update: { hash } } } })]:
    the user and the password must exist. *)
Definition user_update_password_update (id hash : string) : M unit :=
  user <- user_findUnique_id id ;;;
  match user with
  | None => throw (ThrownError "Record to update not found")
  | Some _ =>
      existing <- password_findUnique id ;;;
      match existing with
      | None => throw (ThrownError "Record to update not found")
      | Some _ =>
          modify (fun w =>
            setPasswords
              ((fun p => if bool_decide (password_userId p = id)
                         then mkPassword id hash else p) <$> passwords w) w)
      end
  end.

(** [userImage.deleteMany({ where: { userId } })] *)
Definition userImage_deleteMany (userId : string) : M unit :=
  modify (fun w =>
    setUserImages
      (filter (fun i => userImage_userId i ≠ userId) (userImages w)) w).

(** [user.update({ where: { id }, data: { image: { create: image } } })]:
    the user must exist and must not have an image. *)
Definition user_update_image_create (id : string) (image : Image) : M unit :=
  user <- user_findUnique_id id ;;;
  match user with
  | None => throw (ThrownError "Record to update not found")
  | Some _ =>
      existing <- image_findUnique id ;;;
      match existing with
      | Some _ => throw (ThrownError "Unique constraint failed")
      | None =>
          modify (fun w =>
            setUserImages (userImages w ++ [mkUserImage id image]) w)
      end
  end.

(** [$transaction(body)]: the statements of [body] take effect together;
    when [body] throws, none of them does. *)
Definition transaction {A} (body : M A) : M A := fun w =>
  match body w with
  | (Ok a, w') => (Ok a, w')
  | (Throw t, _) => (Throw t, w)
  end.

End prisma.

(** ** Requests and the cookie session storages *)

(** A request: the sessions its [cookie] header decodes to (a cookie that
    does not verify is as good as absent) and the submitted form. *)
Record Request := mkRequest {
  req_cookie : option (list (Store * SessionData));
  req_formData : FormObject;
}.

Global Instance Store_eq_dec : EqDecision Store.
Proof. solve_decision. Defined.

(** Modelled from the spec: [getSession(cookieHeader?)] of the session
    storages (`verification.server.ts`, `session.server.ts`, not under
    src/), contract of 4.1 and 4.4: the session the storage's cookie
    decodes to, "absent/malformed" being an empty session. *)
Definition getSession (st : Store) (cookie : option (list (Store * SessionData)))
  : SessionData :=
  match cookie with
  | None => ∅
  | Some jar =>
      match find (fun e => bool_decide (e.1 = st)) jar with
      | Some e => e.2
      | None => ∅
      end
  end.

(** Modelled from the spec: [commitSession(handle, opts?)] of the session
    storages (not under src/): the set-cookie value of the session; the
    [expires] option "controls whether the cookie itself carries an
    expiry". *)
Definition commitSession (st : Store) (session : SessionData)
    (expires : option Z) : SetCookie :=
  Commit st session expires.

(** Modelled from the spec: [destroySession(handle)] of the session
    storages (not under src/): the set-cookie value that clears the
    cookie. *)
Definition destroySession (st : Store) (session : SessionData) : SetCookie :=
  Destroy st.

(** ** More of the validation library: refinements and transforms *)

Definition pmap {A B} (f : A -> B) (p : Parsed A) : Parsed B :=
  match p with
  | PValid a => PValid (f a)
  | PDirty a issues => PDirty (f a) issues
  | PAborted issues => PAborted issues
  end.

(** [schema.superRefine(check)]: the refinement runs unless the parse was
    aborted; the issues it adds make the parse dirty. *)
Definition superRefine {A} (p : Parsed A) (check : A -> M (list Issue))
  : M (Parsed A) :=
  match p with
  | PAborted issues => ret (PAborted issues)
  | PValid a =>
      added <- check a ;;;
      ret (match added with [] => PValid a | _ => PDirty a added end)
  | PDirty a issues =>
      added <- check a ;;;
      ret (PDirty a (issues ++ added)%list)
  end.

(** The same for a refinement that does not touch the persisted state. *)
Definition refine {A} (p : Parsed A) (check : A -> list Issue) : Parsed A :=
  match p with
  | PAborted issues => PAborted issues
  | PValid a => match check a with [] => PValid a | added => PDirty a added end
  | PDirty a issues => PDirty a (issues ++ check a)%list
  end.

(** [schema.transform(f)]: [f] runs only on a valid parse; otherwise the
    parse fails with the issues found so far and [f] is not called.  [f]
    may add issues through its context. *)
Definition transformCtx {A B} (p : Parsed A) (f : A -> M (B * list Issue))
  : M (Parsed B) :=
  match p with
  | PValid a =>
      r <- f a ;;;
      ret (match r.2 with [] => PValid r.1 | added => PDirty r.1 added end)
  | PDirty _ issues => ret (PAborted issues)
  | PAborted issues => ret (PAborted issues)
  end.

Definition transform {A B} (p : Parsed A) (f : A -> M B) : M (Parsed B) :=
  transformCtx p (fun a => b <- f a ;;; ret (b, [])).

(** ** Modules of the application that are not under src/ *)

Record PasswordAndConfirmPassword := mkPasswordAndConfirmPassword {
  password : string;
  confirmPassword : string;
}.

(** `#app/utils/user-validation.ts`: the field schemas, taken as
    parameters. *)
Class UserValidation := {
  UsernameSchema : Schema string;
  NameSchema : Schema string;
  PasswordSchema : Schema string;
  PasswordAndConfirmPasswordSchema : ObjectSchema PasswordAndConfirmPassword;
}.

Record SignupArgs := mkSignupArgs {
  su_email : string;
  su_username : string;
  su_name : string;
  su_password : string;
}.

Record ConnectionSignupArgs := mkConnectionSignupArgs {
  cs_email : string;
  cs_username : string;
  cs_name : string;
  cs_providerId : string;
  cs_providerName : string;
  cs_imageUrl : option string;
}.

(** `#app/utils/auth.server.ts`: the session key, who the request's actor
    is (a read of the request and the persisted sessions), the password
    hash and its comparison, and the writers of users, passwords and
    sessions, taken as parameters. *)
Class AuthServer := {
  sessionKey : string;
  getUserId : Request -> World -> option string;
  getPasswordHash : string -> string;
  comparePassword : string -> string -> bool;
  signup : SignupArgs -> M AuthSession;
  signupWithConnection : ConnectionSignupArgs -> M AuthSession;
  resetUserPassword : string -> string -> M unit;
  login : string -> string -> M (option AuthSession);
}.

Record NewSessionArgs := mkNewSessionArgs {
  ns_request : Request;
  ns_session : AuthSession;
  ns_remember : bool;
  ns_redirectTo : option string;
}.

(** The honeypot check, the redirect sanitizer, the provider names, the
    multipart parser (given the request and the file-size ceiling) and the
    login hand-off; the first four do not touch the persisted state. *)
Class Utilities := {
  checkHoneypot : FormObject -> option Thrown;
  safeRedirect : option string -> string;
  ProviderNameSchema : option string -> option string;
  parseFormData : Request -> Z -> Outcome FormObject;
  handleNewSession : NewSessionArgs -> M Response;
}.

Definition liftOutcome {A} (o : Outcome A) : M A := fun w => (o, w).

Definition check (t : option Thrown) : M unit :=
  match t with
  | None => ret tt
  | Some t => throw t
  end.

Section Guards.
Context `{AuthServer}.

(** Modelled from the spec: [requireUserId] of `auth.server.ts` (not
    under src/): "Guards are idempotent precondition checks expressed as
    'require X or redirect to Y'".  An anonymous actor is sent to the
    login page. *)
Definition requireUserId (request : Request) : M string := fun w =>
  match getUserId request w with
  | Some userId => (Ok userId, w)
  | None => (Throw (ThrownResponse (redirect "/login" noInit)), w)
  end.

(** Modelled from the spec: [requireAnonymous] of `auth.server.ts` (not
    under src/): "anonymous-only pages redirect authenticated actors
    away", here to the home page. *)
Definition requireAnonymous (request : Request) : M unit := fun w =>
  match getUserId request w with
  | Some _ => (Throw (ThrownResponse (redirect "/" noInit)), w)
  | None => (Ok tt, w)
  end.

(** Modelled from the spec: [verifyUserPassword] of `auth.server.ts` (not
    under src/): "re-verifies currentPassword against the stored hash".
    The user's stored hash is looked up and compared; the user is
    returned only when there is one and it matches. *)
Definition verifyUserPassword (id : string) (pw : string)
  : M (option string) :=
  user <- prisma.user_findUnique_id id ;;;
  stored <- prisma.password_findUnique id ;;;
  ret (match user, stored with
       | Some u, Some p =>
           if comparePassword pw (password_hash p) then Some (user_id u)
           else None
       | _, _ => None
       end).
End Guards.

(** Modelled from the spec: [redirectWithToast] of `toast.server.ts` (not
    under src/): a redirect "with set-cookie header(s), optionally carrying
    a toast payload".  The headers of [init] are kept and the toast cookie
    is added. *)
Definition redirectWithToast (url : string) (toast : Toast)
    (init : ResponseInit) : M Response :=
  ret (redirect url
         (mkInit (init_status init) (init_headers init ++ [ToastCookie toast]))).

Record ActionArgs := mkActionArgs {
  request : Request;
  params : gmap string string;
}.

Definition badRequest : ResponseInit := mkInit (Some 400) [].

(** ** routes/_auth+/reset-password.tsx *)

Module ResetPassword.
Section Route.
Context `{UserValidation} `{AuthServer}.

Definition resetPasswordUsernameSessionKey : string := "resetPasswordUsername".

Definition ResetPasswordSchema : ObjectSchema PasswordAndConfirmPassword :=
  PasswordAndConfirmPasswordSchema.

Definition requireResetPasswordUsername (request : Request) : M string :=
  requireAnonymous request ;;;
  let verifySession := getSession VerifyStore (req_cookie request) in
  let resetPasswordUsername :=
    verifySession !! resetPasswordUsernameSessionKey in
  match resetPasswordUsername with
  | Some (VString s) =>
      if bool_decide (s = "") then throwResponse (redirect "/login" noInit)
      else ret s
  | _ => throwResponse (redirect "/login" noInit)
  end.

Definition loader (request : Request) : M string :=
  resetPasswordUsername <- requireResetPasswordUsername request ;;;
  ret resetPasswordUsername.

(** Everything up to [const result = ...]. *)
Definition validation (request : Request)
  : M (ZodResult PasswordAndConfirmPassword) :=
  resetPasswordUsername <- requireResetPasswordUsername request ;;;
  let formData := req_formData request in
  let submission := parseSubmission formData in
  ret (toResult (ResetPasswordSchema (sub_value submission))).

Definition action (request : Request) : M Response :=
  resetPasswordUsername <- requireResetPasswordUsername request ;;;
  let formData := req_formData request in
  let submission := parseSubmission formData in
  let result := toResult (ResetPasswordSchema (sub_value submission)) in
  match result with
  | ZFailure _ =>
      ret (data
             (BodyResult
                (report submission
                   (mkReportOptions (resolveZodResult result) [])))
             badRequest)
  | ZSuccess d =>
      resetUserPassword resetPasswordUsername (password d) ;;;
      let verifySession := getSession VerifyStore None in
      ret (redirect "/login"
             (mkInit None [destroySession VerifyStore verifySession]))
  end.
End Route.
End ResetPassword.

(** ** The verification hand-off of the reset-password flow
       (unnamed/part_000) *)

Record VerifyResultData := mkVerifyResultData {
  rd_code : string;
  rd_type : string;
  rd_target : string;
  rd_redirectTo : option string;
}.

Record VerifyFunctionArgs := mkVerifyFunctionArgs {
  vf_request : Request;
  vf_submission : Submission;
  vf_resultData : VerifyResultData;
}.

Module ResetPasswordServer.

Definition invalidCode : FormError :=
  mkFormError [] {[ "code" := ["Invalid code"] ]}.

Definition handleVerification (args : VerifyFunctionArgs) : M Response :=
  let submission := vf_submission args in
  let resultData := vf_resultData args in
  let target := rd_target resultData in
  user <- prisma.user_findFirst_emailOrUsername target ;;;
  match user with
  | None =>
      (* we don't want to say the user is not found if the email is not
         found because that would allow an attacker to check if an email
         is registered *)
      ret (data
             (BodyResult
                (report submission (mkReportOptions (Some invalidCode) [])))
             badRequest)
  | Some user =>
      let verifySession := getSession VerifyStore None in
      let verifySession :=
        <[ResetPassword.resetPasswordUsernameSessionKey
            := VString (user_username user)]> verifySession in
      ret (redirect "/reset-password"
             (mkInit None [commitSession VerifyStore verifySession None]))
  end.

End ResetPasswordServer.

(** ** routes/_auth+/onboarding.tsx *)

Module Onboarding.
Section Route.
Context `{UserValidation} `{AuthServer} `{Utilities}.

Definition onboardingEmailSessionKey : string := "onboardingEmail".

Record SignupForm := mkSignupForm {
  username : string;
  name : string;
  agreeToTermsOfServiceAndPrivacyPolicy : bool;
  remember : option bool;
  redirectTo : option string;
  passwords_ : PasswordAndConfirmPassword;
}.

Definition SignupFormSchema : ObjectSchema SignupForm := fun v =>
  merge (fun o pw => mkSignupForm o.1 o.2.1 o.2.2.1 o.2.2.2.1 o.2.2.2.2 pw)
    (merge pair (field "username" UsernameSchema v)
    (merge pair (field "name" NameSchema v)
    (merge pair
       (field "agreeToTermsOfServiceAndPrivacyPolicy"
          (z_boolean
             "You must agree to the terms of service and privacy policy") v)
    (merge pair (field "remember" z_boolean_optional v)
                (field "redirectTo" z_string_optional v)))))
    (PasswordAndConfirmPasswordSchema v).

Definition requireOnboardingEmail (request : Request) : M string :=
  requireAnonymous request ;;;
  let verifySession := getSession VerifyStore (req_cookie request) in
  let email := verifySession !! onboardingEmailSessionKey in
  match email with
  | Some (VString s) =>
      if bool_decide (s = "") then throwResponse (redirect "/signup" noInit)
      else ret s
  | _ => throwResponse (redirect "/signup" noInit)
  end.

Definition loader (request : Request) : M string :=
  email <- requireOnboardingEmail request ;;;
  ret email.

(** [SignupFormSchema.superRefine(...).transform(...).safeParseAsync(value)] *)
Definition parseForm (email : string) (value : FormObject)
  : M (ZodResult (SignupForm * AuthSession)) :=
  refined <- superRefine (SignupFormSchema value) (fun d =>
    existingUser <- prisma.user_findUnique_username (username d) ;;;
    ret (match existingUser with
         | Some _ =>
             [mkIssue ["username"] "A user already exists with this username"]
         | None => []
         end)) ;;;
  transformed <- transform refined (fun d =>
    session <- signup (mkSignupArgs email (username d) (name d)
                         (password (passwords_ d))) ;;;
    ret (d, session)) ;;;
  ret (toResult transformed).

(** Everything up to [const result = ...]. *)
Definition validation (request : Request)
  : M (ZodResult (SignupForm * AuthSession)) :=
  email <- requireOnboardingEmail request ;;;
  let formData := req_formData request in
  check (checkHoneypot formData) ;;;
  let submission := parseSubmission formData in
  parseForm email (sub_value submission).

Definition action (request : Request) : M Response :=
  email <- requireOnboardingEmail request ;;;
  let formData := req_formData request in
  check (checkHoneypot formData) ;;;
  let submission := parseSubmission formData in
  result <- parseForm email (sub_value submission) ;;;
  match result with
  | ZFailure _ =>
      ret (data
             (BodyResult
                (report submission
                   (mkReportOptions (resolveZodResult result) [])))
             badRequest)
  | ZSuccess (d, session) =>
      let authSession := getSession AuthStore (req_cookie request) in
      let authSession :=
        <[sessionKey := VString (session_id session)]> authSession in
      let verifySession := getSession VerifyStore None in
      let headers :=
        [commitSession AuthStore authSession
           (if default false (remember d)
            then Some (session_expirationDate session) else None);
         destroySession VerifyStore verifySession] in
      redirectWithToast (safeRedirect (redirectTo d))
        (mkToast None "Welcome" "Thanks for signing up!")
        (mkInit None headers)
  end.
End Route.
End Onboarding.

(** ** routes/_auth+/onboarding_.$provider.tsx *)

Module OnboardingProvider.
Section Route.
Context `{UserValidation} `{AuthServer} `{Utilities}.

Definition providerIdKey : string := "providerId".
Definition prefilledProfileKey : string := "prefilledProfile".

Record SignupForm := mkSignupForm {
  imageUrl : option string;
  username : string;
  name : string;
  agreeToTermsOfServiceAndPrivacyPolicy : bool;
  remember : option bool;
  redirectTo : option string;
}.

Definition SignupFormSchema : ObjectSchema SignupForm := fun v =>
  pmap (fun o => mkSignupForm o.1 o.2.1 o.2.2.1 o.2.2.2.1 o.2.2.2.2.1
                   o.2.2.2.2.2)
    (merge pair (field "imageUrl" z_string_optional v)
    (merge pair (field "username" UsernameSchema v)
    (merge pair (field "name" NameSchema v)
    (merge pair
       (field "agreeToTermsOfServiceAndPrivacyPolicy"
          (z_boolean
             "You must agree to the terms of service and privacy policy") v)
    (merge pair (field "remember" z_boolean_optional v)
                (field "redirectTo" z_string_optional v)))))).

Record RequiredData := mkRequiredData {
  email : string;
  providerName : string;
  providerId : string;
}.

(** The schema of [requireData] is applied to session values, not to
    form values: [z.string()] accepts every string. *)
Definition requireData (args : ActionArgs) : M RequiredData :=
  requireAnonymous (request args) ;;;
  let verifySession := getSession VerifyStore (req_cookie (request args)) in
  let email := verifySession !! Onboarding.onboardingEmailSessionKey in
  let providerId := verifySession !! providerIdKey in
  match email, ProviderNameSchema (params args !! "provider"), providerId with
  | Some (VString email), Some providerName, Some (VString providerId) =>
      ret (mkRequiredData email providerName providerId)
  | _, _, _ => throwResponse (redirect "/signup" noInit)
  end.

Definition parseForm (required : RequiredData) (value : FormObject)
  : M (ZodResult (SignupForm * AuthSession)) :=
  refined <- superRefine (SignupFormSchema value) (fun d =>
    existingUser <- prisma.user_findUnique_username (username d) ;;;
    ret (match existingUser with
         | Some _ =>
             [mkIssue ["username"] "A user already exists with this username"]
         | None => []
         end)) ;;;
  transformed <- transform refined (fun d =>
    session <- signupWithConnection
                 (mkConnectionSignupArgs (email required) (username d)
                    (name d) (providerId required) (providerName required)
                    (imageUrl d)) ;;;
    ret (d, session)) ;;;
  ret (toResult transformed).

(** Everything up to [const result = ...]. *)
Definition validation (args : ActionArgs)
  : M (ZodResult (SignupForm * AuthSession)) :=
  required <- requireData args ;;;
  let formData := req_formData (request args) in
  let submission := parseSubmission formData in
  parseForm required (sub_value submission).

Definition action (args : ActionArgs) : M Response :=
  required <- requireData args ;;;
  let formData := req_formData (request args) in
  let verifySession := getSession VerifyStore (req_cookie (request args)) in
  let submission := parseSubmission formData in
  result <- parseForm required (sub_value submission) ;;;
  match result with
  | ZFailure _ =>
      ret (data
             (BodyResult
                (report submission
                   (mkReportOptions (resolveZodResult result) [])))
             badRequest)
  | ZSuccess (d, session) =>
      let authSession := getSession AuthStore (req_cookie (request args)) in
      let authSession :=
        <[sessionKey := VString (session_id session)]> authSession in
      let headers :=
        [commitSession AuthStore authSession
           (if default false (remember d)
            then Some (session_expirationDate session) else None);
         destroySession VerifyStore verifySession] in
      redirectWithToast (safeRedirect (redirectTo d))
        (mkToast None "Welcome" "Thanks for signing up!")
        (mkInit None headers)
  end.
End Route.
End OnboardingProvider.

(** ** The verification hand-off of the onboarding flow *)

Module OnboardingServer.

Definition handleVerification (args : VerifyFunctionArgs) : M Response :=
  let resultData := vf_resultData args in
  let verifySession := getSession VerifyStore None in
  let verifySession :=
    <[Onboarding.onboardingEmailSessionKey
        := VString (rd_target resultData)]> verifySession in
  ret (redirect "/onboarding"
         (mkInit None [commitSession VerifyStore verifySession None])).

End OnboardingServer.

(** ** The login route (unnamed/part_001) *)

Module Login.
Section Route.
Context `{UserValidation} `{AuthServer} `{Utilities}.

Record LoginForm := mkLoginForm {
  username : string;
  password_ : string;
  redirectTo : option string;
  remember : option bool;
}.

Definition LoginFormSchema : ObjectSchema LoginForm := fun v =>
  pmap (fun o => mkLoginForm o.1 o.2.1 o.2.2.1 o.2.2.2)
    (merge pair (field "username" UsernameSchema v)
    (merge pair (field "password" PasswordSchema v)
    (merge pair (field "redirectTo" z_string_optional v)
                (field "remember" z_boolean_optional v)))).

(** The transform returns [z.NEVER] after adding its issue: [None]. *)
Definition parseForm (value : FormObject)
  : M (ZodResult (option (LoginForm * AuthSession))) :=
  transformed <- transformCtx (LoginFormSchema value) (fun d =>
    session <- login (username d) (password_ d) ;;;
    match session with
    | None => ret (None, [mkIssue [] "Invalid username or password"])
    | Some session => ret (Some (d, session), [])
    end) ;;;
  ret (toResult transformed).

Definition action (request : Request) : M Response :=
  requireAnonymous request ;;;
  let formData := req_formData request in
  check (checkHoneypot formData) ;;;
  let submission := parseSubmission formData in
  result <- parseForm (sub_value submission) ;;;
  match result with
  | ZFailure _ =>
      ret (data
             (BodyResult
                (report submission
                   (mkReportOptions (resolveZodResult result) ["password"])))
             badRequest)
  | ZSuccess (Some (d, session)) =>
      handleNewSession
        (mkNewSessionArgs request session (default false (remember d))
           (redirectTo d))
  | ZSuccess None =>
      (* no session to hand over; not reached, see [parseForm] *)
      throw (ThrownError "TypeError")
  end.
End Route.
End Login.

(** ** The create-password route, legacy version (unnamed/part_002) *)

Module CreatePasswordLegacy.
Section Route.
Context `{UserValidation} `{AuthServer}.

(** The submission of the legacy form library: its type (["submit"]
    unless the form carries an intent), the payload, the parsed value
    (only for a submit without errors) and the errors. *)
Record LegacySubmission := mkLegacySubmission {
  ls_type : string;
  ls_payload : FormObject;
  ls_intent : option FormValue;
  ls_value : option PasswordAndConfirmPassword;
  ls_error : option FormError;
}.

Definition CreatePasswordForm : ObjectSchema PasswordAndConfirmPassword :=
  PasswordAndConfirmPasswordSchema.

(** [parseWithZod(formData, { async: true, schema })] *)
Definition parseWithZod (formData : FormObject) : LegacySubmission :=
  let submission := parseSubmission formData in
  let result := toResult (CreatePasswordForm (sub_value submission)) in
  let type :=
    match sub_intent submission with None => "submit" | Some _ => "validate" end in
  mkLegacySubmission type (sub_value submission) (sub_intent submission)
    (match result with
     | ZSuccess d => if bool_decide (type = "submit") then Some d else None
     | ZFailure _ => None
     end)
    (resolveZodResult result).

(** [submission.reject({ hideFields })] *)
Definition reject (submission : LegacySubmission) (hideFields : list string)
  : SubmissionResult :=
  mkSubmissionResult (hide hideFields (ls_payload submission))
    (ls_intent submission) (ls_error submission).

Definition requireNoPassword (userId : string) : M unit :=
  password <- prisma.password_findUnique userId ;;;
  match password with
  | Some _ => throwResponse (redirect "/settings/profile/password" noInit)
  | None => ret tt
  end.

Definition loader (request : Request) : M unit :=
  userId <- requireUserId request ;;;
  requireNoPassword userId ;;;
  ret tt.

Definition action (request : Request) : M Response :=
  userId <- requireUserId request ;;;
  requireNoPassword userId ;;;
  let formData := req_formData request in
  let submission := parseWithZod formData in
  match ls_value submission with
  | None =>
      ret (json (reject submission ["password"; "confirmPassword"])
             (mkInit
                (Some (if bool_decide (ls_type submission = "submit")
                       then 400 else 200)) []))
  | Some value =>
      prisma.user_update_password_create userId
        (getPasswordHash (password value)) ;;;
      ret (redirect "/settings/profile" (mkInit (Some 302) []))
  end.
End Route.
End CreatePasswordLegacy.

(** ** routes/settings+/profile.password_.create.tsx (unnamed/part_003) *)

Module CreatePassword.
Section Route.
Context `{UserValidation} `{AuthServer}.

Definition CreatePasswordForm : ObjectSchema PasswordAndConfirmPassword :=
  PasswordAndConfirmPasswordSchema.

Definition requireNoPassword (userId : string) : M unit :=
  password <- prisma.password_findUnique userId ;;;
  match password with
  | Some _ => throwResponse (redirect "/settings/profile/password" noInit)
  | None => ret tt
  end.

Definition loader (request : Request) : M unit :=
  userId <- requireUserId request ;;;
  requireNoPassword userId ;;;
  ret tt.

(** Everything up to [const result = ...]. *)
Definition validation (request : Request)
  : M (ZodResult PasswordAndConfirmPassword) :=
  userId <- requireUserId request ;;;
  requireNoPassword userId ;;;
  let formData := req_formData request in
  let submission := parseSubmission formData in
  ret (toResult (CreatePasswordForm (sub_value submission))).

Definition action (request : Request) : M Response :=
  userId <- requireUserId request ;;;
  requireNoPassword userId ;;;
  let formData := req_formData request in
  let submission := parseSubmission formData in
  let result := toResult (CreatePasswordForm (sub_value submission)) in
  match result with
  | ZFailure _ =>
      ret (data
             (BodyResult
                (report submission
                   (mkReportOptions (resolveZodResult result)
                      ["password"; "confirmPassword"])))
             badRequest)
  | ZSuccess d =>
      prisma.user_update_password_create userId
        (getPasswordHash (password d)) ;;;
      ret (redirect "/settings/profile" (mkInit (Some 302) []))
  end.
End Route.
End CreatePassword.

(** ** routes/settings+/profile.password.tsx (unnamed/part_003) *)

Module ChangePassword.
Section Route.
Context `{UserValidation} `{AuthServer}.

Record ChangePassword := mkChangePassword {
  currentPassword : string;
  newPassword : string;
  confirmNewPassword : string;
}.

Definition ChangePasswordForm : ObjectSchema ChangePassword := fun v =>
  refine
    (pmap (fun o => mkChangePassword o.1 o.2.1 o.2.2)
       (merge pair (field "currentPassword" PasswordSchema v)
       (merge pair (field "newPassword" PasswordSchema v)
                   (field "confirmNewPassword" PasswordSchema v))))
    (fun d =>
       if bool_decide (confirmNewPassword d ≠ newPassword d)
       then [mkIssue ["confirmNewPassword"] "The passwords must match"]
       else []).

Definition requirePassword (userId : string) : M unit :=
  password <- prisma.password_findUnique userId ;;;
  match password with
  | None => throwResponse (redirect "/settings/profile/password/create" noInit)
  | Some _ => ret tt
  end.

Definition loader (request : Request) : M unit :=
  userId <- requireUserId request ;;;
  requirePassword userId ;;;
  ret tt.

Definition incorrectPassword : Issue :=
  mkIssue ["currentPassword"] "Incorrect password.".

(** [ChangePasswordForm.superRefine(...).safeParseAsync(value)] *)
Definition parseForm (userId : string) (value : FormObject)
  : M (ZodResult ChangePassword) :=
  refined <- superRefine (ChangePasswordForm value) (fun d =>
    if bool_decide (currentPassword d ≠ "")
       && bool_decide (newPassword d ≠ "")
    then
      user <- verifyUserPassword userId (currentPassword d) ;;;
      ret (match user with
           | None => [incorrectPassword]
           | Some _ => []
           end)
    else ret []) ;;;
  ret (toResult refined).

(** Everything up to [const result = ...]. *)
Definition validation (request : Request) : M (ZodResult ChangePassword) :=
  userId <- requireUserId request ;;;
  requirePassword userId ;;;
  let formData := req_formData request in
  let submission := parseSubmission formData in
  parseForm userId (sub_value submission).

Definition action (request : Request) : M Response :=
  userId <- requireUserId request ;;;
  requirePassword userId ;;;
  let formData := req_formData request in
  let submission := parseSubmission formData in
  result <- parseForm userId (sub_value submission) ;;;
  match result with
  | ZFailure _ =>
      ret (data
             (BodyResult
                (report submission
                   (mkReportOptions (resolveZodResult result)
                      ["currentPassword"; "newPassword";
                       "confirmNewPassword"])))
             badRequest)
  | ZSuccess d =>
      prisma.user_update_password_update userId
        (getPasswordHash (newPassword d)) ;;;
      redirectWithToast "/settings/profile"
        (mkToast (Some "success") "Password Changed"
           "Your password has been changed.")
        (mkInit (Some 302) [])
  end.
End Route.
End ChangePassword.

(** ** routes/settings+/profile.photo.tsx *)

Module ProfilePhoto.
Section Route.
Context `{AuthServer} `{Utilities}.

Definition MAX_SIZE : Z := 1024 * 1024 * 3. (* 3MB *)

Inductive PhotoForm :=
| DeleteImage
| NewImage (photoFile : File).

(** [z.instanceof(File).refine(size > 0, ...).refine(size <= MAX_SIZE, ...)];
    a value that is not a file aborts the parse. *)
Definition photoFileSchema : Schema File := fun v =>
  match v with
  | Some (FFile f) =>
      refine
        (refine (PValid f)
           (fun file =>
              if bool_decide (file_size file > 0) then []
              else [mkIssue [] "Image is required"]))
        (fun file =>
           if bool_decide (file_size file <= MAX_SIZE) then []
           else [mkIssue [] "Image size must be less than 3MB"])
  | _ => PAborted [mkIssue [] "Input not instance of File"]
  end.

(** [z.discriminatedUnion('intent', [DeleteImageSchema, NewImageSchema])] *)
Definition PhotoFormSchema : ObjectSchema PhotoForm := fun v =>
  match coerceEmpty (v !! "intent") with
  | Some (FText intent) =>
      if bool_decide (intent = "delete") then PValid DeleteImage
      else if bool_decide (intent = "submit")
      then pmap NewImage (field "photoFile" photoFileSchema v)
      else PAborted [mkIssue ["intent"] "Invalid discriminator value"]
  | _ => PAborted [mkIssue ["intent"] "Invalid discriminator value"]
  end.

(** What the transform returns: [{ intent: 'delete' }],
    [{ intent, image }] or [z.NEVER]. *)
Inductive PhotoData :=
| DataDelete
| DataSubmit (image : Image)
| DataNever.

(** [PhotoFormSchema.transform(...).safeParseAsync(value)] *)
Definition parseForm (value : FormObject) : M (ZodResult PhotoData) :=
  transformed <- transform (PhotoFormSchema value) (fun d =>
    match d with
    | DeleteImage => ret DataDelete
    | NewImage photoFile =>
        if bool_decide (file_size photoFile <= 0) then ret DataNever
        else ret (DataSubmit
                    (mkImage (file_type photoFile) (file_bytes photoFile)))
    end) ;;;
  ret (toResult transformed).

Definition loader (request : Request) : M User :=
  userId <- requireUserId request ;;;
  user <- prisma.user_findUnique_id userId ;;;
  match user with
  | None =>
      throwResponse (mkResponse 404 None [] BodyEmpty)
  | Some user => ret user
  end.

(** Everything up to [const result = ...]. *)
Definition validation (request : Request) : M (ZodResult PhotoData) :=
  userId <- requireUserId request ;;;
  formData <- liftOutcome (parseFormData request MAX_SIZE) ;;;
  let submission := parseSubmission formData in
  parseForm (sub_value submission).

Definition action (request : Request) : M Response :=
  userId <- requireUserId request ;;;
  formData <- liftOutcome (parseFormData request MAX_SIZE) ;;;
  let submission := parseSubmission formData in
  result <- parseForm (sub_value submission) ;;;
  match result with
  | ZFailure _ =>
      ret (data
             (BodyResult
                (report submission
                   (mkReportOptions (resolveZodResult result) [])))
             badRequest)
  | ZSuccess DataDelete =>
      prisma.userImage_deleteMany userId ;;;
      throwResponse (redirect "/settings/profile" noInit)
  | ZSuccess (DataSubmit image) =>
      prisma.transaction
        (prisma.userImage_deleteMany userId ;;;
         prisma.user_update_image_create userId image) ;;;
      throwResponse (redirect "/settings/profile" noInit)
  | ZSuccess DataNever =>
      (* neither [intent] nor [image]; not reached, see [parseForm] *)
      prisma.transaction
        (prisma.userImage_deleteMany userId ;;;
         throw (A := unit) (ThrownError "Argument `create` is missing")) ;;;
      throwResponse (redirect "/settings/profile" noInit)
  end.
End Route.
End ProfilePhoto.

(** ** The one-time code verifier *)

(** The code algorithm and the completion handlers of the flows whose
    routes are not under src/, taken as parameters. *)
Class VerifyFlows := {
  expectedCodes : Verification -> Z -> list string;
  handleOtherVerification : string -> VerifyFunctionArgs -> M Response;
}.

Module Verify.
Section Verifier.
Context `{VerifyFlows}.

Definition z_string : Schema string := fun v =>
  match coerceEmpty v with
  | Some (FText s) => PValid s
  | None => PAborted [mkIssue [] "Required"]
  | Some (FFile _) => PAborted [mkIssue [] "Expected string, received object"]
  end.

Definition z_enum (values : list string) : Schema string := fun v =>
  match coerceEmpty v with
  | Some (FText s) =>
      if bool_decide (s ∈ values) then PValid s
      else PAborted [mkIssue [] "Invalid enum value"]
  | None => PAborted [mkIssue [] "Required"]
  | Some (FFile _) => PAborted [mkIssue [] "Invalid enum value"]
  end.

(** Modelled from the spec: the schema of [validateRequest]
    (`verify.server.ts`, not under src/): "runs schema validation
    ([code], [type] ∈ typeSet, [target])"; the link may also carry
    [redirectTo]. *)
Definition VerifySchema (typeSet : list string)
  : ObjectSchema VerifyResultData := fun v =>
  pmap (fun o => mkVerifyResultData o.1 o.2.1 o.2.2.1 o.2.2.2)
    (merge pair (field "code" z_string v)
    (merge pair (field "type" (z_enum typeSet) v)
    (merge pair (field "target" z_string v)
                (field "redirectTo" z_string_optional v)))).

Definition isRecord (type target : string) (v : Verification) : bool :=
  bool_decide (ver_type v = type) && bool_decide (ver_target v = target).

(** Modelled from the spec: [isCodeValid] (`verify.server.ts`, not under
    src/): "fetches the record for [(type, target)]; fails closed
    ([false]) if absent or [expiresAt <= now]; otherwise recomputes the
    expected code(s) ... and compares against the supplied code". *)
Definition isCodeValid (type target code : string) : M bool :=
  gets (fun w =>
    match find (isRecord type target) (verifications w) with
    | None => false
    | Some v =>
        match ver_expiresAt v with
        | Some expiresAt =>
            if bool_decide (expiresAt <= now w) then false
            else bool_decide (code ∈ expectedCodes v (now w))
        | None => bool_decide (code ∈ expectedCodes v (now w))
        end
    end).

(** Modelled from the spec: the types whose record survives a successful
    verification: "deletes the record unless the type is flagged
    persistent (e.g., 2FA)". *)
Definition persistent (type : string) : bool := bool_decide (type = "2fa").

(** Modelled from the spec: the deletion of the record of [(type,
    target)], the pair that identifies it. *)
Definition deleteVerification (type target : string) : M unit :=
  modify (fun w =>
    prisma.setVerifications
      (filter (fun v => isRecord type target v = false) (verifications w)) w).

(** Modelled from the spec: [validateRequest] (`verify.server.ts`, not
    under src/): "runs schema validation ..., calls [isCodeValid]; on
    failure produces a field-level error report
    ([{ code: ['Invalid code'] }]) ...  On success, deletes the record
    unless the type is flagged persistent (e.g., 2FA), then dispatches to
    the flow-specific completion handler keyed by [type]." *)
Definition validateRequest (typeSet : list string) (request : Request)
  : M Response :=
  let submission := parseSubmission (req_formData request) in
  let result := toResult (VerifySchema typeSet (sub_value submission)) in
  match result with
  | ZFailure _ =>
      ret (data
             (BodyResult
                (report submission
                   (mkReportOptions (resolveZodResult result) [])))
             badRequest)
  | ZSuccess value =>
      valid <- isCodeValid (rd_type value) (rd_target value) (rd_code value) ;;;
      if negb valid then
        ret (data
               (BodyResult
                  (report submission
                     (mkReportOptions
                        (Some (mkFormError [] {[ "code" := ["Invalid code"] ]}))
                        [])))
               badRequest)
      else
        (if persistent (rd_type value) then ret tt
         else deleteVerification (rd_type value) (rd_target value)) ;;;
        let args := mkVerifyFunctionArgs request submission value in
        if bool_decide (rd_type value = "reset-password")
        then ResetPasswordServer.handleVerification args
        else if bool_decide (rd_type value = "onboarding")
        then OnboardingServer.handleVerification args
        else handleOtherVerification (rd_type value) args
  end.
End Verifier.
End Verify.

(** ** The flows and their endpoints *)

Inductive Flow :=
| OnboardingSignup        (* POST /onboarding *)
| ProviderOnboarding      (* POST /onboarding/:provider *)
| ChangePasswordFlow      (* POST /settings/profile/password *)
| CreatePasswordFlow      (* POST /settings/profile/password/create *)
| ResetPasswordFlow       (* POST /reset-password *)
| ProfilePhotoFlow.       (* POST /settings/profile/photo *)

Definition failureOf {A} (r : ZodResult A) : option (list Issue) :=
  match r with
  | ZSuccess _ => None
  | ZFailure issues => Some issues
  end.

Section Flows.
Context `{UserValidation} `{AuthServer} `{Utilities}.

Definition flowAction (f : Flow) (args : ActionArgs) : M Response :=
  match f with
  | OnboardingSignup => Onboarding.action (request args)
  | ProviderOnboarding => OnboardingProvider.action args
  | ChangePasswordFlow => ChangePassword.action (request args)
  | CreatePasswordFlow => CreatePassword.action (request args)
  | ResetPasswordFlow => ResetPassword.action (request args)
  | ProfilePhotoFlow => ProfilePhoto.action (request args)
  end.

(** The flow's handler up to the validation of the submission: the
    issues of a failed validation, [None] for a successful one. *)
Definition flowValidation (f : Flow) (args : ActionArgs)
  : M (option (list Issue)) :=
  match f with
  | OnboardingSignup =>
      r <- Onboarding.validation (request args) ;;; ret (failureOf r)
  | ProviderOnboarding =>
      r <- OnboardingProvider.validation args ;;; ret (failureOf r)
  | ChangePasswordFlow =>
      r <- ChangePassword.validation (request args) ;;; ret (failureOf r)
  | CreatePasswordFlow =>
      r <- CreatePassword.validation (request args) ;;; ret (failureOf r)
  | ResetPasswordFlow =>
      r <- ResetPassword.validation (request args) ;;; ret (failureOf r)
  | ProfilePhotoFlow =>
      r <- ProfilePhoto.validation (request args) ;;; ret (failureOf r)
  end.

(** The fields each flow's failure report hides. *)
Definition flowHideFields (f : Flow) : list string :=
  match f with
  | ChangePasswordFlow =>
      ["currentPassword"; "newPassword"; "confirmNewPassword"]
  | CreatePasswordFlow => ["password"; "confirmPassword"]
  | _ => []
  end.

(** The form data the flow's handler parses. *)
Definition flowFormData (f : Flow) (args : ActionArgs) : Outcome FormObject :=
  match f with
  | ProfilePhotoFlow => parseFormData (request args) ProfilePhoto.MAX_SIZE
  | _ => Ok (req_formData (request args))
  end.


(** The two signup endpoints: the handler up to the validation, which
    ends with the session of the new user, and the [remember] value of
    the parsed form. *)
Definition signupValidation (provider : bool) (args : ActionArgs)
  : M (ZodResult (option bool * AuthSession)) :=
  if provider then
    r <- OnboardingProvider.validation args ;;;
    ret (match r with
         | ZSuccess (d, session) =>
             ZSuccess (OnboardingProvider.remember d, session)
         | ZFailure issues => ZFailure issues
         end)
  else
    r <- Onboarding.validation (request args) ;;;
    ret (match r with
         | ZSuccess (d, session) => ZSuccess (Onboarding.remember d, session)
         | ZFailure issues => ZFailure issues
         end).

Definition signupAction (provider : bool) (args : ActionArgs) : M Response :=
  if provider then OnboardingProvider.action args
  else Onboarding.action (request args).
End Flows.

(** The echoed values of a response that carries a report. *)
Definition echoed (r : Response) : option FormObject :=
  match resp_body r with
  | BodyEmpty => None
  | BodyResult x => Some (res_value x)
  | BodyJson x => Some (res_value x)
  end.

Definition errorOf (r : Response) : option FormError :=
  match resp_body r with
  | BodyEmpty => None
  | BodyResult x => res_error x
  | BodyJson x => res_error x
  end.

(** What a client observes of a response apart from the wrapping of the
    report in the body. *)
Definition observe (r : Response)
  : Z * option string * list SetCookie * option SubmissionResult :=
  (resp_status r, resp_location r, resp_set_cookie r,
   match resp_body r with
   | BodyEmpty => None
   | BodyResult x => Some x
   | BodyJson x => Some x
   end).

Definition observeOutcome (o : Outcome Response * World) :=
  (match o.1 with
   | Ok r => inl (observe r)
   | Throw (ThrownResponse r) => inr (inl (observe r))
   | Throw (ThrownError e) => inr (inr e)
   end, o.2).

(** ** routes/resources+/theme-switch.tsx *)

(** `#app/utils/theme.server.ts`: the set-cookie value of a theme, taken
    as a parameter. *)
Inductive Theme := system | light | dark.

Class ThemeServer := {
  setTheme : Theme -> string;
}.

Module ThemeSwitch.
Section Route.
Context `{ThemeServer}.

Definition themeName (t : Theme) : string :=
  match t with
  | system => "system"
  | light => "light"
  | dark => "dark"
  end.

Record ThemeForm := mkThemeForm {
  theme : Theme;
  redirectTo : option string;
}.

(** [z.enum(['system', 'light', 'dark'])] on a coerced form value. *)
Definition z_enum_theme : Schema Theme := fun v =>
  match coerceEmpty v with
  | Some (FText s) =>
      if bool_decide (s = "system") then PValid system
      else if bool_decide (s = "light") then PValid light
      else if bool_decide (s = "dark") then PValid dark
      else PAborted [mkIssue [] "Invalid enum value"]
  | None => PAborted [mkIssue [] "Required"]
  | Some (FFile _) => PAborted [mkIssue [] "Invalid enum value"]
  end.

Definition ThemeFormSchema : ObjectSchema ThemeForm := fun v =>
  merge mkThemeForm (field "theme" z_enum_theme v)
    (field "redirectTo" z_string_optional v).

(** What the action answers: the response thrown by [invariantResponse]
    (status 400, with its message), a redirect with the theme's
    set-cookie header, or the report as data with that header. *)
Inductive Answer :=
| Invalid (message : string)
| Redirected (url : string) (setCookie : string)
| Reported (result : SubmissionResult) (setCookie : string).

Definition action (request : Request) : Answer :=
  let formData := req_formData request in
  let submission := parseSubmission formData in
  let result := toResult (ThemeFormSchema (sub_value submission)) in
  match result with
  | ZFailure _ => Invalid "Invalid theme received"
  | ZSuccess d =>
      let setCookie := setTheme (theme d) in
      match redirectTo d with
      | Some url =>
          if bool_decide (url = "")
          then Reported
                 (report submission
                    (mkReportOptions (resolveZodResult result) []))
                 setCookie
          else Redirected url setCookie
      | None =>
          Reported
            (report submission (mkReportOptions (resolveZodResult result) []))
            setCookie
      end
  end.

(** The theme switch: the mode it shows and the one a press asks for. *)
Definition mode (optimisticMode userPreference : option Theme) : Theme :=
  default (default system userPreference) optimisticMode.

Definition nextMode (mode : Theme) : Theme :=
  match mode with
  | system => light
  | light => dark
  | dark => system
  end.

(** The fields of the form the switch renders: the hidden [theme] input
    and, when rendered on the server, the hidden [redirectTo] input. *)
Definition switchForm (mode : Theme) (path : option string) : FormObject :=
  match path with
  | Some path =>
      <[ "redirectTo" := FText path ]>
        {[ "theme" := FText (themeName (nextMode mode)) ]}
  | None => {[ "theme" := FText (themeName (nextMode mode)) ]}
  end.

(** A fetcher as the hooks see it. *)
Record Fetcher := mkFetcher {
  formAction : option string;
  fetcher_formData : option FormObject;
}.

(** [useOptimisticThemeMode()], given the fetchers in flight. *)
Definition useOptimisticThemeMode (fetchers : list Fetcher) : option Theme :=
  let themeFetcher :=
    find (fun f => bool_decide (formAction f = Some "/resources/theme-switch"))
      fetchers in
  match themeFetcher with
  | Some f =>
      match fetcher_formData f with
      | Some formData =>
          let submission := parseSubmission formData in
          match toResult (ThemeFormSchema (sub_value submission)) with
          | ZSuccess d => Some (theme d)
          | ZFailure _ => None
          end
      | None => None
      end
  | None => None
  end.


End Route.
End ThemeSwitch.

(** ** A small deployment to run the handlers on *)

Module Sample.

(** A string of at least [min] characters. *)
Definition minString (min : nat) (message : string) : Schema string := fun v =>
  match coerceEmpty v with
  | Some (FText s) =>
      if (String.length s <? min)%nat then PDirty s [mkIssue [] message]
      else PValid s
  | None => PAborted [mkIssue [] "Required"]
  | Some (FFile _) => PAborted [mkIssue [] "Expected string, received object"]
  end.

Definition samplePassword : Schema string :=
  minString 6 "Password is too short".

Definition samplePasswordAndConfirm : ObjectSchema PasswordAndConfirmPassword :=
  fun v =>
    refine
      (merge mkPasswordAndConfirmPassword
         (field "password" samplePassword v)
         (field "confirmPassword" samplePassword v))
      (fun d =>
         if bool_decide (confirmPassword d ≠ password d)
         then [mkIssue ["confirmPassword"] "The passwords must match"]
         else []).

Definition validation : UserValidation := {|
  UsernameSchema := minString 3 "Username is too short";
  NameSchema := minString 3 "Name is too short";
  PasswordSchema := samplePassword;
  PasswordAndConfirmPasswordSchema := samplePasswordAndConfirm;
|}.

Definition sampleSessionKey : string := "sessionId".

(** The actor of a request: the user of the persisted, unexpired session
    the auth cookie points to. *)
Definition sampleGetUserId (request : Request) (w : World) : option string :=
  match getSession AuthStore (req_cookie request) !! sampleSessionKey with
  | Some (VString id) =>
      match find (fun s => bool_decide (session_id s = id)
                           && bool_decide (now w < session_expirationDate s))
              (sessions w) with
      | Some s => Some (session_userId s)
      | None => None
      end
  | _ => None
  end.

Definition sampleHash (pw : string) : string := String.append "hash:" pw.

Definition newSession (userId : string) (w : World) : AuthSession :=
  mkAuthSession (String.append "session-of-" userId) userId (now w + 2592000).

Definition sampleSignup (args : SignupArgs) : M AuthSession := fun w =>
  let userId := String.append "id-" (su_username args) in
  let session := newSession userId w in
  (Ok session,
   mkWorld
     (users w ++ [mkUser userId (su_email args) (su_username args)
                    (su_name args)])
     (passwords w ++ [mkPassword userId (sampleHash (su_password args))])
     (userImages w) (sessions w ++ [session]) (verifications w) (now w)).

Definition sampleSignupWithConnection (args : ConnectionSignupArgs)
  : M AuthSession := fun w =>
  let userId := String.append "id-" (cs_username args) in
  let session := newSession userId w in
  (Ok session,
   mkWorld
     (users w ++ [mkUser userId (cs_email args) (cs_username args)
                    (cs_name args)])
     (passwords w) (userImages w) (sessions w ++ [session])
     (verifications w) (now w)).

Definition sampleResetUserPassword (username pw : string) : M unit :=
  user <- prisma.user_findUnique_username username ;;;
  match user with
  | None => throw (ThrownError "Record to update not found")
  | Some u => prisma.user_update_password_update (user_id u) (sampleHash pw)
  end.

Definition sampleLogin (username pw : string) : M (option AuthSession) :=
  fun w =>
    match find (fun u => bool_decide (user_username u = username)) (users w) with
    | None => (Ok None, w)
    | Some u =>
        match find (fun p => bool_decide (password_userId p = user_id u))
                (passwords w) with
        | Some p =>
            if bool_decide (password_hash p = sampleHash pw) then
              let session := newSession (user_id u) w in
              (Ok (Some session),
               mkWorld (users w) (passwords w) (userImages w)
                 (sessions w ++ [session]) (verifications w) (now w))
            else (Ok None, w)
        | None => (Ok None, w)
        end
    end.

Definition auth : AuthServer := {|
  sessionKey := sampleSessionKey;
  getUserId := sampleGetUserId;
  getPasswordHash := sampleHash;
  comparePassword := fun pw hash => bool_decide (hash = sampleHash pw);
  signup := sampleSignup;
  signupWithConnection := sampleSignupWithConnection;
  resetUserPassword := sampleResetUserPassword;
  login := sampleLogin;
|}.

Definition utilities : Utilities := {|
  checkHoneypot := fun formData =>
    match formData !! "name__confirm" with
    | None | Some (FText "") => None
    | Some _ => Some (ThrownResponse (mkResponse 400 None [] BodyEmpty))
    end;
  safeRedirect := fun to =>
    match to with
    | Some s => if String.prefix "/" s then s else "/"
    | None => "/"
    end;
  ProviderNameSchema := fun provider =>
    match provider with
    | Some "github" => Some "github"
    | _ => None
    end;
  parseFormData := fun request _ => Ok (req_formData request);
  handleNewSession := fun args =>
    ret (redirect "/"
           (mkInit None
              [commitSession AuthStore
                 {[ sampleSessionKey := VString (session_id (ns_session args)) ]}
                 (if ns_remember args
                  then Some (session_expirationDate (ns_session args))
                  else None)]));
|}.

Definition flows : VerifyFlows := {|
  expectedCodes := fun v _ => [ver_secret v];
  handleOtherVerification := fun _ _ => ret (redirect "/" noInit);
|}.

(** One user, [kody], with a password, an image and a session. *)
Definition kody : User := mkUser "u1" "kody@example.com" "kody" "Kody".

Definition world : World := mkWorld
  [kody]
  [mkPassword "u1" (sampleHash "kodylovesyou")]
  [mkUserImage "u1" (mkImage "image/png" "old-bytes")]
  [mkAuthSession "s1" "u1" 2000]
  [mkVerification "reset-password" "kody" "ABC123" "SHA256" 600 "A-Z0-9"
     (Some 1500);
   mkVerification "onboarding" "new@example.com" "XYZ789" "SHA256" 600
     "A-Z0-9" (Some 1500)]
  1000.

(** The request of [kody]'s browser and of an anonymous browser. *)
Definition asKody (formData : FormObject) : Request :=
  mkRequest (Some [(AuthStore, {[ sampleSessionKey := VString "s1" ]})])
    formData.

Definition anonymous (formData : FormObject) : Request :=
  mkRequest None formData.

(** An anonymous browser that has verified an email for onboarding. *)
Definition onboarding (formData : FormObject) : Request :=
  mkRequest
    (Some [(VerifyStore,
            {[ Onboarding.onboardingEmailSessionKey
                 := VString "new@example.com" ]})])
    formData.

Definition providerOnboarding (formData : FormObject) : Request :=
  mkRequest
    (Some [(VerifyStore,
            <[ OnboardingProvider.providerIdKey := VString "gh-42" ]>
              {[ Onboarding.onboardingEmailSessionKey
                   := VString "new@example.com" ]})])
    formData.

Definition resetting (formData : FormObject) : Request :=
  mkRequest
    (Some [(VerifyStore,
            {[ ResetPassword.resetPasswordUsernameSessionKey
                 := VString "kody" ]})])
    formData.

Definition form (entries : list (string * string)) : FormObject :=
  list_to_map ((fun e => (e.1, FText e.2)) <$> entries).

Definition signupForm (pw confirm : string) (remember : bool) : FormObject :=
  form ([("username", "hannah"); ("name", "Hannah");
         ("agreeToTermsOfServiceAndPrivacyPolicy", "on");
         ("password", pw); ("confirmPassword", confirm)]
        ++ (if remember then [("remember", "on")] else []))%list.

Definition providerForm (username : string) (remember : bool) : FormObject :=
  form ([("username", username); ("name", "Hannah");
         ("agreeToTermsOfServiceAndPrivacyPolicy", "on")]
        ++ (if remember then [("remember", "on")] else []))%list.

(** An upload of the given size, and the form that submits it. *)
Definition photo (size : Z) : File :=
  mkFile "me.png" "image/png" size "new-bytes".

Definition photoForm (size : Z) : FormObject :=
  <[ "photoFile" := FFile (photo size) ]> (form [("intent", "submit")]).

Definition verifyForm (type target code : string) : FormObject :=
  form [("code", code); ("type", type); ("target", target)].

Definition verifyTypes : list string :=
  ["reset-password"; "onboarding"; "change-email"; "2fa"].

Definition changePasswordForm (current new confirm : string) : FormObject :=
  form [("currentPassword", current); ("newPassword", new);
        ("confirmNewPassword", confirm)].

(** [kody] changes the password with a wrong current password; the
    second time the new password is left empty. *)
Definition wrongCurrent : Request :=
  asKody (changePasswordForm "wrongpass" "abcdefg" "abcdefg").

Definition wrongCurrentEmptyNew : Request :=
  asKody (changePasswordForm "wrongpass" "" "").

(** A signup whose two passwords differ. *)
Definition mismatchedSignup : ActionArgs :=
  mkActionArgs (onboarding (signupForm "secret1" "secret2" true)) ∅.

(** A signup that goes through, with the remember checkbox checked, and
    the state it leaves. *)
Definition hannahSignup : ActionArgs :=
  mkActionArgs (onboarding (signupForm "secret1" "secret1" true)) ∅.

Definition hannahSession : AuthSession := newSession "id-hannah" world.

Definition worldWithHannah : World :=
  (sampleSignup (mkSignupArgs "new@example.com" "hannah" "Hannah" "secret1")
     world).2.

(** [kody] finishes a password reset, and the state it leaves. *)
Definition kodyReset : ActionArgs :=
  mkActionArgs
    (resetting
       (form [("password", "newsecret"); ("confirmPassword", "newsecret")]))
    ∅.

Definition worldAfterReset : World :=
  prisma.setPasswords [mkPassword "u1" (sampleHash "newsecret")] world.

(** [kody] before a password was set, creating one. *)
Definition worldWithoutPassword : World := prisma.setPasswords [] world.

Definition createPassword : Request :=
  asKody (form [("password", "newsecret"); ("confirmPassword", "newsecret")]).

(** A reset and a login whose submissions fail validation. *)
Definition mismatchedReset : Request :=
  resetting (form [("password", "secret1"); ("confirmPassword", "secret2")]).

Definition failedLogin : Request :=
  anonymous (form [("username", "kody"); ("password", "notkodys")]).

(** What the verifier hands to a completion handler for this link. *)
Definition verifyArgs (type target code : string) : VerifyFunctionArgs :=
  let request := anonymous (verifyForm type target code) in
  mkVerifyFunctionArgs request (parseSubmission (req_formData request))
    (mkVerifyResultData code type target None).

(** The theme cookie of the sample deployment. *)
Definition themes : ThemeServer := {|
  setTheme := fun t => String.append "en_theme=" (ThemeSwitch.themeName t);
|}.


(** A login of [kody] with the right password. *)
Definition kodyLogin : Request :=
  anonymous (form [("username", "kody"); ("password", "kodylovesyou");
                   ("remember", "on")]).

(** The deployment after [kody]'s user row has been removed while the
    session is still there. *)
Definition worldWithoutUsers : World :=
  mkWorld [] (passwords world) (userImages world) (sessions world)
    (verifications world) (now world).

(** A signup through a provider under the username of [kody]. *)
Definition kodyProviderSignup : ActionArgs :=
  mkActionArgs (providerOnboarding (providerForm "kody" false))
    {[ "provider" := "github" ]}.

End Sample.

(** ** Vocabulary of the properties *)

(** The user is one the target of a verification stands for. *)
Definition matchesTarget (target : string) (u : User) : Prop :=
  user_email u = target ∨ user_username u = target.

(** The verification cookie of the request holds a non-empty string under
    the onboarding key. *)
Definition holdsOnboardingEmail (request : Request) : Prop :=
  ∃ s, s ≠ ""
       ∧ getSession VerifyStore (req_cookie request)
           !! Onboarding.onboardingEmailSessionKey = Some (VString s).

(** The value of a parse that was not aborted. *)
Definition parsedValue {A} (p : Parsed A) : option A :=
  match p with
  | PValid a => Some a
  | PDirty a _ => Some a
  | PAborted _ => None
  end.

(** The password row the ORM finds for the user. *)
Definition storedPassword (userId : string) (w : World) : option Password :=
  find (fun p => bool_decide (password_userId p = userId)) (passwords w).

(** The user is a row of the users table. *)
Definition userExists (userId : string) (w : World) : Prop :=
  ∃ u, u ∈ users w ∧ user_id u = userId.

(** The image rows of a user. *)
Definition imagesOf (userId : string) (w : World) : list UserImage :=
  filter (fun i => userImage_userId i = userId) (userImages w).

(** The state after the user's image rows have been replaced by one new
    row; the other users' rows are kept. *)
Definition withImage (userId : string) (image : Image) (w : World) : World :=
  prisma.setUserImages
    (filter (fun i => userImage_userId i ≠ userId) (userImages w)
     ++ [mkUserImage userId image]) w.

(** The state after a password row has been created for the user. *)
Definition withPassword (userId hash : string) (w : World) : World :=
  prisma.setPasswords (passwords w ++ [mkPassword userId hash]) w.

(** The set-cookie header of an answer of the theme action. *)
Definition answerCookie (a : ThemeSwitch.Answer) : option string :=
  match a with
  | ThemeSwitch.Invalid _ => None
  | ThemeSwitch.Redirected _ c => Some c
  | ThemeSwitch.Reported _ c => Some c
  end.

(** The form names one of the three themes and its [redirectTo], if any,
    is text. *)
Definition namesTheme (formData : FormObject) (t : Theme) : Prop :=
  formData !! "theme" = Some (FText (ThemeSwitch.themeName t))
  ∧ ∀ f, formData !! "redirectTo" ≠ Some (FFile f).

(** The fetcher submits to the theme switch. *)
Definition targetsThemeSwitch (f : ThemeSwitch.Fetcher) : Prop :=
  ThemeSwitch.formAction f = Some "/resources/theme-switch".



(** The state after the password rows of the user have been given a new
    hash; the rows of the other users are kept. *)
Definition withChangedPassword (userId hash : string) (w : World) : World :=
  prisma.setPasswords
    ((fun p => if bool_decide (password_userId p = userId)
               then mkPassword userId hash else p) <$> passwords w) w.

(** The state after the image rows of the user have been deleted. *)
Definition withoutImages (userId : string) (w : World) : World :=
  prisma.setUserImages
    (filter (fun i => userImage_userId i ≠ userId) (userImages w)) w.

(** The two states differ at most in the given table. *)
Definition sameButPasswords (w w' : World) : Prop :=
  users w' = users w ∧ userImages w' = userImages w
  ∧ sessions w' = sessions w ∧ verifications w' = verifications w
  ∧ now w' = now w.

Definition sameButImages (w w' : World) : Prop :=
  users w' = users w ∧ passwords w' = passwords w
  ∧ sessions w' = sessions w ∧ verifications w' = verifications w
  ∧ now w' = now w.

Section PhotoOutcomes.
Context `{AuthServer} `{Utilities}.

(** Every way the photo action can end. *)
Inductive PhotoOutcome (request : Request) (w : World)
  : Outcome Response → World → Prop :=
| PhotoAnonymous :
    getUserId request w = None →
    PhotoOutcome request w
      (Throw (ThrownResponse (redirect "/login" noInit))) w
| PhotoUnreadable userId t :
    getUserId request w = Some userId →
    parseFormData request ProfilePhoto.MAX_SIZE = Throw t →
    PhotoOutcome request w (Throw t) w
| PhotoInvalid userId formData issues :
    getUserId request w = Some userId →
    parseFormData request ProfilePhoto.MAX_SIZE = Ok formData →
    PhotoOutcome request w
      (Ok (data
             (BodyResult
                (report (parseSubmission formData)
                   (mkReportOptions (Some (resolveIssues issues)) [])))
             badRequest)) w
| PhotoDeleted userId formData :
    getUserId request w = Some userId →
    parseFormData request ProfilePhoto.MAX_SIZE = Ok formData →
    PhotoOutcome request w
      (Throw (ThrownResponse (redirect "/settings/profile" noInit)))
      (withoutImages userId w)
| PhotoReplaced userId formData image :
    getUserId request w = Some userId →
    parseFormData request ProfilePhoto.MAX_SIZE = Ok formData →
    userExists userId w →
    PhotoOutcome request w
      (Throw (ThrownResponse (redirect "/settings/profile" noInit)))
      (withImage userId image w)
| PhotoRolledBack userId formData :
    getUserId request w = Some userId →
    parseFormData request ProfilePhoto.MAX_SIZE = Ok formData →
    ¬ userExists userId w →
    PhotoOutcome request w
      (Throw (ThrownError "Record to update not found")) w.

End PhotoOutcomes.

(** The report of a signup under a username that is taken. *)
Definition usernameTaken (formData : FormObject) : Response :=
  data
    (BodyResult
       (report (parseSubmission formData)
          (mkReportOptions
             (Some (mkFormError []
                      {[ "username"
                           := ["A user already exists with this username"] ]}))
             [])))
    badRequest.

(** * Properties *)

(** ** Lookups *)

Lemma find_none_all {A} (f : A -> bool) (l : list A) :
  (∀ x, x ∈ l → f x = false) → find f l = None.
Proof.
  induction l as [|a l IH]; intros Hall; [reflexivity|].
  simpl. rewrite (Hall a) by apply list_elem_of_here.
  apply IH. intros x Hx. apply Hall. by apply list_elem_of_further.
Qed.

Lemma find_some_exists {A} (f : A -> bool) (l : list A) :
  (∃ x, x ∈ l ∧ f x = true) → ∃ y, find f l = Some y ∧ y ∈ l ∧ f y = true.
Proof.
  induction l as [|a l IH]; intros (x & Hx & Hfx).
  - by apply elem_of_nil in Hx.
  - simpl. destruct (f a) eqn:Hfa.
    + exists a. split_and!; [done | apply list_elem_of_here | done].
    + apply elem_of_cons in Hx as [-> | Hx]; [congruence|].
      destruct IH as (y & Hy & Hin & Hfy); [by exists x|].
      exists y. split_and!; [done | by apply list_elem_of_further | done].
Qed.

Lemma hide_lookup_hidden (names : list string) (v : FormObject) (k : string) :
  k ∈ names → hide names v !! k = None.
Proof.
  induction names as [|n names IH]; intros Hk.
  - by apply elem_of_nil in Hk.
  - simpl. destruct (decide (n = k)) as [-> | Hne].
    + apply lookup_delete_eq.
    + rewrite lookup_delete_ne by done. apply IH.
      apply elem_of_cons in Hk as [-> | Hk]; [congruence | done].
Qed.

Lemma hide_lookup_shown (names : list string) (v : FormObject) (k : string) :
  k ∉ names → hide names v !! k = v !! k.
Proof.
  induction names as [|n names IH]; intros Hk; [reflexivity|].
  simpl. apply not_elem_of_cons in Hk as [Hne Hk].
  rewrite lookup_delete_ne by congruence. by apply IH.
Qed.

Lemma hide_nil (v : FormObject) : hide [] v = v.
Proof. reflexivity. Qed.

(** ** The reset-password hand-off *)


Lemma findFirst_some (target : string) (w : World) :
  (∃ u, u ∈ users w ∧ matchesTarget target u) →
  ∃ user, user ∈ users w ∧ matchesTarget target user
          ∧ prisma.user_findFirst_emailOrUsername target w = (Ok (Some user), w).
Proof.
  intros (u & Hu & Hm).
  destruct (find_some_exists
              (fun u => bool_decide (user_email u = target)
                        || bool_decide (user_username u = target))
              (users w)) as (y & Hfind & Hin & Hy).
  { exists u. split; [done|]. destruct Hm as [Hm | Hm].
    - apply orb_true_intro. left. by apply bool_decide_eq_true.
    - apply orb_true_intro. right. by apply bool_decide_eq_true. }
  exists y. split_and!; [done | |].
  - apply orb_prop in Hy as [Hy | Hy]; apply bool_decide_eq_true in Hy;
      [by left | by right].
  - unfold prisma.user_findFirst_emailOrUsername, gets. by rewrite Hfind.
Qed.


(** C7.  When the target matches a user, [handleVerification] redirects
    to /reset-password and commits a verification session that holds that
    user's username under [resetPasswordUsername]; the verifier, having
    accepted the code, has deleted the record of the pair before it hands
    over. *)
Theorem reset_password_known_target_redirects
    `{VerifyFlows} (args : VerifyFunctionArgs) (w : World) :
  (∃ u, u ∈ users w ∧ matchesTarget (rd_target (vf_resultData args)) u) →
  ∃ user r,
    user ∈ users w ∧ matchesTarget (rd_target (vf_resultData args)) user
    ∧ r = redirect "/reset-password"
            (mkInit None
               [commitSession VerifyStore
                  {[ ResetPassword.resetPasswordUsernameSessionKey
                       := VString (user_username user) ]} None])
    ∧ ResetPasswordServer.handleVerification args w = (Ok r, w)
    ∧ ∀ typeSet,
        vf_submission args = parseSubmission (req_formData (vf_request args)) →
        toResult (Verify.VerifySchema typeSet (sub_value (vf_submission args)))
          = ZSuccess (vf_resultData args) →
        rd_type (vf_resultData args) = "reset-password" →
        (Verify.isCodeValid (rd_type (vf_resultData args))
           (rd_target (vf_resultData args)) (rd_code (vf_resultData args))
           w).1 = Ok true →
        ∃ w',
          Verify.validateRequest typeSet (vf_request args) w = (Ok r, w')
          ∧ (∀ v, v ∈ verifications w' →
                  ¬ (ver_type v = "reset-password"
                     ∧ ver_target v = rd_target (vf_resultData args)))
          ∧ users w' = users w ∧ passwords w' = passwords w.
Proof.
  intros Hex.
  destruct (findFirst_some _ _ Hex) as (user & Hin & Hm & Hfind).
  exists user. eexists.
  split; [exact Hin|]. split; [exact Hm|]. split; [reflexivity|].
  split.
  { unfold ResetPasswordServer.handleVerification, bind. rewrite Hfind.
    simpl. unfold commitSession. by rewrite insert_empty. }
  intros typeSet Hsub Hparse Htype Hcode.
  eexists. split.
  { unfold Verify.validateRequest. rewrite <- Hsub, Hparse.
    unfold bind at 1. unfold Verify.isCodeValid, gets in *. simpl in Hcode.
    injection Hcode as ->. simpl.
    rewrite Htype. simpl.
    unfold bind at 1. unfold Verify.deleteVerification, modify.
    unfold ResetPasswordServer.handleVerification, bind.
    unfold prisma.user_findFirst_emailOrUsername, gets in *. simpl in *.
    injection Hfind as Hfind. rewrite Hfind.
    unfold commitSession. by rewrite insert_empty. }
  split; [|split; reflexivity].
  intros v Hv. simpl in Hv.
  apply list_elem_of_filter in Hv as [Hv _].
  intros [Ht Hta]. unfold Verify.isRecord in Hv.
  rewrite !bool_decide_eq_true_2 in Hv by done.
  discriminate.
Qed.


Lemma reset_password_known_target_witness :
  ∃ user r w',
    user ∈ users Sample.world ∧ matchesTarget "kody" user
    ∧ r = redirect "/reset-password"
            (mkInit None
               [commitSession VerifyStore
                  {[ ResetPassword.resetPasswordUsernameSessionKey
                       := VString (user_username user) ]} None])
    ∧ ResetPasswordServer.handleVerification
        (Sample.verifyArgs "reset-password" "kody" "ABC123") Sample.world
      = (Ok r, Sample.world)
    ∧ @Verify.validateRequest Sample.flows Sample.verifyTypes
        (vf_request (Sample.verifyArgs "reset-password" "kody" "ABC123"))
        Sample.world
      = (Ok r, w')
    ∧ (∀ v, v ∈ verifications w' →
            ¬ (ver_type v = "reset-password" ∧ ver_target v = "kody")).
Proof.
  destruct (@reset_password_known_target_redirects Sample.flows
              (Sample.verifyArgs "reset-password" "kody" "ABC123")
              Sample.world)
    as (user & r & Hin & Hm & Hr & Hrun & Hverifier).
  - exists Sample.kody. split; [apply list_elem_of_here | by right].
  - destruct (Hverifier Sample.verifyTypes) as (w' & Hv & Hdel & _);
      [reflexivity | vm_compute; reflexivity | reflexivity
      | vm_compute; reflexivity |].
    exists user, r, w'.
    split_and!; [exact Hin | exact Hm | exact Hr | exact Hrun | exact Hv
                | exact Hdel].
Defined.

(** ** The onboarding guard *)

(** C6, as amended.  For every request of an anonymous actor whose
    verification cookie does not hold a non-empty string under
    [onboardingEmail], the loader and the action of /onboarding throw a
    redirect to /signup, whatever the form data, and change nothing. *)
Theorem onboarding_requires_email
    `{UserValidation} `{AuthServer} `{Utilities}
    (request : Request) (w : World) :
  getUserId request w = None →
  ¬ holdsOnboardingEmail request →
  Onboarding.loader request w
    = (Throw (ThrownResponse (redirect "/signup" noInit)), w)
  ∧ Onboarding.action request w
    = (Throw (ThrownResponse (redirect "/signup" noInit)), w).
Proof.
  intros Hanon Hno.
  assert (Hguard : Onboarding.requireOnboardingEmail request w
                   = (Throw (ThrownResponse (redirect "/signup" noInit)), w)).
  { unfold Onboarding.requireOnboardingEmail, bind, requireAnonymous.
    rewrite Hanon.
    destruct (getSession VerifyStore (req_cookie request)
                !! Onboarding.onboardingEmailSessionKey)
      as [[s| | |]|] eqn:Hget; try reflexivity.
    case_bool_decide as Hs; [reflexivity|].
    exfalso. apply Hno. exists s. by split. }
  split.
  - unfold Onboarding.loader, bind. by rewrite Hguard.
  - unfold Onboarding.action, bind. by rewrite Hguard.
Qed.

Lemma onboarding_requires_email_witness :
  @Onboarding.loader Sample.auth (Sample.anonymous ∅) Sample.world
    = (Throw (ThrownResponse (redirect "/signup" noInit)), Sample.world)
  ∧ @Onboarding.action Sample.validation Sample.auth Sample.utilities
      (Sample.anonymous ∅) Sample.world
    = (Throw (ThrownResponse (redirect "/signup" noInit)), Sample.world).
Proof.
  apply (@onboarding_requires_email Sample.validation Sample.auth
           Sample.utilities (Sample.anonymous ∅) Sample.world).
  - reflexivity.
  - intros (s & _ & Hs). vm_compute in Hs. discriminate Hs.
Defined.

(** C6, as stated, fails for an authenticated actor: the guard for
    anonymous-only pages comes first and sends the actor away, here to the
    home page, although the cookie holds no onboarding email. *)
Lemma onboarding_authenticated_actor_counterexample :
  ¬ holdsOnboardingEmail (Sample.asKody ∅)
  ∧ @Onboarding.loader Sample.auth (Sample.asKody ∅) Sample.world
    = (Throw (ThrownResponse (redirect "/" noInit)), Sample.world)
  ∧ @Onboarding.action Sample.validation Sample.auth Sample.utilities
      (Sample.asKody ∅) Sample.world
    = (Throw (ThrownResponse (redirect "/" noInit)), Sample.world)
  ∧ @Onboarding.loader Sample.auth (Sample.asKody ∅) Sample.world
    ≠ (Throw (ThrownResponse (redirect "/signup" noInit)), Sample.world).
Proof.
  split_and!.
  - intros (s & _ & Hs). vm_compute in Hs. discriminate Hs.
  - vm_compute. reflexivity.
  - vm_compute. reflexivity.
  - vm_compute. intros Heq. discriminate Heq.
Qed.

(** ** Error reports *)

Lemma resolveIssues_snoc_field (issues : list Issue) (i : Issue) :
  issue_path i ≠ [] →
  resolveIssues (issues ++ [i])%list
  = mkFormError (formError (resolveIssues issues))
      (addFieldError i (fieldError (resolveIssues issues))).
Proof.
  intros Hpath. unfold resolveIssues. simpl.
  rewrite !list.filter_app.
  rewrite (filter_cons_False (fun i => issue_path i = [])) by done.
  rewrite (filter_cons_True (fun i => issue_path i ≠ [])) by done.
  rewrite !filter_nil, app_nil_r, foldl_app. reflexivity.
Qed.

Lemma addFieldError_lookup_eq (i : Issue) (m : gmap string (list string)) :
  addFieldError i m !! formatPath (issue_path i)
  = Some (default [] (m !! formatPath (issue_path i)) ++ [issue_message i])%list.
Proof. unfold addFieldError. apply lookup_insert_eq. Qed.

Lemma addFieldError_lookup_ne (i : Issue) (m : gmap string (list string))
    (name : string) :
  name ≠ formatPath (issue_path i) →
  addFieldError i m !! name = m !! name.
Proof. intros Hne. unfold addFieldError. by apply lookup_insert_ne. Qed.

(** ** Changing the password *)

(** C5, as amended.  When the three password fields are supplied, so that
    the form's parse is not aborted and [currentPassword] and
    [newPassword] are non-empty, and [currentPassword] does not match the
    stored hash, the action returns HTTP 400; its report is the one of the
    form's own issues with ['Incorrect password.'] added last under
    [currentPassword] and under no other name, and nothing persisted is
    modified. *)
Theorem change_password_incorrect_current
    `{UserValidation} `{AuthServer}
    (request : Request) (w : World) (userId : string) (stored : Password)
    (d : ChangePassword.ChangePassword) :
  getUserId request w = Some userId →
  storedPassword userId w = Some stored →
  parsedValue
    (ChangePassword.ChangePasswordForm
       (sub_value (parseSubmission (req_formData request)))) = Some d →
  ChangePassword.currentPassword d ≠ "" →
  ChangePassword.newPassword d ≠ "" →
  comparePassword (ChangePassword.currentPassword d) (password_hash stored)
    = false →
  let schemaError :=
    resolveIssues
      (issuesOf
         (ChangePassword.ChangePasswordForm
            (sub_value (parseSubmission (req_formData request))))) in
  ∃ r e,
    ChangePassword.action request w = (Ok r, w)
    ∧ resp_status r = 400
    ∧ errorOf r = Some e
    ∧ fieldError e !! "currentPassword"
      = Some (default [] (fieldError schemaError !! "currentPassword")
              ++ ["Incorrect password."])%list
    ∧ (∀ name, name ≠ "currentPassword" →
               fieldError e !! name = fieldError schemaError !! name)
    ∧ formError e = formError schemaError.
Proof.
  intros Hauth Hstored Hparse Hcur Hnew Hcmp schemaError.
  set (v := sub_value (parseSubmission (req_formData request))) in *.
  assert (Hform : ChangePassword.parseForm userId v w
            = (Ok (ZFailure
                     (issuesOf (ChangePassword.ChangePasswordForm v)
                      ++ [ChangePassword.incorrectPassword])%list), w)).
  { unfold ChangePassword.parseForm, bind at 1.
    unfold storedPassword in Hstored.
    destruct (ChangePassword.ChangePasswordForm v) as [a|a issues|issues]
      eqn:Hp; simpl in Hparse; try discriminate; injection Hparse as ->;
      unfold superRefine, bind;
      rewrite !bool_decide_eq_true_2 by done; simpl;
      unfold bind, verifyUserPassword, bind, prisma.user_findUnique_id,
        prisma.password_findUnique, gets, ret;
      rewrite Hstored, Hcmp;
      by destruct (find _ (users w)). }
  eexists. eexists. split.
  { unfold ChangePassword.action, bind at 1, requireUserId. rewrite Hauth.
    unfold bind at 1, ChangePassword.requirePassword, bind at 1,
      prisma.password_findUnique, gets.
    unfold storedPassword in Hstored. rewrite Hstored.
    unfold ret at 1. unfold bind at 1. fold v. rewrite Hform. reflexivity. }
  split; [reflexivity|]. split; [reflexivity|].
  rewrite resolveIssues_snoc_field by discriminate.
  split_and!.
  - apply (addFieldError_lookup_eq ChangePassword.incorrectPassword).
  - intros name Hne.
    apply (addFieldError_lookup_ne ChangePassword.incorrectPassword). exact Hne.
  - reflexivity.
Qed.

Lemma change_password_incorrect_current_witness :
  ∃ r e,
    @ChangePassword.action Sample.validation Sample.auth Sample.wrongCurrent
      Sample.world
      = (Ok r, Sample.world)
    ∧ resp_status r = 400
    ∧ errorOf r = Some e
    ∧ fieldError e !! "currentPassword" = Some ["Incorrect password."]
    ∧ (∀ name, name ≠ "currentPassword" → fieldError e !! name = None)
    ∧ formError e = [].
Proof.
  apply (@change_password_incorrect_current Sample.validation Sample.auth
           Sample.wrongCurrent Sample.world "u1"
           (mkPassword "u1" (Sample.sampleHash "kodylovesyou"))
           (ChangePassword.mkChangePassword "wrongpass" "abcdefg" "abcdefg")).
  - vm_compute. reflexivity.
  - vm_compute. reflexivity.
  - vm_compute. reflexivity.
  - discriminate.
  - discriminate.
  - vm_compute. reflexivity.
Defined.

(** C5, as stated, fails when [newPassword] is left empty: the current
    password, although it does not match the stored hash, is not checked,
    and the report carries no ['Incorrect password.']. *)
Lemma change_password_empty_new_counterexample :
  @comparePassword Sample.auth "wrongpass" (Sample.sampleHash "kodylovesyou")
    = false
  ∧ storedPassword "u1" Sample.world
    = Some (mkPassword "u1" (Sample.sampleHash "kodylovesyou"))
  ∧ ∃ r e,
      @ChangePassword.action Sample.validation Sample.auth
        Sample.wrongCurrentEmptyNew Sample.world
        = (Ok r, Sample.world)
      ∧ resp_status r = 400
      ∧ errorOf r = Some e
      ∧ fieldError e !! "currentPassword" = None
      ∧ formError e = [].
Proof.
  split; [vm_compute; reflexivity|].
  split; [vm_compute; reflexivity|].
  eexists. eexists. split; [vm_compute; reflexivity|].
  split; [reflexivity|]. split; [reflexivity|].
  split; vm_compute; reflexivity.
Qed.

(** ** Guards and parses leave the persisted state alone *)

(** Case analysis on an innermost scrutinee of the hypothesis. *)
Ltac case_match_in H :=
  match type of H with
  | context [match ?x with _ => _ end] =>
      lazymatch x with
      | context [match _ with _ => _ end] => fail
      | _ => destruct x eqn:?
      end
  end.

Ltac run_in H :=
  repeat (simpl in H;
          unfold bind, ret, throw, throwResponse, gets, check, liftOutcome in H;
          try case_match_in H; simplify_eq).

Section ReadOnly.
Context `{UserValidation} `{AuthServer} `{Utilities}.

Lemma requireUserId_state request w o w' :
  requireUserId request w = (o, w') → w' = w.
Proof. unfold requireUserId. intros Hr. by run_in Hr. Qed.

Lemma requireAnonymous_state request w o w' :
  requireAnonymous request w = (o, w') → w' = w.
Proof. unfold requireAnonymous. intros Hr. by run_in Hr. Qed.

Lemma requireOnboardingEmail_state request w o w' :
  Onboarding.requireOnboardingEmail request w = (o, w') → w' = w.
Proof.
  unfold Onboarding.requireOnboardingEmail, bind. intros Hr.
  destruct (requireAnonymous request w) as [[[]|t] w0] eqn:Ha;
    apply requireAnonymous_state in Ha as ->; by run_in Hr.
Qed.

Lemma requireResetPasswordUsername_state request w o w' :
  ResetPassword.requireResetPasswordUsername request w = (o, w') → w' = w.
Proof.
  unfold ResetPassword.requireResetPasswordUsername, bind. intros Hr.
  destruct (requireAnonymous request w) as [[[]|t] w0] eqn:Ha;
    apply requireAnonymous_state in Ha as ->; by run_in Hr.
Qed.

Lemma requireData_state args w o w' :
  OnboardingProvider.requireData args w = (o, w') → w' = w.
Proof.
  unfold OnboardingProvider.requireData, bind. intros Hr.
  destruct (requireAnonymous (request args) w) as [[[]|t] w0] eqn:Ha;
    apply requireAnonymous_state in Ha as ->; by run_in Hr.
Qed.

Lemma requireNoPassword_state userId w o w' :
  CreatePassword.requireNoPassword userId w = (o, w') → w' = w.
Proof.
  unfold CreatePassword.requireNoPassword, prisma.password_findUnique.
  intros Hr. by run_in Hr.
Qed.

Lemma requirePassword_state userId w o w' :
  ChangePassword.requirePassword userId w = (o, w') → w' = w.
Proof.
  unfold ChangePassword.requirePassword, prisma.password_findUnique.
  intros Hr. by run_in Hr.
Qed.

Lemma verifyUserPassword_state id pw w o w' :
  verifyUserPassword id pw w = (o, w') → w' = w.
Proof.
  unfold verifyUserPassword, prisma.user_findUnique_id,
    prisma.password_findUnique.
  intros Hr. by run_in Hr.
Qed.

(** A failed parse of the signup form has not called [signup]. *)
Lemma onboarding_parseForm_failure email value w issues w' :
  Onboarding.parseForm email value w = (Ok (ZFailure issues), w') → w' = w.
Proof.
  unfold Onboarding.parseForm, superRefine, transform, transformCtx,
    prisma.user_findUnique_username.
  intros Hr.
  destruct (Onboarding.SignupFormSchema value) as [d|d i|i]; run_in Hr;
    try done.
Qed.

Lemma provider_parseForm_failure required value w issues w' :
  OnboardingProvider.parseForm required value w = (Ok (ZFailure issues), w')
  → w' = w.
Proof.
  unfold OnboardingProvider.parseForm, superRefine, transform, transformCtx,
    prisma.user_findUnique_username.
  intros Hr.
  destruct (OnboardingProvider.SignupFormSchema value) as [d|d i|i];
    run_in Hr; try done.
Qed.

Lemma changePassword_parseForm_state userId value w o w' :
  ChangePassword.parseForm userId value w = (o, w') → w' = w.
Proof.
  unfold ChangePassword.parseForm, superRefine, bind. intros Hr.
  destruct (ChangePassword.ChangePasswordForm value) as [d|d i|i].
  - destruct (bool_decide _ && bool_decide _).
    + destruct (verifyUserPassword userId (ChangePassword.currentPassword d) w)
        as [[u|t] w0] eqn:Hv; apply verifyUserPassword_state in Hv as ->;
        by run_in Hr.
    + by run_in Hr.
  - destruct (bool_decide _ && bool_decide _).
    + destruct (verifyUserPassword userId (ChangePassword.currentPassword d) w)
        as [[u|t] w0] eqn:Hv; apply verifyUserPassword_state in Hv as ->;
        by run_in Hr.
    + by run_in Hr.
  - by run_in Hr.
Qed.

Lemma photo_parseForm_state value w o w' :
  ProfilePhoto.parseForm value w = (o, w') → w' = w.
Proof.
  unfold ProfilePhoto.parseForm, transform, transformCtx. intros Hr.
  destruct (ProfilePhoto.PhotoFormSchema value) as [[|f]|d i|i];
    by run_in Hr.
Qed.

End ReadOnly.

(** ** Validation failures *)

Lemma failureOf_Some {A} (r : ZodResult A) (issues : list Issue) :
  failureOf r = Some issues → r = ZFailure issues.
Proof. destruct r; simpl; congruence. Qed.

(** The validation prefix of a flow, read off a run that ended in a
    failure. *)
Tactic Notation "failed_validation" hyp(Hv) "as" ident(Hval) :=
  unfold bind at 1 in Hv;
  match type of Hv with
  | context [match ?x with _ => _ end] =>
      lazymatch x with
      | context [match _ with _ => _ end] => fail
      | _ =>
          let r := fresh "r" in
          let t := fresh "t" in
          let w2 := fresh "w2" in
          destruct x as [[r|t] w2] eqn:Hval; [|discriminate Hv];
          unfold ret in Hv; simplify_eq;
          match goal with
          | Hf : failureOf ?r0 = Some _ |- _ =>
              apply failureOf_Some in Hf; subst r0
          end
      end
  end.

(** C2.  Whenever the submission of a flow handler's action fails
    validation, the handler returns the HTTP 400 report of the issues
    found, and the persisted state is exactly what it was: no user,
    session, password hash or image row has been written or deleted. *)
Theorem validation_failure_keeps_state
    `{UserValidation} `{AuthServer} `{Utilities}
    (f : Flow) (args : ActionArgs) (w w1 : World) (issues : list Issue) :
  flowValidation f args w = (Ok (Some issues), w1) →
  ∃ formData,
    flowFormData f args = Ok formData
    ∧ w1 = w
    ∧ flowAction f args w
      = (Ok (data
               (BodyResult
                  (report (parseSubmission formData)
                     (mkReportOptions (Some (resolveIssues issues))
                        (flowHideFields f))))
               badRequest), w).
Proof.
  intros Hv. destruct f; simpl in Hv |- *.
  - (* onboarding signup *)
    failed_validation Hv as Hval.
    unfold Onboarding.validation, bind in Hval.
    destruct (Onboarding.requireOnboardingEmail (request args) w)
      as [[email|t] w3] eqn:Hg; [|discriminate].
    pose proof (requireOnboardingEmail_state _ _ _ _ Hg) as ->.
    destruct (checkHoneypot (req_formData (request args))) as [t|] eqn:Hh;
      simpl in Hval; [discriminate|].
    pose proof (onboarding_parseForm_failure _ _ _ _ _ Hval) as ->.
    eexists. split; [reflexivity|]. split; [reflexivity|].
    unfold Onboarding.action, bind. rewrite Hg, Hh. simpl.
    rewrite Hval. reflexivity.
  - (* provider onboarding *)
    failed_validation Hv as Hval.
    unfold OnboardingProvider.validation, bind in Hval.
    destruct (OnboardingProvider.requireData args w)
      as [[required|t] w3] eqn:Hg; [|discriminate].
    pose proof (requireData_state _ _ _ _ Hg) as ->.
    pose proof (provider_parseForm_failure _ _ _ _ _ Hval) as ->.
    eexists. split; [reflexivity|]. split; [reflexivity|].
    unfold OnboardingProvider.action, bind. rewrite Hg, Hval. reflexivity.
  - (* change password *)
    failed_validation Hv as Hval.
    unfold ChangePassword.validation, bind in Hval.
    destruct (requireUserId (request args) w) as [[userId|t] w3] eqn:Hu;
      [|discriminate].
    pose proof (requireUserId_state _ _ _ _ Hu) as ->.
    destruct (ChangePassword.requirePassword userId w)
      as [[[]|t] w3] eqn:Hg; [|discriminate].
    pose proof (requirePassword_state _ _ _ _ Hg) as ->.
    pose proof (changePassword_parseForm_state _ _ _ _ _ Hval) as ->.
    eexists. split; [reflexivity|]. split; [reflexivity|].
    unfold ChangePassword.action, bind. rewrite Hu, Hg, Hval. reflexivity.
  - (* create password *)
    failed_validation Hv as Hval.
    unfold CreatePassword.validation, bind in Hval.
    destruct (requireUserId (request args) w) as [[userId|t] w3] eqn:Hu;
      [|discriminate].
    pose proof (requireUserId_state _ _ _ _ Hu) as ->.
    destruct (CreatePassword.requireNoPassword userId w)
      as [[[]|t] w3] eqn:Hg; [|discriminate].
    pose proof (requireNoPassword_state _ _ _ _ Hg) as ->.
    unfold ret in Hval. injection Hval as Hres <-.
    eexists. split; [reflexivity|]. split; [reflexivity|].
    unfold CreatePassword.action, bind. rewrite Hu, Hg.
    cbn [parseSubmission sub_value]. rewrite Hres. reflexivity.
  - (* reset password *)
    failed_validation Hv as Hval.
    unfold ResetPassword.validation, bind in Hval.
    destruct (ResetPassword.requireResetPasswordUsername (request args) w)
      as [[username|t] w3] eqn:Hg; [|discriminate].
    pose proof (requireResetPasswordUsername_state _ _ _ _ Hg) as ->.
    unfold ret in Hval. injection Hval as Hres <-.
    eexists. split; [reflexivity|]. split; [reflexivity|].
    unfold ResetPassword.action, bind. rewrite Hg.
    cbn [parseSubmission sub_value]. rewrite Hres. reflexivity.
  - (* profile photo *)
    failed_validation Hv as Hval.
    unfold ProfilePhoto.validation, bind in Hval.
    destruct (requireUserId (request args) w) as [[userId|t] w3] eqn:Hu;
      [|discriminate].
    pose proof (requireUserId_state _ _ _ _ Hu) as ->.
    unfold liftOutcome in Hval.
    destruct (parseFormData (request args) ProfilePhoto.MAX_SIZE)
      as [formData|t] eqn:Hfd; [|discriminate].
    pose proof (photo_parseForm_state _ _ _ _ Hval) as ->.
    exists formData. split; [reflexivity|]. split; [reflexivity|].
    unfold ProfilePhoto.action, bind. rewrite Hu. unfold liftOutcome.
    rewrite Hfd, Hval. reflexivity.
Qed.

Lemma validation_failure_keeps_state_witness :
  ∃ formData,
    @flowFormData Sample.utilities OnboardingSignup Sample.mismatchedSignup
      = Ok formData
    ∧ Sample.world = Sample.world
    ∧ @flowAction Sample.validation Sample.auth Sample.utilities
        OnboardingSignup Sample.mismatchedSignup Sample.world
      = (Ok (data
               (BodyResult
                  (report (parseSubmission formData)
                     (mkReportOptions
                        (Some
                           (resolveIssues
                              [mkIssue ["confirmPassword"]
                                 "The passwords must match"]))
                        (flowHideFields OnboardingSignup))))
               badRequest), Sample.world).
Proof.
  apply (@validation_failure_keeps_state Sample.validation Sample.auth
           Sample.utilities OnboardingSignup Sample.mismatchedSignup
           Sample.world Sample.world
           [mkIssue ["confirmPassword"] "The passwords must match"]).
  vm_compute. reflexivity.
Defined.

(** ** Replacing the profile photo *)

Lemma find_user_exists (userId : string) (w : World) :
  userExists userId w →
  ∃ u, find (fun u => bool_decide (user_id u = userId)) (users w) = Some u.
Proof.
  intros (u & Hu & Hid).
  destruct (find_some_exists (fun u => bool_decide (user_id u = userId))
              (users w)) as (y & Hy & _).
  - exists u. split; [done|]. by apply bool_decide_eq_true.
  - by exists y.
Qed.

Lemma find_user_missing (userId : string) (w : World) :
  ¬ userExists userId w →
  find (fun u => bool_decide (user_id u = userId)) (users w) = None.
Proof.
  intros Hno. apply find_none_all. intros u Hu.
  apply bool_decide_eq_false. intros Hid. apply Hno. by exists u.
Qed.

Lemma find_image_after_delete (userId : string) (imgs : list UserImage) :
  find (fun i => bool_decide (userImage_userId i = userId))
    (filter (fun i => userImage_userId i ≠ userId) imgs) = None.
Proof.
  apply find_none_all. intros i Hi.
  apply list_elem_of_filter in Hi as [Hne _]. by apply bool_decide_eq_false.
Qed.

Lemma imagesOf_withImage (userId : string) (image : Image) (w : World) :
  imagesOf userId (withImage userId image w) = [mkUserImage userId image].
Proof.
  unfold imagesOf, withImage. simpl. rewrite list.filter_app.
  rewrite (filter_cons_True (fun i => userImage_userId i = userId)) by done.
  rewrite filter_nil.
  replace (filter (fun i => userImage_userId i = userId)
             (filter (fun i => userImage_userId i ≠ userId) (userImages w)))
    with (@nil UserImage); [reflexivity|].
  symmetry. induction (userImages w) as [|i l IH]; [reflexivity|].
  destruct (decide (userImage_userId i = userId)) as [Heq | Hne].
  - rewrite (filter_cons_False (fun i => userImage_userId i ≠ userId)); [done|].
    intros Hc. by apply Hc.
  - rewrite (filter_cons_True (fun i => userImage_userId i ≠ userId)) by done.
    by rewrite (filter_cons_False (fun i => userImage_userId i = userId)).
Qed.

Lemma image_create_run (userId : string) (image : Image) (w : World) (u : User) :
  find (fun u => bool_decide (user_id u = userId)) (users w) = Some u →
  find (fun i => bool_decide (userImage_userId i = userId)) (userImages w)
    = None →
  prisma.user_update_image_create userId image w
  = (Ok tt,
     prisma.setUserImages (userImages w ++ [mkUserImage userId image]) w).
Proof.
  intros Hu Hi.
  unfold prisma.user_update_image_create, bind, prisma.user_findUnique_id,
    prisma.image_findUnique, gets.
  rewrite Hu, Hi. reflexivity.
Qed.

Lemma image_create_fails (userId : string) (image : Image) (w : World) :
  find (fun u => bool_decide (user_id u = userId)) (users w) = None →
  prisma.user_update_image_create userId image w
  = (Throw (ThrownError "Record to update not found"), w).
Proof.
  intros Hu.
  unfold prisma.user_update_image_create, bind, prisma.user_findUnique_id, gets.
  rewrite Hu. reflexivity.
Qed.

(** The statements of the replace run as one unit. *)
Lemma replace_image_commits (userId : string) (image : Image) (w : World) :
  userExists userId w →
  prisma.transaction
    (prisma.userImage_deleteMany userId ;;;
     prisma.user_update_image_create userId image) w
  = (Ok tt, withImage userId image w).
Proof.
  intros Hex. destruct (find_user_exists _ _ Hex) as [u Hu].
  unfold prisma.transaction, bind, prisma.userImage_deleteMany, modify.
  rewrite (image_create_run userId image _ u);
    [reflexivity | exact Hu | apply find_image_after_delete].
Qed.

Lemma replace_image_rolls_back (userId : string) (image : Image) (w : World) :
  ¬ userExists userId w →
  prisma.transaction
    (prisma.userImage_deleteMany userId ;;;
     prisma.user_update_image_create userId image) w
  = (Throw (ThrownError "Record to update not found"), w).
Proof.
  intros Hno.
  unfold prisma.transaction, bind, prisma.userImage_deleteMany, modify.
  rewrite image_create_fails; [reflexivity|].
  apply (find_user_missing _ _ Hno).
Qed.


Lemma parseSubmission_lookup (formData : FormObject) (name : string) :
  name ≠ INTENT →
  sub_value (parseSubmission formData) !! name = formData !! name.
Proof. intros Hne. simpl. by apply lookup_delete_ne. Qed.




(** ** Successful parses *)

Lemma merge_valid {A B C} (f : A -> B -> C) (pa : Parsed A) (pb : Parsed B)
    (c : C) :
  merge f pa pb = PValid c → ∃ a b, pa = PValid a ∧ pb = PValid b ∧ c = f a b.
Proof.
  destruct pa as [a|a ia|ia], pb as [b|b ib|ib]; simpl; intros Hm;
    try discriminate.
  injection Hm as <-. by exists a, b.
Qed.

Lemma pmap_valid {A B} (f : A -> B) (p : Parsed A) (b : B) :
  pmap f p = PValid b → ∃ a, p = PValid a ∧ b = f a.
Proof.
  destruct p as [a|a i|i]; simpl; intros Hm; try discriminate.
  injection Hm as <-. by exists a.
Qed.

Lemma field_valid {A} (name : string) (s : Schema A) (v : FormObject) (a : A) :
  field name s v = PValid a → s (v !! name) = PValid a.
Proof. unfold field. by destruct (s (v !! name)). Qed.

Lemma toResult_success {A} (p : Parsed A) (a : A) :
  toResult p = ZSuccess a → p = PValid a.
Proof. destruct p; simpl; congruence. Qed.

(** What the checkbox of the form says, once the form has parsed. *)
Lemma remember_checked (v : option FormValue) (r : option bool) :
  z_boolean_optional v = PValid r →
  (v = Some (FText "on") → r = Some true) ∧ (v = None → r = None).
Proof.
  intros Hp. unfold z_boolean_optional in Hp.
  split; intros ->; simpl in Hp; congruence.
Qed.

Section Signup.
Context `{UserValidation} `{AuthServer} `{Utilities}.

Lemma onboarding_schema_remember value d :
  Onboarding.SignupFormSchema value = PValid d →
  z_boolean_optional (value !! "remember") = PValid (Onboarding.remember d).
Proof.
  unfold Onboarding.SignupFormSchema. intros Hs.
  apply merge_valid in Hs as (o & pw & Ho & _ & ->).
  apply merge_valid in Ho as (a1 & o1 & _ & Ho & ->).
  apply merge_valid in Ho as (a2 & o2 & _ & Ho & ->).
  apply merge_valid in Ho as (a3 & o3 & _ & Ho & ->).
  apply merge_valid in Ho as (a4 & a5 & Hr & _ & ->).
  apply field_valid in Hr. exact Hr.
Qed.

Lemma provider_schema_remember value d :
  OnboardingProvider.SignupFormSchema value = PValid d →
  z_boolean_optional (value !! "remember")
  = PValid (OnboardingProvider.remember d).
Proof.
  unfold OnboardingProvider.SignupFormSchema. intros Hs.
  apply pmap_valid in Hs as (o & Ho & ->).
  apply merge_valid in Ho as (a0 & o0 & _ & Ho & ->).
  apply merge_valid in Ho as (a1 & o1 & _ & Ho & ->).
  apply merge_valid in Ho as (a2 & o2 & _ & Ho & ->).
  apply merge_valid in Ho as (a3 & o3 & _ & Ho & ->).
  apply merge_valid in Ho as (a4 & a5 & Hr & _ & ->).
  apply field_valid in Hr. exact Hr.
Qed.

(** A successful parse of the signup form is a valid form for which
    [signup] has returned the session. *)
Lemma onboarding_parseForm_success email value w d session w' :
  Onboarding.parseForm email value w = (Ok (ZSuccess (d, session)), w') →
  Onboarding.SignupFormSchema value = PValid d
  ∧ signup (mkSignupArgs email (Onboarding.username d) (Onboarding.name d)
              (password (Onboarding.passwords_ d))) w
    = (Ok session, w').
Proof.
  unfold Onboarding.parseForm, superRefine, transform, transformCtx,
    prisma.user_findUnique_username.
  intros Hr.
  destruct (Onboarding.SignupFormSchema value) as [d0|d0 i|i]; run_in Hr;
    try done.
Qed.

Lemma provider_parseForm_success required value w d session w' :
  OnboardingProvider.parseForm required value w
    = (Ok (ZSuccess (d, session)), w') →
  OnboardingProvider.SignupFormSchema value = PValid d
  ∧ signupWithConnection
      (mkConnectionSignupArgs (OnboardingProvider.email required)
         (OnboardingProvider.username d) (OnboardingProvider.name d)
         (OnboardingProvider.providerId required)
         (OnboardingProvider.providerName required)
         (OnboardingProvider.imageUrl d)) w
    = (Ok session, w').
Proof.
  unfold OnboardingProvider.parseForm, superRefine, transform, transformCtx,
    prisma.user_findUnique_username.
  intros Hr.
  destruct (OnboardingProvider.SignupFormSchema value) as [d0|d0 i|i];
    run_in Hr; try done.
Qed.

End Signup.

(** ** Completing a signup *)

(** C8.  When a signup (plain or through a provider) completes, with
    [session] the session the signup has persisted and returned, the one
    set-cookie header that commits the auth session stores the session's
    id and has the expiry [session.expirationDate] if the remember
    checkbox was checked, and no expiry if it was unchecked or absent. *)
Theorem signup_cookie_expiry
    `{UserValidation} `{AuthServer} `{Utilities}
    (provider : bool) (args : ActionArgs) (w w' : World)
    (remember : option bool) (session : AuthSession) :
  signupValidation provider args w = (Ok (ZSuccess (remember, session)), w') →
  ∃ r authData expires rest,
    signupAction provider args w = (Ok r, w')
    ∧ resp_set_cookie r = Commit AuthStore authData expires :: rest
    ∧ (∀ d e, Commit AuthStore d e ∉ rest)
    ∧ authData !! sessionKey = Some (VString (session_id session))
    ∧ (req_formData (request args) !! "remember" = Some (FText "on") →
       expires = Some (session_expirationDate session))
    ∧ (req_formData (request args) !! "remember" = None → expires = None).
Proof.
  intros Hv. destruct provider; simpl in Hv |- *.
  - unfold bind at 1 in Hv.
    destruct (OnboardingProvider.validation args w) as [[res|t] w2] eqn:Hval;
      [|discriminate].
    unfold ret in Hv. destruct res as [[d s]|iss]; [|discriminate].
    injection Hv as <- <- <-.
    unfold OnboardingProvider.validation, bind in Hval.
    destruct (OnboardingProvider.requireData args w)
      as [[required|t] w3] eqn:Hg; [|discriminate].
    pose proof (requireData_state _ _ _ _ Hg) as ->.
    destruct (provider_parseForm_success _ _ _ _ _ _ Hval) as [Hschema _].
    apply provider_schema_remember in Hschema.
    rewrite parseSubmission_lookup in Hschema by discriminate.
    apply remember_checked in Hschema as [Hon Hoff].
    eexists. eexists. eexists. eexists. split.
    { unfold OnboardingProvider.action, bind. rewrite Hg, Hval. reflexivity. }
    split; [reflexivity|]. split_and!.
    + intros d0 e0 Hin. simpl in Hin.
      apply elem_of_cons in Hin as [Hin | Hin]; [discriminate|].
      apply list_elem_of_singleton in Hin. discriminate.
    + apply lookup_insert_eq.
    + intros Hc. by rewrite (Hon Hc).
    + intros Hc. by rewrite (Hoff Hc).
  - unfold bind at 1 in Hv.
    destruct (Onboarding.validation (request args) w) as [[res|t] w2] eqn:Hval;
      [|discriminate].
    unfold ret in Hv. destruct res as [[d s]|iss]; [|discriminate].
    injection Hv as <- <- <-.
    unfold Onboarding.validation, bind in Hval.
    destruct (Onboarding.requireOnboardingEmail (request args) w)
      as [[email|t] w3] eqn:Hg; [|discriminate].
    pose proof (requireOnboardingEmail_state _ _ _ _ Hg) as ->.
    destruct (checkHoneypot (req_formData (request args))) as [t|] eqn:Hh;
      simpl in Hval; [discriminate|].
    destruct (onboarding_parseForm_success _ _ _ _ _ _ Hval) as [Hschema _].
    apply onboarding_schema_remember in Hschema.
    rewrite lookup_delete_ne in Hschema by discriminate.
    apply remember_checked in Hschema as [Hon Hoff].
    eexists. eexists. eexists. eexists. split.
    { unfold Onboarding.action, bind. rewrite Hg, Hh. simpl.
      rewrite Hval. reflexivity. }
    split; [reflexivity|]. split_and!.
    + intros d0 e0 Hin. simpl in Hin.
      apply elem_of_cons in Hin as [Hin | Hin]; [discriminate|].
      apply list_elem_of_singleton in Hin. discriminate.
    + apply lookup_insert_eq.
    + intros Hc. by rewrite (Hon Hc).
    + intros Hc. by rewrite (Hoff Hc).
Qed.

Lemma signup_cookie_expiry_witness :
  ∃ r authData expires rest,
    @signupAction Sample.validation Sample.auth Sample.utilities false
      Sample.hannahSignup Sample.world
      = (Ok r, Sample.worldWithHannah)
    ∧ resp_set_cookie r = Commit AuthStore authData expires :: rest
    ∧ (∀ d e, Commit AuthStore d e ∉ rest)
    ∧ authData !! @sessionKey Sample.auth
      = Some (VString (session_id Sample.hannahSession))
    ∧ (req_formData (request Sample.hannahSignup) !! "remember"
         = Some (FText "on") →
       expires = Some (session_expirationDate Sample.hannahSession))
    ∧ (req_formData (request Sample.hannahSignup) !! "remember" = None →
       expires = None).
Proof.
  apply (@signup_cookie_expiry Sample.validation Sample.auth Sample.utilities
           false Sample.hannahSignup Sample.world Sample.worldWithHannah
           (Some true) Sample.hannahSession).
  vm_compute. reflexivity.
Defined.

(** ** Completing a flow *)



(** ** The two versions of the create-password route *)

Lemma password_create_run `{AuthServer} (userId hash : string) (w : World) :
  userExists userId w →
  storedPassword userId w = None →
  prisma.user_update_password_create userId hash w
  = (Ok tt, withPassword userId hash w).
Proof.
  intros Hex Hnone. destruct (find_user_exists _ _ Hex) as [u Hu].
  unfold prisma.user_update_password_create, bind, prisma.user_findUnique_id,
    prisma.password_findUnique, gets.
  unfold storedPassword in Hnone. rewrite Hu, Hnone. reflexivity.
Qed.

(** C10.  For a submit-type submission of an authenticated user the
    legacy and the current create-password actions leave the same state
    and give the same response up to the wrapping of the report in the
    body: both are sent to /settings/profile/password when the user has a
    password; both return HTTP 400 with the same errors and with
    [password] and [confirmPassword] absent from the echoed values when
    the form is invalid; both create the password hash and redirect to
    /settings/profile with status 302 when it is valid. *)
Theorem create_password_versions_agree
    `{UserValidation} `{AuthServer}
    (request : Request) (w : World) (userId : string) :
  getUserId request w = Some userId →
  CreatePasswordLegacy.ls_type
    (CreatePasswordLegacy.parseWithZod (req_formData request)) = "submit" →
  let value := sub_value (parseSubmission (req_formData request)) in
  let legacy := CreatePasswordLegacy.action request w in
  let current := CreatePassword.action request w in
  observeOutcome legacy = observeOutcome current
  ∧ (is_Some (storedPassword userId w) →
     legacy = (Throw (ThrownResponse
                        (redirect "/settings/profile/password" noInit)), w)
     ∧ current = legacy)
  ∧ (storedPassword userId w = None →
     ∀ issues,
       toResult (PasswordAndConfirmPasswordSchema value) = ZFailure issues →
       ∃ r1 r2 v,
         legacy = (Ok r1, w) ∧ current = (Ok r2, w)
         ∧ resp_status r1 = 400 ∧ resp_status r2 = 400
         ∧ errorOf r1 = Some (resolveIssues issues)
         ∧ errorOf r2 = Some (resolveIssues issues)
         ∧ echoed r1 = Some v ∧ echoed r2 = Some v
         ∧ v !! "password" = None ∧ v !! "confirmPassword" = None)
  ∧ (storedPassword userId w = None →
     userExists userId w →
     ∀ d,
       toResult (PasswordAndConfirmPasswordSchema value) = ZSuccess d →
       legacy = (Ok (redirect "/settings/profile" (mkInit (Some 302) [])),
                 withPassword userId (getPasswordHash (password d)) w)
       ∧ current = legacy).
Proof.
  intros Hauth Htype value legacy current.
  assert (Hintent : req_formData request !! INTENT = None).
  { unfold CreatePasswordLegacy.parseWithZod in Htype. simpl in Htype.
    destruct (req_formData request !! INTENT); [discriminate Htype | done]. }
  assert (Hlegacy : legacy
    = match storedPassword userId w with
      | Some _ =>
          (Throw (ThrownResponse
                    (redirect "/settings/profile/password" noInit)), w)
      | None =>
          match toResult (PasswordAndConfirmPasswordSchema value) with
          | ZFailure issues =>
              (Ok (json
                     (mkSubmissionResult
                        (hide ["password"; "confirmPassword"] value) None
                        (Some (resolveIssues issues)))
                     badRequest), w)
          | ZSuccess d =>
              bind (prisma.user_update_password_create userId
                      (getPasswordHash (password d)))
                (fun _ =>
                   ret (redirect "/settings/profile" (mkInit (Some 302) [])))
                w
          end
      end).
  { subst legacy. unfold CreatePasswordLegacy.action, bind at 1, requireUserId.
    rewrite Hauth. unfold bind at 1, CreatePasswordLegacy.requireNoPassword,
      bind at 1, prisma.password_findUnique, gets, storedPassword.
    destruct (find _ (passwords w)); [reflexivity|].
    unfold ret at 1, CreatePasswordLegacy.parseWithZod,
      CreatePasswordLegacy.reject, CreatePasswordLegacy.CreatePasswordForm.
    cbn [CreatePasswordLegacy.ls_value CreatePasswordLegacy.ls_type
         CreatePasswordLegacy.ls_payload CreatePasswordLegacy.ls_intent
         CreatePasswordLegacy.ls_error parseSubmission sub_value sub_intent].
    rewrite Hintent. unfold value. cbn [parseSubmission sub_value].
    destruct (toResult (PasswordAndConfirmPasswordSchema _)); reflexivity. }
  assert (Hcurrent : current
    = match storedPassword userId w with
      | Some _ =>
          (Throw (ThrownResponse
                    (redirect "/settings/profile/password" noInit)), w)
      | None =>
          match toResult (PasswordAndConfirmPasswordSchema value) with
          | ZFailure issues =>
              (Ok (data
                     (BodyResult
                        (mkSubmissionResult
                           (hide ["password"; "confirmPassword"] value) None
                           (Some (resolveIssues issues))))
                     badRequest), w)
          | ZSuccess d =>
              bind (prisma.user_update_password_create userId
                      (getPasswordHash (password d)))
                (fun _ =>
                   ret (redirect "/settings/profile" (mkInit (Some 302) [])))
                w
          end
      end).
  { subst current. unfold CreatePassword.action, bind at 1, requireUserId.
    rewrite Hauth. unfold bind at 1, CreatePassword.requireNoPassword,
      bind at 1, prisma.password_findUnique, gets, storedPassword.
    destruct (find _ (passwords w)); [reflexivity|].
    unfold ret at 1, CreatePassword.CreatePasswordForm, report.
    cbn [parseSubmission sub_value sub_intent opt_hideFields opt_error].
    rewrite Hintent. unfold value. cbn [parseSubmission sub_value].
    destruct (toResult (PasswordAndConfirmPasswordSchema _)); reflexivity. }
  rewrite Hlegacy, Hcurrent. clear Hlegacy Hcurrent legacy current.
  split_and!.
  - destruct (storedPassword userId w); [reflexivity|].
    destruct (toResult (PasswordAndConfirmPasswordSchema value)); reflexivity.
  - intros [p ->]. by split.
  - intros -> issues ->. eexists. eexists. eexists.
    split_and!; try reflexivity.
    + apply hide_lookup_hidden. set_solver.
    + apply hide_lookup_hidden. set_solver.
  - intros Hnone Hex d ->. rewrite Hnone.
    unfold bind. rewrite (password_create_run _ _ _ Hex Hnone). by split.
Qed.

Lemma create_password_versions_agree_witness :
  observeOutcome
    (@CreatePasswordLegacy.action Sample.validation Sample.auth
       Sample.createPassword Sample.worldWithoutPassword)
  = observeOutcome
      (@CreatePassword.action Sample.validation Sample.auth
         Sample.createPassword Sample.worldWithoutPassword)
  ∧ @CreatePasswordLegacy.action Sample.validation Sample.auth
      Sample.createPassword Sample.worldWithoutPassword
    = (Ok (redirect "/settings/profile" (mkInit (Some 302) [])),
       withPassword "u1" (Sample.sampleHash "newsecret")
         Sample.worldWithoutPassword)
  ∧ @CreatePassword.action Sample.validation Sample.auth
      Sample.createPassword Sample.worldWithoutPassword
    = @CreatePasswordLegacy.action Sample.validation Sample.auth
        Sample.createPassword Sample.worldWithoutPassword.
Proof.
  destruct (@create_password_versions_agree Sample.validation Sample.auth
              Sample.createPassword Sample.worldWithoutPassword "u1")
    as (Hobs & _ & _ & Hvalid).
  - vm_compute. reflexivity.
  - vm_compute. reflexivity.
  - split; [exact Hobs|].
    apply (Hvalid eq_refl
             (ex_intro _ Sample.kody (conj (list_elem_of_here _ _) eq_refl))
             (mkPasswordAndConfirmPassword "newsecret" "newsecret")).
    vm_compute. reflexivity.
Defined.

(** ** Echoed passwords *)

(** C4 does not hold of the code.  The report of the onboarding signup
    action echoes the submitted [password] and [confirmPassword], and so
    does the report of the reset-password action; the report of the login
    action, for one, leaves [password] out. *)
Lemma signup_failure_echoes_passwords :
  (∃ r v,
     @Onboarding.action Sample.validation Sample.auth Sample.utilities
       (request Sample.mismatchedSignup) Sample.world
     = (Ok r, Sample.world)
     ∧ resp_status r = 400
     ∧ echoed r = Some v
     ∧ v !! "password" = Some (FText "secret1")
     ∧ v !! "confirmPassword" = Some (FText "secret2"))
  ∧ (∃ r v,
       @ResetPassword.action Sample.validation Sample.auth
         Sample.mismatchedReset Sample.world
       = (Ok r, Sample.world)
       ∧ resp_status r = 400
       ∧ echoed r = Some v
       ∧ v !! "password" = Some (FText "secret1")
       ∧ v !! "confirmPassword" = Some (FText "secret2"))
  ∧ (∃ r v,
       @Login.action Sample.validation Sample.auth Sample.utilities
         Sample.failedLogin Sample.world
       = (Ok r, Sample.world)
       ∧ resp_status r = 400
       ∧ echoed r = Some v
       ∧ v !! "password" = None
       ∧ v !! "username" = Some (FText "kody")).
Proof.
  split_and!.
  - eexists. eexists. split; [vm_compute; reflexivity|].
    split; [reflexivity|]. split; [reflexivity|].
    split; vm_compute; reflexivity.
  - eexists. eexists. split; [vm_compute; reflexivity|].
    split; [reflexivity|]. split; [reflexivity|].
    split; vm_compute; reflexivity.
  - eexists. eexists. split; [vm_compute; reflexivity|].
    split; [reflexivity|]. split; [reflexivity|].
    split; vm_compute; reflexivity.
Qed.

(** ** Branches that are not reached *)

Lemma photoFileSchema_valid_size (v : option FormValue) (f : File) :
  ProfilePhoto.photoFileSchema v = PValid f → file_size f > 0.
Proof.
  unfold ProfilePhoto.photoFileSchema, refine.
  destruct v as [[s|f']|]; try discriminate.
  case_bool_decide as Hpos; repeat case_bool_decide; simpl;
    intros Hv; try discriminate.
  by injection Hv as <-.
Qed.

(** The transform of the photo form never returns [z.NEVER]: the schema
    has already rejected an empty file. *)
Lemma photo_parse_never_NEVER (value : FormObject) (w w' : World) :
  ProfilePhoto.parseForm value w ≠ (Ok (ZSuccess ProfilePhoto.DataNever), w').
Proof.
  unfold ProfilePhoto.parseForm, transform, transformCtx, bind, ret.
  destruct (ProfilePhoto.PhotoFormSchema value) as [[|f]|d i|i] eqn:Hs;
    try discriminate.
  unfold ProfilePhoto.PhotoFormSchema in Hs.
  destruct (coerceEmpty (value !! "intent")) as [[intent|]|]; try discriminate.
  repeat case_bool_decide; try discriminate.
  apply pmap_valid in Hs as (f' & Hf & Heq). injection Heq as <-.
  unfold field in Hf.
  destruct (ProfilePhoto.photoFileSchema (value !! "photoFile")) as [f'| |]
    eqn:Hp; try discriminate.
  injection Hf as ->. apply photoFileSchema_valid_size in Hp.
  first [lia | simpl; discriminate].
Qed.

(** The transform of the login form returns [z.NEVER] only together with
    an issue, so a successful result always carries a session. *)
Lemma login_parse_never_NEVER
    `{UserValidation} `{AuthServer} (value : FormObject) (w w' : World) :
  Login.parseForm value w ≠ (Ok (ZSuccess None), w').
Proof.
  unfold Login.parseForm, transformCtx, bind, ret.
  destruct (Login.LoginFormSchema value) as [d|d i|i]; try discriminate.
  destruct (login (Login.username d) (Login.password_ d) w) as [[[s|]|t] w0];
    discriminate.
Qed.

(** ** Runs on the sample deployment *)

Example onboarding_handoff_run :
  OnboardingServer.handleVerification
    (Sample.verifyArgs "onboarding" "new@example.com" "XYZ789") Sample.world
  = (Ok (redirect "/onboarding"
           (mkInit None
              [Commit VerifyStore
                 {[ Onboarding.onboardingEmailSessionKey
                      := VString "new@example.com" ]} None])),
     Sample.world).
Proof. vm_compute. reflexivity. Qed.

Example provider_signup_run :
  (observeOutcome
     (@OnboardingProvider.action Sample.validation Sample.auth Sample.utilities
        (mkActionArgs
           (Sample.providerOnboarding (Sample.providerForm "hannah" false))
           {[ "provider" := "github" ]})
        Sample.world)).1
  = inl (302, Some "/",
         [Commit AuthStore
            {[ Sample.sampleSessionKey := VString "session-of-id-hannah" ]}
            None;
          Destroy VerifyStore;
          ToastCookie (mkToast None "Welcome" "Thanks for signing up!")],
         None).
Proof. vm_compute. reflexivity. Qed.

Example provider_signup_taken_username_run :
  ∃ r e,
    @OnboardingProvider.action Sample.validation Sample.auth Sample.utilities
      (mkActionArgs
         (Sample.providerOnboarding (Sample.providerForm "kody" false))
         {[ "provider" := "github" ]})
      Sample.world
    = (Ok r, Sample.world)
    ∧ resp_status r = 400
    ∧ errorOf r = Some e
    ∧ fieldError e !! "username"
      = Some ["A user already exists with this username"].
Proof.
  eexists. eexists. split; [vm_compute; reflexivity|].
  split; [reflexivity|]. split; [reflexivity|]. vm_compute. reflexivity.
Qed.

Example photo_delete_run :
  @ProfilePhoto.action Sample.auth Sample.utilities
    (Sample.asKody (Sample.form [("intent", "delete")])) Sample.world
  = (Throw (ThrownResponse (redirect "/settings/profile" noInit)),
     prisma.setUserImages [] Sample.world).
Proof. vm_compute. reflexivity. Qed.

Example expired_code_run :
  (@Verify.isCodeValid Sample.flows "reset-password" "kody" "ABC123"
     (mkWorld [] [] [] []
        [mkVerification "reset-password" "kody" "ABC123" "SHA256" 600 "A-Z0-9"
           (Some 1500)]
        1500)).1
  = Ok false.
Proof. vm_compute. reflexivity. Qed.

(** * Further properties *)

(** ** The theme switch *)

Lemma coerceEmpty_text (s : string) :
  s ≠ "" → coerceEmpty (Some (FText s)) = Some (FText s).
Proof. by destruct s. Qed.

Lemma z_enum_theme_name (t : Theme) :
  ThemeSwitch.z_enum_theme (Some (FText (ThemeSwitch.themeName t))) = PValid t.
Proof. by destruct t. Qed.

Lemma z_enum_theme_valid (v : option FormValue) (t : Theme) :
  ThemeSwitch.z_enum_theme v = PValid t →
  v = Some (FText (ThemeSwitch.themeName t)).
Proof.
  unfold ThemeSwitch.z_enum_theme.
  destruct v as [[s|f]|]; [|discriminate..].
  destruct s as [|a s]; [discriminate|]. cbn [coerceEmpty].
  repeat case_bool_decide; intros Hv; try discriminate;
    injection Hv as <-; simpl; congruence.
Qed.

Lemma z_string_optional_text (v : option FormValue) :
  (∀ f, v ≠ Some (FFile f)) →
  z_string_optional v
  = PValid (match v with
            | Some (FText s) => if bool_decide (s = "") then None else Some s
            | _ => None
            end).
Proof.
  intros Hv. unfold z_string_optional.
  destruct v as [[s|f]|]; [|by destruct (Hv f)|reflexivity].
  by destruct s.
Qed.

(** The parse of a form that names a theme. *)
Lemma theme_schema_names (formData : FormObject) (t : Theme) :
  namesTheme formData t →
  ThemeSwitch.ThemeFormSchema (sub_value (parseSubmission formData))
  = PValid
      (ThemeSwitch.mkThemeForm t
         (match formData !! "redirectTo" with
          | Some (FText s) => if bool_decide (s = "") then None else Some s
          | _ => None
          end)).
Proof.
  intros [Ht Hr]. unfold ThemeSwitch.ThemeFormSchema, field.
  rewrite !parseSubmission_lookup by discriminate.
  rewrite Ht, z_enum_theme_name, (z_string_optional_text _ Hr). reflexivity.
Qed.

Lemma theme_schema_valid (formData : FormObject) (d : ThemeSwitch.ThemeForm) :
  ThemeSwitch.ThemeFormSchema (sub_value (parseSubmission formData)) = PValid d →
  namesTheme formData (ThemeSwitch.theme d).
Proof.
  unfold ThemeSwitch.ThemeFormSchema. intros Hs.
  apply merge_valid in Hs as (t & r & Ht & Hr & ->).
  apply field_valid in Ht, Hr.
  rewrite parseSubmission_lookup in Ht, Hr by discriminate.
  split; [by apply z_enum_theme_valid|].
  intros f Hf. rewrite Hf in Hr. discriminate Hr.
Qed.

(** X1.  The theme action sets the cookie of the theme the form names,
    redirecting to a non-empty [redirectTo] and answering with a report
    otherwise; a form that names none of the three themes is answered
    with the thrown "Invalid theme received" and sets no cookie. *)
Theorem theme_action_sets_named_theme
    `{ThemeServer} (request : Request) :
  (∀ t, namesTheme (req_formData request) t →
        answerCookie (ThemeSwitch.action request) = Some (setTheme t)
        ∧ (∀ url, (req_formData request !! "redirectTo" = Some (FText url)
                   ∧ url ≠ "")
                  ↔ ThemeSwitch.action request
                    = ThemeSwitch.Redirected url (setTheme t)))
  ∧ ((∀ t, ¬ namesTheme (req_formData request) t) →
     ThemeSwitch.action request = ThemeSwitch.Invalid "Invalid theme received").
Proof.
  split.
  - intros t Hn. pose proof (theme_schema_names _ _ Hn) as Hs.
    unfold ThemeSwitch.action. rewrite Hs. simpl.
    destruct (req_formData request !! "redirectTo") as [[s|f]|] eqn:Hr;
      simpl.
    + case_bool_decide as He; simpl.
      * split; [reflexivity|].
        intros url. split; [|discriminate].
        intros [Hu Hne]. injection Hu as <-. by subst.
      * rewrite bool_decide_eq_false_2 by done. split; [reflexivity|].
        intros url. split.
        -- intros [Hu _]. by injection Hu as <-.
        -- intros Hu. injection Hu as <-. by split.
    + split; [reflexivity|]. intros url. split; [|discriminate].
      intros [Hu _]. discriminate Hu.
    + split; [reflexivity|]. intros url. split; [|discriminate].
      intros [Hu _]. discriminate Hu.
  - intros Hnone. unfold ThemeSwitch.action.
    destruct (ThemeSwitch.ThemeFormSchema _) as [d|d i|i] eqn:Hs;
      [|reflexivity..].
    destruct (Hnone _ (theme_schema_valid _ _ Hs)).
Qed.

Lemma theme_action_sets_named_theme_witness :
  answerCookie
    (@ThemeSwitch.action Sample.themes
       (mkRequest None
          {[ "theme" := FText "dark"; "redirectTo" := FText "/settings" ]}))
  = Some (@setTheme Sample.themes dark)
  ∧ @ThemeSwitch.action Sample.themes
      (mkRequest None
         {[ "theme" := FText "dark"; "redirectTo" := FText "/settings" ]})
    = ThemeSwitch.Redirected "/settings" (@setTheme Sample.themes dark).
Proof.
  destruct (@theme_action_sets_named_theme Sample.themes
              (mkRequest None
                 {[ "theme" := FText "dark";
                    "redirectTo" := FText "/settings" ]})) as [T _].
  destruct (T dark) as [Hc Hr]; [by split|].
  split; [exact Hc|]. apply Hr. by split.
Defined.

Lemma switchForm_names (m : Theme) (path : option string) :
  namesTheme (ThemeSwitch.switchForm m path) (ThemeSwitch.nextMode m).
Proof.
  unfold namesTheme, ThemeSwitch.switchForm. destruct path as [p|].
  - split.
    + rewrite lookup_insert_ne by discriminate. apply lookup_singleton_eq.
    + intros f. rewrite lookup_insert_eq. discriminate.
  - split; [apply lookup_singleton_eq|].
    intros f. rewrite lookup_singleton_ne by discriminate. discriminate.
Qed.

Lemma find_first_match {A} (f : A -> bool) (before : list A) (x : A)
    (after : list A) :
  (∀ y, y ∈ before → f y = false) → f x = true →
  find f (before ++ x :: after) = Some x.
Proof.
  intros Hbefore Hx. induction before as [|b before IH]; simpl.
  - by rewrite Hx.
  - rewrite (Hbefore b) by apply list_elem_of_here.
    apply IH. intros y Hy. apply Hbefore. by apply list_elem_of_further.
Qed.

Lemma optimistic_first (before after : list ThemeSwitch.Fetcher)
    (f : ThemeSwitch.Fetcher) :
  (∀ g, g ∈ before → ¬ targetsThemeSwitch g) → targetsThemeSwitch f →
  ThemeSwitch.useOptimisticThemeMode (before ++ f :: after)
  = ThemeSwitch.useOptimisticThemeMode [f].
Proof.
  intros Hbefore Hf. unfold ThemeSwitch.useOptimisticThemeMode.
  rewrite (find_first_match _ before f after).
  - simpl. by rewrite bool_decide_eq_true_2.
  - intros g Hg. apply bool_decide_eq_false. by apply Hbefore.
  - by apply bool_decide_eq_true.
Qed.

(** X2.  A press of the theme switch asks for a mode other than the one
    shown, and three presses come back to it; the form the switch submits
    is accepted by the action, which sets the cookie of the mode asked
    for, and while it is in flight the optimistic mode is that mode. *)
Theorem theme_switch_press
    `{ThemeServer} (optimisticMode userPreference : option Theme)
    (path : option string) (cookie : option (list (Store * SessionData))) :
  let mode := ThemeSwitch.mode optimisticMode userPreference in
  let formData := ThemeSwitch.switchForm mode path in
  ThemeSwitch.nextMode mode ≠ mode
  ∧ ThemeSwitch.nextMode (ThemeSwitch.nextMode (ThemeSwitch.nextMode mode))
    = mode
  ∧ answerCookie (ThemeSwitch.action (mkRequest cookie formData))
    = Some (setTheme (ThemeSwitch.nextMode mode))
  ∧ ThemeSwitch.useOptimisticThemeMode
      [ThemeSwitch.mkFetcher (Some "/resources/theme-switch") (Some formData)]
    = Some (ThemeSwitch.nextMode mode).
Proof.
  intros mode formData. subst formData.
  pose proof (theme_schema_names _ _ (switchForm_names mode path)) as Hs.
  split_and!.
  - by destruct mode.
  - by destruct mode.
  - unfold ThemeSwitch.action. cbn [req_formData].
    rewrite Hs. simpl.
    destruct (ThemeSwitch.switchForm mode path !! "redirectTo")
      as [[s|f]|]; simpl; [|reflexivity..].
    case_bool_decide; simpl; [reflexivity|].
    by rewrite bool_decide_eq_false_2.
  - unfold ThemeSwitch.useOptimisticThemeMode.
    cbn [find ThemeSwitch.formAction ThemeSwitch.fetcher_formData].
    rewrite bool_decide_eq_true_2 by done.
    cbn [ThemeSwitch.fetcher_formData]. by rewrite Hs.
Qed.

(** X3.  Of the fetchers in flight only the first that submits to the
    theme switch counts, and the optimistic mode agrees with the action:
    it is a theme exactly when the action, given the same form data, sets
    that theme's cookie, and there is none when the action answers
    "Invalid theme received" or the fetcher has no form data. *)
Theorem optimistic_theme_agrees_with_action
    `{ThemeServer} (before after : list ThemeSwitch.Fetcher)
    (f : ThemeSwitch.Fetcher)
    (cookie : option (list (Store * SessionData))) :
  (∀ g, g ∈ before → ¬ targetsThemeSwitch g) →
  targetsThemeSwitch f →
  match ThemeSwitch.fetcher_formData f with
  | Some formData =>
      match ThemeSwitch.useOptimisticThemeMode (before ++ f :: after) with
      | Some t =>
          namesTheme formData t
          ∧ answerCookie (ThemeSwitch.action (mkRequest cookie formData))
            = Some (setTheme t)
      | None =>
          ThemeSwitch.action (mkRequest cookie formData)
          = ThemeSwitch.Invalid "Invalid theme received"
      end
  | None => ThemeSwitch.useOptimisticThemeMode (before ++ f :: after) = None
  end.
Proof.
  intros Hbefore Hf. rewrite (optimistic_first _ _ _ Hbefore Hf).
  unfold ThemeSwitch.useOptimisticThemeMode. simpl.
  rewrite bool_decide_eq_true_2 by done.
  destruct (ThemeSwitch.fetcher_formData f) as [formData|]; [|reflexivity].
  unfold ThemeSwitch.action. cbn [req_formData].
  destruct (ThemeSwitch.ThemeFormSchema _) as [d|d i|i] eqn:Hs;
    simpl; [|reflexivity..].
  split; [by apply theme_schema_valid|].
  destruct (ThemeSwitch.redirectTo d) as [url|]; [|reflexivity].
  by case_bool_decide.
Qed.


Lemma optimistic_theme_agrees_with_action_witness :
  namesTheme (ThemeSwitch.switchForm light None) dark
  ∧ answerCookie
      (@ThemeSwitch.action Sample.themes
         (mkRequest None (ThemeSwitch.switchForm light None)))
    = Some (@setTheme Sample.themes dark).
Proof.
  apply (@optimistic_theme_agrees_with_action Sample.themes
           [ThemeSwitch.mkFetcher (Some "/settings/profile") None]
           []
           (ThemeSwitch.mkFetcher (Some "/resources/theme-switch")
              (Some (ThemeSwitch.switchForm light None)))
           None).
  - intros g Hg. apply list_elem_of_singleton in Hg as ->. discriminate.
  - reflexivity.
Defined.


(** ** Guards and hand-offs *)

Section HandOffs.
Context `{UserValidation} `{AuthServer} `{Utilities}.

Lemma requireAnonymous_passes request w :
  getUserId request w = None → requireAnonymous request w = (Ok tt, w).
Proof. intros Ha. unfold requireAnonymous. by rewrite Ha. Qed.

Lemma requireOnboardingEmail_accepts request w s :
  getUserId request w = None →
  getSession VerifyStore (req_cookie request)
    !! Onboarding.onboardingEmailSessionKey = Some (VString s) →
  s ≠ "" →
  Onboarding.requireOnboardingEmail request w = (Ok s, w).
Proof.
  intros Ha Hs Hne. unfold Onboarding.requireOnboardingEmail, bind.
  rewrite (requireAnonymous_passes _ _ Ha), Hs.
  by rewrite bool_decide_eq_false_2.
Qed.

Lemma requireResetPasswordUsername_accepts request w s :
  getUserId request w = None →
  getSession VerifyStore (req_cookie request)
    !! ResetPassword.resetPasswordUsernameSessionKey = Some (VString s) →
  s ≠ "" →
  ResetPassword.requireResetPasswordUsername request w = (Ok s, w).
Proof.
  intros Ha Hs Hne. unfold ResetPassword.requireResetPasswordUsername, bind.
  rewrite (requireAnonymous_passes _ _ Ha), Hs.
  by rewrite bool_decide_eq_false_2.
Qed.

Lemma requireResetPasswordUsername_rejects request w :
  getUserId request w = None →
  (∀ s, getSession VerifyStore (req_cookie request)
          !! ResetPassword.resetPasswordUsernameSessionKey = Some (VString s) →
        s = "") →
  ResetPassword.requireResetPasswordUsername request w
  = (Throw (ThrownResponse (redirect "/login" noInit)), w).
Proof.
  intros Ha Hno. unfold ResetPassword.requireResetPasswordUsername, bind.
  rewrite (requireAnonymous_passes _ _ Ha).
  destruct (getSession VerifyStore (req_cookie request)
              !! ResetPassword.resetPasswordUsernameSessionKey)
    as [[s| | |]|]; try reflexivity.
  by rewrite bool_decide_eq_true_2 by by apply Hno.
Qed.

End HandOffs.

(** X5.  For an anonymous actor the reset-password loader returns the
    non-empty string the verification cookie holds under
    [resetPasswordUsername]; when the cookie holds no such string, or an
    empty one, the loader and the action throw a redirect to /login and
    nothing is reset. *)
Theorem reset_password_requires_username
    `{UserValidation} `{AuthServer} (request : Request) (w : World) :
  getUserId request w = None →
  (∀ s, getSession VerifyStore (req_cookie request)
          !! ResetPassword.resetPasswordUsernameSessionKey = Some (VString s) →
        s ≠ "" →
        ResetPassword.loader request w = (Ok s, w))
  ∧ ((∀ s, getSession VerifyStore (req_cookie request)
             !! ResetPassword.resetPasswordUsernameSessionKey
           = Some (VString s) → s = "") →
     ResetPassword.loader request w
       = (Throw (ThrownResponse (redirect "/login" noInit)), w)
     ∧ ResetPassword.action request w
       = (Throw (ThrownResponse (redirect "/login" noInit)), w)).
Proof.
  intros Ha. split.
  - intros s Hs Hne. unfold ResetPassword.loader, bind.
    by rewrite (requireResetPasswordUsername_accepts _ _ _ Ha Hs Hne).
  - intros Hno.
    pose proof (requireResetPasswordUsername_rejects _ _ Ha Hno) as Hg.
    split.
    + unfold ResetPassword.loader, bind. by rewrite Hg.
    + unfold ResetPassword.action, bind. by rewrite Hg.
Qed.

(** X6.  The onboarding hand-off consults no table: whatever the state,
    it redirects to /onboarding and commits the target under
    [onboardingEmail].  An anonymous browser that sends this session back
    gets the target from the /onboarding loader, unless the target is
    empty, in which case it is sent to /signup. *)
Theorem onboarding_handoff_round_trip
    `{AuthServer} (args : VerifyFunctionArgs) (w0 : World)
    (request : Request) (w : World) :
  getUserId request w = None →
  ∃ data,
    OnboardingServer.handleVerification args w0
    = (Ok (redirect "/onboarding"
             (mkInit None [Commit VerifyStore data None])), w0)
    ∧ (getSession VerifyStore (req_cookie request) = data →
       (rd_target (vf_resultData args) ≠ "" →
        Onboarding.loader request w = (Ok (rd_target (vf_resultData args)), w))
       ∧ (rd_target (vf_resultData args) = "" →
          Onboarding.loader request w
          = (Throw (ThrownResponse (redirect "/signup" noInit)), w))).
Proof.
  intros Ha. eexists. split; [reflexivity|].
  intros Hdata.
  assert (Hget : getSession VerifyStore (req_cookie request)
                   !! Onboarding.onboardingEmailSessionKey
                 = Some (VString (rd_target (vf_resultData args)))).
  { rewrite Hdata. apply lookup_insert_eq. }
  split.
  - intros Hne. unfold Onboarding.loader, bind.
    by rewrite (requireOnboardingEmail_accepts _ _ _ Ha Hget Hne).
  - intros Hempty. unfold Onboarding.loader, bind,
      Onboarding.requireOnboardingEmail, bind.
    rewrite (requireAnonymous_passes _ _ Ha), Hget.
    by rewrite bool_decide_eq_true_2.
Qed.

(** X7.  End to end through the reset-password flow: when the hand-off
    has found a user for the target (an email or a username), an
    anonymous browser that sends the committed session back and submits a
    valid form has the password of that very user reset, with the
    password of the form, and is redirected to /login with the
    verification session destroyed. *)
Theorem reset_handoff_resets_found_user
    `{UserValidation} `{AuthServer} (args : VerifyFunctionArgs) (w0 : World)
    (user : User) (request : Request) (w : World)
    (d : PasswordAndConfirmPassword) :
  prisma.user_findFirst_emailOrUsername (rd_target (vf_resultData args)) w0
    = (Ok (Some user), w0) →
  user_username user ≠ "" →
  getUserId request w = None →
  toResult
    (PasswordAndConfirmPasswordSchema
       (sub_value (parseSubmission (req_formData request)))) = ZSuccess d →
  ∃ data,
    ResetPasswordServer.handleVerification args w0
    = (Ok (redirect "/reset-password"
             (mkInit None [Commit VerifyStore data None])), w0)
    ∧ (getSession VerifyStore (req_cookie request) = data →
       ResetPassword.loader request w = (Ok (user_username user), w)
       ∧ ResetPassword.action request w
         = match resetUserPassword (user_username user) (password d) w with
           | (Ok _, w') =>
               (Ok (redirect "/login" (mkInit None [Destroy VerifyStore])), w')
           | (Throw t, w') => (Throw t, w')
           end).
Proof.
  intros Hfind Hne Ha Hparse. eexists. split.
  { unfold ResetPasswordServer.handleVerification, bind. rewrite Hfind.
    reflexivity. }
  intros Hdata.
  assert (Hget : getSession VerifyStore (req_cookie request)
                   !! ResetPassword.resetPasswordUsernameSessionKey
                 = Some (VString (user_username user))).
  { rewrite Hdata. apply lookup_insert_eq. }
  pose proof (requireResetPasswordUsername_accepts _ _ _ Ha Hget Hne) as Hg.
  split.
  - unfold ResetPassword.loader, bind. by rewrite Hg.
  - unfold ResetPassword.action, bind at 1. rewrite Hg.
    unfold ResetPassword.ResetPasswordSchema. rewrite Hparse.
    unfold bind.
    by destruct (resetUserPassword (user_username user) (password d) w)
      as [[[]|t] w'].
Qed.

Lemma reset_password_requires_username_witness :
  @ResetPassword.loader Sample.auth (Sample.resetting ∅) Sample.world
  = (Ok "kody", Sample.world)
  ∧ @ResetPassword.action Sample.validation Sample.auth
      (Sample.anonymous ∅) Sample.world
    = (Throw (ThrownResponse (redirect "/login" noInit)), Sample.world).
Proof.
  split.
  - destruct (@reset_password_requires_username Sample.validation Sample.auth
                (Sample.resetting ∅) Sample.world) as [T _];
      [reflexivity|].
    apply T; [reflexivity|discriminate].
  - destruct (@reset_password_requires_username Sample.validation Sample.auth
                (Sample.anonymous ∅) Sample.world) as [_ T];
      [reflexivity|].
    apply T. intros s Hs. discriminate Hs.
Defined.

Lemma onboarding_handoff_round_trip_witness :
  ∃ data,
    OnboardingServer.handleVerification
      (Sample.verifyArgs "onboarding" "new@example.com" "XYZ789") Sample.world
    = (Ok (redirect "/onboarding"
             (mkInit None [Commit VerifyStore data None])), Sample.world)
    ∧ (getSession VerifyStore (req_cookie (Sample.onboarding ∅)) = data →
       @Onboarding.loader Sample.auth (Sample.onboarding ∅) Sample.world
       = (Ok "new@example.com", Sample.world)).
Proof.
  destruct (@onboarding_handoff_round_trip Sample.auth
              (Sample.verifyArgs "onboarding" "new@example.com" "XYZ789")
              Sample.world (Sample.onboarding ∅) Sample.world)
    as (data & Hrun & Hback); [reflexivity|].
  exists data. split; [exact Hrun|].
  intros Hdata. apply (Hback Hdata). discriminate.
Defined.

Lemma reset_handoff_resets_found_user_witness :
  ∃ data,
    ResetPasswordServer.handleVerification
      (Sample.verifyArgs "reset-password" "kody@example.com" "ABC123")
      Sample.world
    = (Ok (redirect "/reset-password"
             (mkInit None [Commit VerifyStore data None])), Sample.world)
    ∧ (getSession VerifyStore (req_cookie (request Sample.kodyReset)) = data →
       @ResetPassword.loader Sample.auth (request Sample.kodyReset)
         Sample.world
       = (Ok "kody", Sample.world)
       ∧ @ResetPassword.action Sample.validation Sample.auth
           (request Sample.kodyReset) Sample.world
         = (Ok (redirect "/login" (mkInit None [Destroy VerifyStore])),
            Sample.worldAfterReset)).
Proof.
  apply (@reset_handoff_resets_found_user Sample.validation Sample.auth
           (Sample.verifyArgs "reset-password" "kody@example.com" "ABC123")
           Sample.world Sample.kody (request Sample.kodyReset) Sample.world
           (mkPasswordAndConfirmPassword "newsecret" "newsecret")).
  - reflexivity.
  - discriminate.
  - reflexivity.
  - vm_compute. reflexivity.
Defined.

(** ** The guard and the form of the provider signup *)





(** X8.  What the guard of the provider signup accepts, for an anonymous
    actor: it returns exactly the email string of the verification
    session, the validated provider of the route and the provider id
    string of the session, and throws a redirect to /signup when one of
    the three is missing; the state is left as it is.  Unlike the guard of
    the plain onboarding, it lets an empty email through. *)
Theorem provider_requireData_accepts
    `{AuthServer} `{Utilities} (args : ActionArgs) (w : World) :
  getUserId (request args) w = None →
  let session := getSession VerifyStore (req_cookie (request args)) in
  let holds (rd : OnboardingProvider.RequiredData) :=
    session !! Onboarding.onboardingEmailSessionKey
      = Some (VString (OnboardingProvider.email rd))
    ∧ ProviderNameSchema (params args !! "provider")
      = Some (OnboardingProvider.providerName rd)
    ∧ session !! OnboardingProvider.providerIdKey
      = Some (VString (OnboardingProvider.providerId rd)) in
  (∀ rd, holds rd → OnboardingProvider.requireData args w = (Ok rd, w))
  ∧ ((∀ rd, ¬ holds rd) →
     OnboardingProvider.requireData args w
     = (Throw (ThrownResponse (redirect "/signup" noInit)), w))
  ∧ (∀ rd, holds rd → OnboardingProvider.email rd = "" →
     Onboarding.requireOnboardingEmail (request args) w
     = (Throw (ThrownResponse (redirect "/signup" noInit)), w)).
Proof.
  intros Ha session holds. split_and!.
  - intros [e n i] (He & Hn & Hi). simpl in *.
    unfold OnboardingProvider.requireData, bind.
    rewrite (requireAnonymous_passes _ _ Ha).
    fold session. by rewrite He, Hn, Hi.
  - intros Hno. unfold OnboardingProvider.requireData, bind.
    rewrite (requireAnonymous_passes _ _ Ha). fold session.
    destruct (session !! Onboarding.onboardingEmailSessionKey)
      as [[e| | |]|] eqn:He; try reflexivity.
    destruct (ProviderNameSchema (params args !! "provider"))
      as [n|] eqn:Hn; try reflexivity.
    destruct (session !! OnboardingProvider.providerIdKey)
      as [[i| | |]|] eqn:Hi; try reflexivity.
    by destruct (Hno (OnboardingProvider.mkRequiredData e n i)).
  - intros rd (He & _) Hempty.
    unfold Onboarding.requireOnboardingEmail, bind.
    rewrite (requireAnonymous_passes _ _ Ha). fold session.
    rewrite He, Hempty. by rewrite bool_decide_eq_true_2.
Qed.

Lemma provider_requireData_accepts_witness :
  @OnboardingProvider.requireData Sample.auth Sample.utilities
    (mkActionArgs (Sample.providerOnboarding ∅) {[ "provider" := "github" ]})
    Sample.world
  = (Ok (OnboardingProvider.mkRequiredData "new@example.com" "github" "gh-42"),
     Sample.world).
Proof.
  destruct (@provider_requireData_accepts Sample.auth Sample.utilities
              (mkActionArgs (Sample.providerOnboarding ∅)
                 {[ "provider" := "github" ]})
              Sample.world) as (T & _ & _); [reflexivity|].
  apply T. by split_and!.
Defined.



(** ** The login *)

Lemma resolve_form_issue (message : string) :
  resolveIssues [mkIssue [] message] = mkFormError [message] ∅.
Proof. reflexivity. Qed.

(** X10.  What the login action answers to an anonymous browser that
    passes the honeypot.  A form the schema does not accept is answered
    with a 400 report and [login] is not consulted: the answer is the
    same whatever [login] does, and the state is left alone.  For an
    accepted form the credentials are checked once: if [login] returns
    no session the answer is a 400 report with the form error 'Invalid
    username or password', otherwise the session is handed to
    [handleNewSession] with the form's [remember], false when absent.
    No report echoes the password field. *)
Theorem login_action_outcomes
    `{UserValidation} `{AuthServer} `{Utilities}
    (request : Request) (w : World) :
  getUserId request w = None →
  checkHoneypot (req_formData request) = None →
  let submission := parseSubmission (req_formData request) in
  ((∀ d, Login.LoginFormSchema (sub_value submission) ≠ PValid d) →
   ∃ r, Login.action request w = (Ok r, w)
        ∧ resp_status r = 400
        ∧ ∃ shown, echoed r = Some shown ∧ shown !! "password" = None)
  ∧ (∀ d, Login.LoginFormSchema (sub_value submission) = PValid d →
     (∀ w', login (Login.username d) (Login.password_ d) w = (Ok None, w') →
      ∃ r, Login.action request w = (Ok r, w')
           ∧ resp_status r = 400
           ∧ errorOf r
             = Some (mkFormError ["Invalid username or password"] ∅)
           ∧ ∃ shown, echoed r = Some shown ∧ shown !! "password" = None)
     ∧ (∀ session w',
          login (Login.username d) (Login.password_ d) w
            = (Ok (Some session), w') →
          Login.action request w
          = handleNewSession
              (mkNewSessionArgs request session
                 (default false (Login.remember d)) (Login.redirectTo d)) w')
     ∧ (∀ t w',
          login (Login.username d) (Login.password_ d) w = (Throw t, w') →
          Login.action request w = (Throw t, w'))).
Proof.
  intros Ha Hh submission.
  assert (Hrun : Login.action request w
            = bind (Login.parseForm (sub_value submission))
                (fun result =>
                   match result with
                   | ZFailure _ =>
                       ret (data
                              (BodyResult
                                 (report submission
                                    (mkReportOptions (resolveZodResult result)
                                       ["password"])))
                              badRequest)
                   | ZSuccess (Some (d, session)) =>
                       handleNewSession
                         (mkNewSessionArgs request session
                            (default false (Login.remember d))
                            (Login.redirectTo d))
                   | ZSuccess None => throw (ThrownError "TypeError")
                   end) w).
  { unfold Login.action, bind at 1.
    rewrite (requireAnonymous_passes _ _ Ha).
    unfold bind at 1. by rewrite Hh. }
  assert (Hhidden : ∀ e,
            ∃ shown,
              echoed (data
                        (BodyResult
                           (report submission (mkReportOptions e ["password"])))
                        badRequest) = Some shown
              ∧ shown !! "password" = None).
  { intros e. eexists. split; [reflexivity|].
    apply hide_lookup_hidden. set_solver. }
  rewrite Hrun. clear Hrun. split.
  - intros Hinvalid. unfold bind, Login.parseForm, transformCtx, bind.
    destruct (Login.LoginFormSchema (sub_value submission)) as [d|d i|i];
      [by destruct (Hinvalid d) | |];
      (eexists; split_and!; [reflexivity | reflexivity | apply Hhidden]).
  - intros d Hvalid. unfold bind, Login.parseForm, transformCtx, bind.
    rewrite Hvalid. split_and!.
    + intros w' Hlogin. rewrite Hlogin.
      eexists. split_and!; [reflexivity | reflexivity | | apply Hhidden].
      reflexivity.
    + intros session w' Hlogin. by rewrite Hlogin.
    + intros t w' Hlogin. by rewrite Hlogin.
Qed.

Lemma login_action_outcomes_witness :
  ∃ w',
    sessions w'
    = (sessions Sample.world ++ [Sample.newSession "u1" Sample.world])%list
    ∧ @Login.action Sample.validation Sample.auth Sample.utilities
        Sample.kodyLogin Sample.world
      = @handleNewSession Sample.utilities
          (mkNewSessionArgs Sample.kodyLogin
             (Sample.newSession "u1" Sample.world) true None) w'.
Proof.
  destruct (@login_action_outcomes Sample.validation Sample.auth
              Sample.utilities Sample.kodyLogin Sample.world)
    as [_ T]; [reflexivity | reflexivity |].
  destruct (T (Login.mkLoginForm "kody" "kodylovesyou" None (Some true)))
    as (_ & T' & _); [vm_compute; reflexivity|].
  eexists. split; [|apply T'; vm_compute; reflexivity]. reflexivity.
Defined.

(** ** The password pages *)

Lemma storedPassword_withPassword (userId hash : string) (w : World) :
  storedPassword userId w = None →
  storedPassword userId (withPassword userId hash w)
  = Some (mkPassword userId hash).
Proof.
  unfold storedPassword, withPassword. simpl.
  induction (passwords w) as [|p ps IH]; simpl.
  - intros _. by rewrite bool_decide_eq_true_2.
  - destruct (bool_decide (password_userId p = userId)); [discriminate|].
    exact IH.
Qed.

Lemma storedPassword_changed (userId hash : string) (w : World) :
  is_Some (storedPassword userId w) →
  storedPassword userId (withChangedPassword userId hash w)
  = Some (mkPassword userId hash).
Proof.
  unfold storedPassword, withChangedPassword. simpl.
  induction (passwords w) as [|p ps IH]; [by intros [? ?]|].
  rewrite fmap_cons. cbn [find].
  destruct (decide (password_userId p = userId)) as [Hp|Hp].
  - rewrite (bool_decide_eq_true_2 _ Hp). cbn [password_userId].
    intros _. by rewrite bool_decide_eq_true_2.
  - rewrite !(bool_decide_eq_false_2 _ Hp). exact IH.
Qed.

Lemma storedPassword_changed_other (userId other hash : string) (w : World) :
  other ≠ userId →
  storedPassword other (withChangedPassword userId hash w)
  = storedPassword other w.
Proof.
  intros Hne. unfold storedPassword, withChangedPassword. simpl.
  induction (passwords w) as [|p ps IH]; [reflexivity|].
  rewrite fmap_cons. cbn [find].
  destruct (decide (password_userId p = userId)) as [Hp|Hp].
  - rewrite (bool_decide_eq_true_2 _ Hp). cbn [password_userId].
    rewrite !bool_decide_eq_false_2 by congruence. exact IH.
  - rewrite (bool_decide_eq_false_2 _ Hp). by rewrite IH.
Qed.

Lemma password_update_run `{AuthServer} (userId hash : string) (w : World) :
  userExists userId w →
  is_Some (storedPassword userId w) →
  prisma.user_update_password_update userId hash w
  = (Ok tt, withChangedPassword userId hash w).
Proof.
  intros Hex [p Hp]. destruct (find_user_exists _ _ Hex) as [u Hu].
  unfold prisma.user_update_password_update, bind, prisma.user_findUnique_id,
    prisma.password_findUnique, gets.
  unfold storedPassword in Hp. rewrite Hu, Hp. reflexivity.
Qed.

Lemma password_update_state (userId hash : string) (w : World) o w' :
  prisma.user_update_password_update userId hash w = (o, w') →
  w' = w ∨ (o = Ok tt ∧ userExists userId w
            ∧ w' = withChangedPassword userId hash w).
Proof.
  unfold prisma.user_update_password_update, bind, prisma.user_findUnique_id,
    prisma.password_findUnique, gets, throw, modify.
  destruct (find _ (users w)) as [u|] eqn:Hu;
    [|intros [= <- <-]; by left].
  destruct (find _ (passwords w)) as [p|]; intros [= <- <-]; [|by left].
  right. split_and!; [done | | done].
  apply find_some in Hu as [Hin Hid]. exists u.
  split; [by apply list_elem_of_In | by apply bool_decide_eq_true in Hid].
Qed.

Section PasswordPages.
Context `{UserValidation} `{AuthServer}.

Lemma requireUserId_passes request w userId :
  getUserId request w = Some userId → requireUserId request w = (Ok userId, w).
Proof. intros Ha. unfold requireUserId. by rewrite Ha. Qed.

Lemma requireUserId_rejects request w :
  getUserId request w = None →
  requireUserId request w
  = (Throw (ThrownResponse (redirect "/login" noInit)), w).
Proof. intros Ha. unfold requireUserId. by rewrite Ha. Qed.

Lemma requirePassword_run userId w :
  ChangePassword.requirePassword userId w
  = match storedPassword userId w with
    | Some _ => (Ok tt, w)
    | None =>
        (Throw (ThrownResponse
                  (redirect "/settings/profile/password/create" noInit)), w)
    end.
Proof.
  unfold ChangePassword.requirePassword, bind, prisma.password_findUnique,
    gets, storedPassword.
  by destruct (find _ (passwords w)).
Qed.

Lemma requireNoPassword_run userId w :
  CreatePassword.requireNoPassword userId w
  = match storedPassword userId w with
    | Some _ =>
        (Throw (ThrownResponse
                  (redirect "/settings/profile/password" noInit)), w)
    | None => (Ok tt, w)
    end.
Proof.
  unfold CreatePassword.requireNoPassword, bind, prisma.password_findUnique,
    gets, storedPassword.
  by destruct (find _ (passwords w)).
Qed.

Lemma verifyUserPassword_run userId pw w :
  ∃ o, verifyUserPassword userId pw w = (Ok o, w)
       ∧ (∀ stored, userExists userId w →
            storedPassword userId w = Some stored →
            o = if comparePassword pw (password_hash stored)
                then Some userId else None)
       ∧ (is_Some o →
          ∃ stored, storedPassword userId w = Some stored
                    ∧ comparePassword pw (password_hash stored) = true).
Proof.
  unfold verifyUserPassword, bind, prisma.user_findUnique_id,
    prisma.password_findUnique, gets, ret, storedPassword.
  eexists. split; [reflexivity|]. split.
  - intros stored Hex Hs. destruct (find_user_exists _ _ Hex) as [u Hu].
    rewrite Hu, Hs. apply find_some in Hu as [_ Hid].
    apply bool_decide_eq_true in Hid. by rewrite Hid.
  - destruct (find _ (users w)) as [u|]; [|by intros [? ?]].
    destruct (find _ (passwords w)) as [p|]; [|by intros [? ?]].
    destruct (comparePassword pw (password_hash p)) eqn:Hc;
      [|by intros [? ?]].
    intros _. by exists p.
Qed.

(** What a successful parse of the change-password form means. *)
Lemma changePassword_parseForm_success userId value w d w' :
  ChangePassword.parseForm userId value w = (Ok (ZSuccess d), w') →
  ChangePassword.ChangePasswordForm value = PValid d
  ∧ (ChangePassword.currentPassword d ≠ "" →
     ChangePassword.newPassword d ≠ "" →
     ∃ stored, storedPassword userId w = Some stored
               ∧ comparePassword (ChangePassword.currentPassword d)
                   (password_hash stored) = true).
Proof.
  unfold ChangePassword.parseForm, superRefine, bind at 1. intros Hr.
  destruct (ChangePassword.ChangePasswordForm value) as [a|a i|i].
  - destruct (bool_decide (ChangePassword.currentPassword a ≠ "")
              && bool_decide (ChangePassword.newPassword a ≠ "")) eqn:Hb.
    + destruct (verifyUserPassword_run userId
                  (ChangePassword.currentPassword a) w) as (o & Hv & _ & Hsome).
      unfold bind in Hr. rewrite Hv in Hr. simpl in Hr.
      destruct o as [u|]; simpl in Hr; [|discriminate].
      injection Hr as <- <-. split; [done|]. intros _ _. by apply Hsome.
    + simpl in Hr. injection Hr as <- <-. split; [done|].
      intros Hc Hn.
      by rewrite !bool_decide_eq_true_2 in Hb by done.
  - destruct (bool_decide _ && bool_decide _).
    + destruct (verifyUserPassword_run userId
                  (ChangePassword.currentPassword a) w) as (o & Hv & _).
      unfold bind in Hr. rewrite Hv in Hr. simpl in Hr. discriminate.
    + simpl in Hr. discriminate.
  - simpl in Hr. discriminate.
Qed.

Lemma changePassword_parseForm_run userId value w d stored :
  ChangePassword.ChangePasswordForm value = PValid d →
  userExists userId w →
  storedPassword userId w = Some stored →
  (ChangePassword.currentPassword d ≠ "" →
   ChangePassword.newPassword d ≠ "" →
   comparePassword (ChangePassword.currentPassword d) (password_hash stored)
   = true) →
  ChangePassword.parseForm userId value w = (Ok (ZSuccess d), w).
Proof.
  intros Hp Hex Hs Hc.
  unfold ChangePassword.parseForm, superRefine, bind at 1. rewrite Hp.
  destruct (bool_decide (ChangePassword.currentPassword d ≠ "")
            && bool_decide (ChangePassword.newPassword d ≠ "")) eqn:Hb;
    [|reflexivity].
  apply andb_prop in Hb as [Hb1 Hb2].
  apply bool_decide_eq_true in Hb1, Hb2.
  destruct (verifyUserPassword_run userId (ChangePassword.currentPassword d) w)
    as (o & Hv & Ho & _).
  unfold bind. rewrite Hv, (Ho stored Hex Hs), (Hc Hb1 Hb2). reflexivity.
Qed.

End PasswordPages.

(** X11.  The two password pages exclude each other.  For an
    authenticated user without a password the create page loads, while
    the loader and the action of the change page redirect to it; for a
    user with a password the change page loads, while the loader and the
    action of the create page redirect to it, so the create page never
    overwrites a password.  None of the redirecting handlers touches the
    state, and an anonymous actor is sent to /login by all of them. *)
Theorem password_pages_exclude_each_other
    `{UserValidation} `{AuthServer} (request : Request) (w : World) :
  let toCreate : Outcome unit * World :=
    (Throw (ThrownResponse
              (redirect "/settings/profile/password/create" noInit)), w) in
  let toChange : Outcome unit * World :=
    (Throw (ThrownResponse
              (redirect "/settings/profile/password" noInit)), w) in
  (∀ userId, getUserId request w = Some userId →
     (storedPassword userId w = None →
      CreatePassword.loader request w = (Ok tt, w)
      ∧ ChangePassword.loader request w = toCreate
      ∧ ChangePassword.action request w
        = (Throw (ThrownResponse
                    (redirect "/settings/profile/password/create" noInit)), w))
     ∧ (is_Some (storedPassword userId w) →
        ChangePassword.loader request w = (Ok tt, w)
        ∧ CreatePassword.loader request w = toChange
        ∧ CreatePassword.action request w
          = (Throw (ThrownResponse
                      (redirect "/settings/profile/password" noInit)), w)))
  ∧ (getUserId request w = None →
     ∀ handler,
       handler ∈ [CreatePassword.loader request w;
                  ChangePassword.loader request w] →
       handler = (Throw (ThrownResponse (redirect "/login" noInit)), w)).
Proof.
  intros toCreate toChange. split.
  - intros userId Ha.
    pose proof (requireUserId_passes _ _ _ Ha) as Hu. split.
    + intros Hnone. split_and!.
      * unfold CreatePassword.loader, bind at 1. rewrite Hu.
        unfold bind. by rewrite requireNoPassword_run, Hnone.
      * unfold ChangePassword.loader, bind at 1. rewrite Hu.
        unfold bind. by rewrite requirePassword_run, Hnone.
      * unfold ChangePassword.action, bind at 1. rewrite Hu.
        unfold bind at 1. by rewrite requirePassword_run, Hnone.
    + intros [p Hsome]. split_and!.
      * unfold ChangePassword.loader, bind at 1. rewrite Hu.
        unfold bind. by rewrite requirePassword_run, Hsome.
      * unfold CreatePassword.loader, bind at 1. rewrite Hu.
        unfold bind. by rewrite requireNoPassword_run, Hsome.
      * unfold CreatePassword.action, bind at 1. rewrite Hu.
        unfold bind at 1. by rewrite requireNoPassword_run, Hsome.
  - intros Ha handler Hin.
    pose proof (requireUserId_rejects _ _ Ha) as Hu.
    apply elem_of_cons in Hin as [-> | Hin].
    { unfold CreatePassword.loader, bind at 1. by rewrite Hu. }
    apply list_elem_of_singleton in Hin as ->.
    unfold ChangePassword.loader, bind at 1. by rewrite Hu.
Qed.

Lemma password_pages_exclude_each_other_witness :
  @ChangePassword.loader Sample.auth Sample.createPassword Sample.world
  = (Ok tt, Sample.world)
  ∧ @CreatePassword.action Sample.validation Sample.auth Sample.createPassword
      Sample.world
    = (Throw (ThrownResponse (redirect "/settings/profile/password" noInit)),
       Sample.world)
  ∧ @ChangePassword.action Sample.validation Sample.auth Sample.createPassword
      Sample.worldWithoutPassword
    = (Throw (ThrownResponse
                (redirect "/settings/profile/password/create" noInit)),
       Sample.worldWithoutPassword).
Proof.
  destruct (@password_pages_exclude_each_other Sample.validation Sample.auth
              Sample.createPassword Sample.world) as [T _].
  destruct (T "u1") as [_ T1]; [reflexivity|].
  destruct T1 as (L & _ & A); [by eexists|].
  destruct (@password_pages_exclude_each_other Sample.validation Sample.auth
              Sample.createPassword Sample.worldWithoutPassword) as [T' _].
  destruct (T' "u1") as [T2 _]; [reflexivity|].
  destruct T2 as (_ & _ & A'); [reflexivity|].
  by split_and!.
Defined.

(** X12.  A valid change of password: for an authenticated user who
    exists and has a password, a form the schema accepts, and a current
    password that matches the stored hash (or a form in which the current
    or the new password is the empty string, for which the handler skips
    the comparison), the action answers with a 302 redirect to
    /settings/profile carrying the success toast, and afterwards the
    user's stored hash is the hash of the new password while every other
    user's password and every other table are as before. *)
Theorem change_password_replaces_own_hash
    `{UserValidation} `{AuthServer}
    (request : Request) (w : World) (userId : string) (stored : Password)
    (d : ChangePassword.ChangePassword) :
  getUserId request w = Some userId →
  userExists userId w →
  storedPassword userId w = Some stored →
  ChangePassword.ChangePasswordForm
    (sub_value (parseSubmission (req_formData request))) = PValid d →
  (ChangePassword.currentPassword d ≠ "" →
   ChangePassword.newPassword d ≠ "" →
   comparePassword (ChangePassword.currentPassword d) (password_hash stored)
   = true) →
  let hash := getPasswordHash (ChangePassword.newPassword d) in
  let w' := withChangedPassword userId hash w in
  ChangePassword.action request w
  = (Ok (redirect "/settings/profile"
           (mkInit (Some 302)
              [ToastCookie
                 (mkToast (Some "success") "Password Changed"
                    "Your password has been changed.")])), w')
  ∧ storedPassword userId w' = Some (mkPassword userId hash)
  ∧ (∀ other, other ≠ userId →
              storedPassword other w' = storedPassword other w)
  ∧ sameButPasswords w w'.
Proof.
  intros Ha Hex Hs Hp Hc hash w'. split_and!.
  - unfold ChangePassword.action, bind at 1.
    rewrite (requireUserId_passes _ _ _ Ha).
    unfold bind at 1. rewrite requirePassword_run, Hs.
    unfold bind at 1.
    rewrite (changePassword_parseForm_run _ _ _ _ _ Hp Hex Hs Hc).
    unfold bind. rewrite password_update_run by (done || by eexists).
    reflexivity.
  - apply storedPassword_changed. by eexists.
  - intros other Hne. by apply storedPassword_changed_other.
  - by split_and!.
Qed.

Lemma change_password_replaces_own_hash_witness :
  storedPassword "u1"
    (withChangedPassword "u1" (Sample.sampleHash "abcdefg") Sample.world)
  = Some (mkPassword "u1" (Sample.sampleHash "abcdefg"))
  ∧ ∃ r,
      @ChangePassword.action Sample.validation Sample.auth
        (Sample.asKody
           (Sample.changePasswordForm "kodylovesyou" "abcdefg" "abcdefg"))
        Sample.world
      = (Ok r,
         withChangedPassword "u1" (Sample.sampleHash "abcdefg") Sample.world).
Proof.
  destruct (@change_password_replaces_own_hash Sample.validation Sample.auth
              (Sample.asKody
                 (Sample.changePasswordForm "kodylovesyou" "abcdefg" "abcdefg"))
              Sample.world "u1"
              (mkPassword "u1" (Sample.sampleHash "kodylovesyou"))
              (ChangePassword.mkChangePassword "kodylovesyou" "abcdefg"
                 "abcdefg"))
    as (Hrun & Hown & _).
  - reflexivity.
  - exists Sample.kody. split; [apply list_elem_of_here | reflexivity].
  - reflexivity.
  - vm_compute. reflexivity.
  - intros _ _. vm_compute. reflexivity.
  - split; [exact Hown|]. eexists. exact Hrun.
Defined.

(** X13.  The change-password action writes nothing but the actor's own
    hash, and only for a form it has accepted.  Whatever the request, the
    state after the action is the state before, or the actor exists, has
    a password, the schema accepts the form, the current password matches
    the stored hash unless the current or the new password is empty, and
    the state is the one in which the actor's hash is the hash of the new
    password.  In particular no row is added or removed, and the
    passwords of the other users and all other tables are as they
    were. *)
Theorem change_password_writes_only_own_hash
    `{UserValidation} `{AuthServer}
    (request : Request) (w : World) (o : Outcome Response) (w' : World) :
  ChangePassword.action request w = (o, w') →
  (w' = w
   ∨ ∃ userId d stored,
       getUserId request w = Some userId
       ∧ userExists userId w
       ∧ storedPassword userId w = Some stored
       ∧ ChangePassword.ChangePasswordForm
           (sub_value (parseSubmission (req_formData request))) = PValid d
       ∧ (ChangePassword.currentPassword d ≠ "" →
          ChangePassword.newPassword d ≠ "" →
          comparePassword (ChangePassword.currentPassword d)
            (password_hash stored) = true)
       ∧ w' = withChangedPassword userId
                (getPasswordHash (ChangePassword.newPassword d)) w)
  ∧ sameButPasswords w w'
  ∧ length (passwords w') = length (passwords w)
  ∧ (∀ other, getUserId request w ≠ Some other →
              storedPassword other w' = storedPassword other w).
Proof.
  intros Hrun.
  assert (Hcases :
    w' = w
    ∨ ∃ userId d stored,
        getUserId request w = Some userId
        ∧ userExists userId w
        ∧ storedPassword userId w = Some stored
        ∧ ChangePassword.ChangePasswordForm
            (sub_value (parseSubmission (req_formData request))) = PValid d
        ∧ (ChangePassword.currentPassword d ≠ "" →
           ChangePassword.newPassword d ≠ "" →
           comparePassword (ChangePassword.currentPassword d)
             (password_hash stored) = true)
        ∧ w' = withChangedPassword userId
                 (getPasswordHash (ChangePassword.newPassword d)) w).
  { unfold ChangePassword.action, bind at 1, requireUserId in Hrun.
    destruct (getUserId request w) as [userId|] eqn:Ha;
      [|injection Hrun as <- <-; by left].
    unfold bind at 1 in Hrun. rewrite requirePassword_run in Hrun.
    destruct (storedPassword userId w) as [stored|] eqn:Hs;
      [|injection Hrun as <- <-; by left].
    unfold bind at 1 in Hrun.
    destruct (ChangePassword.parseForm userId
                (sub_value (parseSubmission (req_formData request))) w)
      as [[[d|issues]|t] w0] eqn:Hparse;
      pose proof (changePassword_parseForm_state _ _ _ _ _ Hparse) as ->;
      [|injection Hrun as <- <-; by left..].
    apply changePassword_parseForm_success in Hparse as [Hvalid Hchecked].
    unfold bind at 1 in Hrun.
    destruct (prisma.user_update_password_update userId
                (getPasswordHash (ChangePassword.newPassword d)) w)
      as [[[]|t] w1] eqn:Hupd.
    - apply password_update_state in Hupd as [-> | (_ & Hex & ->)];
        injection Hrun as <- <-; [by left|].
      right. exists userId, d, stored. split_and!; try done.
      intros Hc Hn. destruct (Hchecked Hc Hn) as (stored' & Hs' & Hcmp).
      congruence.
    - apply password_update_state in Hupd as [-> | (Hok & _)];
        [|discriminate].
      injection Hrun as <- <-. by left. }
  split; [exact Hcases|].
  destruct Hcases as [-> | (userId & d & stored & Ha & _ & _ & _ & _ & ->)].
  - by split_and!.
  - split_and!; [by split_and! | | ].
    + unfold withChangedPassword. simpl. by rewrite length_fmap.
    + intros other Hne. apply storedPassword_changed_other. congruence.
Qed.

Lemma change_password_writes_only_own_hash_witness :
  sameButPasswords Sample.world
    (withChangedPassword "u1" (Sample.sampleHash "abcdefg") Sample.world)
  ∧ length
      (passwords
         (withChangedPassword "u1" (Sample.sampleHash "abcdefg") Sample.world))
    = length (passwords Sample.world).
Proof.
  destruct (@change_password_writes_only_own_hash Sample.validation
              Sample.auth
              (Sample.asKody
                 (Sample.changePasswordForm "kodylovesyou" "abcdefg" "abcdefg"))
              Sample.world
              (Ok (redirect "/settings/profile"
                     (mkInit (Some 302)
                        [ToastCookie
                           (mkToast (Some "success") "Password Changed"
                              "Your password has been changed.")])))
              (withChangedPassword "u1" (Sample.sampleHash "abcdefg")
                 Sample.world))
    as (_ & Hsame & Hlen & _); [vm_compute; reflexivity|].
  by split.
Defined.

(** X14.  Creating a password and then using it.  After the create
    action has gone through for a user, the same user is sent from the
    create page to the change page, where the loader lets them in; the
    create action cannot run a second time; and verifying a password
    against the stored hash compares it with the hash of the very
    password that was submitted. *)
Theorem create_password_then_change
    `{UserValidation} `{AuthServer}
    (request : Request) (w : World) (userId : string)
    (d : PasswordAndConfirmPassword) :
  getUserId request w = Some userId →
  userExists userId w →
  storedPassword userId w = None →
  toResult
    (PasswordAndConfirmPasswordSchema
       (sub_value (parseSubmission (req_formData request)))) = ZSuccess d →
  let hash := getPasswordHash (password d) in
  let w' := withPassword userId hash w in
  CreatePassword.action request w
  = (Ok (redirect "/settings/profile" (mkInit (Some 302) [])), w')
  ∧ ∀ next, getUserId next w' = Some userId →
      ChangePassword.loader next w' = (Ok tt, w')
      ∧ CreatePassword.loader next w'
        = (Throw (ThrownResponse
                    (redirect "/settings/profile/password" noInit)), w')
      ∧ CreatePassword.action next w'
        = (Throw (ThrownResponse
                    (redirect "/settings/profile/password" noInit)), w')
      ∧ ∀ pw, verifyUserPassword userId pw w'
              = (Ok (if comparePassword pw hash then Some userId else None),
                 w').
Proof.
  intros Ha Hex Hnone Hparse hash w'.
  assert (Hstored : storedPassword userId w' = Some (mkPassword userId hash))
    by by apply storedPassword_withPassword.
  assert (Hex' : userExists userId w') by exact Hex.
  split.
  - unfold CreatePassword.action, bind at 1.
    rewrite (requireUserId_passes _ _ _ Ha).
    unfold bind at 1. rewrite requireNoPassword_run, Hnone.
    unfold CreatePassword.CreatePasswordForm. rewrite Hparse.
    unfold bind. by rewrite password_create_run.
  - intros next Hnext.
    pose proof (requireUserId_passes _ _ _ Hnext) as Hu. split_and!.
    + unfold ChangePassword.loader, bind at 1. rewrite Hu.
      unfold bind. by rewrite requirePassword_run, Hstored.
    + unfold CreatePassword.loader, bind at 1. rewrite Hu.
      unfold bind. by rewrite requireNoPassword_run, Hstored.
    + unfold CreatePassword.action, bind at 1. rewrite Hu.
      unfold bind at 1. by rewrite requireNoPassword_run, Hstored.
    + intros pw.
      destruct (verifyUserPassword_run userId pw w') as (o & Hv & Ho & _).
      by rewrite Hv, (Ho _ Hex' Hstored).
Qed.

Lemma create_password_then_change_witness :
  @CreatePassword.action Sample.validation Sample.auth Sample.createPassword
    Sample.worldWithoutPassword
  = (Ok (redirect "/settings/profile" (mkInit (Some 302) [])),
     withPassword "u1" (Sample.sampleHash "newsecret")
       Sample.worldWithoutPassword)
  ∧ @verifyUserPassword Sample.auth "u1" "newsecret"
      (withPassword "u1" (Sample.sampleHash "newsecret")
         Sample.worldWithoutPassword)
    = (Ok (Some "u1"),
       withPassword "u1" (Sample.sampleHash "newsecret")
         Sample.worldWithoutPassword).
Proof.
  destruct (@create_password_then_change Sample.validation Sample.auth
              Sample.createPassword Sample.worldWithoutPassword "u1"
              (mkPasswordAndConfirmPassword "newsecret" "newsecret"))
    as [Hrun Hnext].
  - reflexivity.
  - exists Sample.kody. split; [apply list_elem_of_here | reflexivity].
  - reflexivity.
  - vm_compute. reflexivity.
  - split; [exact Hrun|].
    destruct (Hnext Sample.createPassword) as (_ & _ & _ & Hv); [reflexivity|].
    apply (Hv "newsecret").
Defined.

(** ** The profile photo *)

Lemma imagesOf_without_own (userId : string) (w : World) :
  imagesOf userId (withoutImages userId w) = [].
Proof.
  unfold imagesOf, withoutImages. simpl.
  induction (userImages w) as [|i l IH]; [reflexivity|].
  destruct (decide (userImage_userId i = userId)) as [Heq | Hne].
  - rewrite (filter_cons_False (fun i => userImage_userId i ≠ userId)); [done|].
    intros Hc. by apply Hc.
  - rewrite (filter_cons_True (fun i => userImage_userId i ≠ userId)) by done.
    by rewrite (filter_cons_False (fun i => userImage_userId i = userId)).
Qed.

Lemma imagesOf_without_other (userId other : string) (w : World) :
  other ≠ userId →
  imagesOf other (withoutImages userId w) = imagesOf other w.
Proof.
  intros Hne. unfold imagesOf, withoutImages. simpl.
  induction (userImages w) as [|i l IH]; [reflexivity|].
  destruct (decide (userImage_userId i = userId)) as [Heq | Hne'].
  - rewrite (filter_cons_False (fun i => userImage_userId i ≠ userId));
      [|intros Hc; by apply Hc].
    rewrite (filter_cons_False (fun i => userImage_userId i = other))
      by congruence.
    exact IH.
  - rewrite (filter_cons_True (fun i => userImage_userId i ≠ userId)) by done.
    destruct (decide (userImage_userId i = other)) as [Ho | Ho].
    + rewrite !(filter_cons_True (fun i => userImage_userId i = other))
        by done.
      by rewrite IH.
    + by rewrite !(filter_cons_False (fun i => userImage_userId i = other))
        by done.
Qed.

Lemma imagesOf_withImage_other (userId other : string) (image : Image)
    (w : World) :
  other ≠ userId →
  imagesOf other (withImage userId image w) = imagesOf other w.
Proof.
  intros Hne. rewrite <- (imagesOf_without_other userId other w Hne).
  unfold imagesOf, withImage, withoutImages. simpl.
  rewrite list.filter_app.
  rewrite (filter_cons_False (fun i => userImage_userId i = other))
    by (simpl; congruence).
  rewrite filter_nil. apply app_nil_r.
Qed.

Lemma withoutImages_again (userId : string) (w : World) :
  withoutImages userId (withoutImages userId w) = withoutImages userId w.
Proof.
  unfold withoutImages, prisma.setUserImages. simpl. f_equal.
  induction (userImages w) as [|i l IH]; [reflexivity|].
  destruct (decide (userImage_userId i = userId)) as [Heq | Hne].
  - rewrite (filter_cons_False (fun i => userImage_userId i ≠ userId));
      [done | intros Hc; by apply Hc].
  - rewrite !(filter_cons_True (fun i => userImage_userId i ≠ userId)) by done.
    by rewrite IH.
Qed.

Lemma find_user_none (userId : string) (w : World) :
  find (fun u => bool_decide (user_id u = userId)) (users w) = None →
  ¬ userExists userId w.
Proof.
  intros Hnone (u & Hin & Hid). apply list_elem_of_In in Hin.
  apply (find_none _ _ Hnone u) in Hin.
  by apply bool_decide_eq_false in Hin.
Qed.

Lemma find_user_some (userId : string) (w : World) (u : User) :
  find (fun u => bool_decide (user_id u = userId)) (users w) = Some u →
  userExists userId w.
Proof.
  intros Hu. apply find_some in Hu as [Hin Hid]. exists u.
  split; [by apply list_elem_of_In | by apply bool_decide_eq_true in Hid].
Qed.

(** The replace either commits or leaves no trace. *)
Lemma replace_image_state (userId : string) (image : Image) (w : World) o w' :
  prisma.transaction
    (prisma.userImage_deleteMany userId ;;;
     prisma.user_update_image_create userId image) w = (o, w') →
  (o = Ok tt ∧ userExists userId w ∧ w' = withImage userId image w)
  ∨ (o = Throw (ThrownError "Record to update not found")
     ∧ ¬ userExists userId w ∧ w' = w).
Proof.
  destruct (find (fun u => bool_decide (user_id u = userId)) (users w))
    as [u|] eqn:Hu.
  - apply find_user_some in Hu. rewrite (replace_image_commits _ _ _ Hu).
    intros [= <- <-]. by left.
  - apply find_user_none in Hu. rewrite (replace_image_rolls_back _ _ _ Hu).
    intros [= <- <-]. by right.
Qed.

Section Photo.
Context `{AuthServer} `{Utilities}.

Lemma photo_action_cases request w o w' :
  ProfilePhoto.action request w = (o, w') → PhotoOutcome request w o w'.
Proof.
  unfold ProfilePhoto.action, bind at 1, requireUserId. intros Hrun.
  destruct (getUserId request w) as [userId|] eqn:Ha;
    [|injection Hrun as <- <-; by constructor].
  unfold bind at 1, liftOutcome in Hrun.
  destruct (parseFormData request ProfilePhoto.MAX_SIZE) as [formData|t]
    eqn:Hfd; [|injection Hrun as <- <-; by econstructor].
  unfold bind at 1 in Hrun.
  destruct (ProfilePhoto.parseForm (sub_value (parseSubmission formData)) w)
    as [[[[|image|]|issues]|t] w0] eqn:Hparse;
    pose proof (photo_parseForm_state _ _ _ _ Hparse) as ->.
  - injection Hrun as <- <-. by econstructor.
  - unfold bind at 1 in Hrun.
    destruct (prisma.transaction _ w) as [[[]|t] w1] eqn:Htx;
      apply replace_image_state in Htx
        as [(Ho & Hex & ->) | (Ho & Hno & ->)]; try discriminate;
      injection Hrun as <- <-.
    + by econstructor.
    + injection Ho as ->. by econstructor.
  - by destruct (photo_parse_never_NEVER _ _ _ Hparse).
  - injection Hrun as <- <-. by econstructor.
  - unfold ProfilePhoto.parseForm, transform, transformCtx in Hparse.
    destruct (ProfilePhoto.PhotoFormSchema _) as [[|f]|d i|i];
      by run_in Hparse.
Qed.

End Photo.

(** X15.  The photo action touches nothing but the image rows of the
    actor.  Whatever the request and however the action ends, the users,
    passwords, sessions and verifications are as before and so are the
    image rows of every other user; the actor's own rows are either as
    before or replaced by no row or by exactly one. *)
Theorem photo_action_touches_only_own_images
    `{AuthServer} `{Utilities}
    (request : Request) (w : World) (o : Outcome Response) (w' : World) :
  ProfilePhoto.action request w = (o, w') →
  sameButImages w w'
  ∧ (∀ other, getUserId request w ≠ Some other →
              imagesOf other w' = imagesOf other w)
  ∧ (w' = w
     ∨ ∃ userId, getUserId request w = Some userId
                 ∧ (imagesOf userId w' = []
                    ∨ ∃ image, imagesOf userId w' = [mkUserImage userId image])).
Proof.
  intros Hrun. apply photo_action_cases in Hrun.
  destruct Hrun as [Ha | userId t Ha Hfd | userId formData issues Ha Hfd
                    | userId formData Ha Hfd | userId formData image Ha Hfd Hex
                    | userId formData Ha Hfd Hno];
    try (split_and!; [by split_and! | done | by left]).
  - split_and!; [by split_and! | |].
    + intros other Hne. apply imagesOf_without_other. congruence.
    + right. exists userId. split; [done|]. left.
      apply imagesOf_without_own.
  - split_and!; [by split_and! | |].
    + intros other Hne. apply imagesOf_withImage_other. congruence.
    + right. exists userId. split; [done|]. right. exists image.
      apply imagesOf_withImage.
Qed.

Lemma photo_action_touches_only_own_images_witness :
  sameButImages Sample.world
    (withImage "u1" (mkImage "image/png" "new-bytes") Sample.world)
  ∧ imagesOf "u2"
      (withImage "u1" (mkImage "image/png" "new-bytes") Sample.world)
    = imagesOf "u2" Sample.world.
Proof.
  destruct (@photo_action_touches_only_own_images Sample.auth Sample.utilities
              (Sample.asKody (Sample.photoForm 1024)) Sample.world
              (Throw (ThrownResponse (redirect "/settings/profile" noInit)))
              (withImage "u1" (mkImage "image/png" "new-bytes") Sample.world))
    as (Hsame & Hother & _); [vm_compute; reflexivity|].
  split; [exact Hsame|]. apply Hother. discriminate.
Defined.

(** X16.  Deleting the photo.  For an authenticated actor whose form
    carries the intent [delete], the action removes the actor's image
    rows and redirects to /settings/profile, whether or not a file was
    sent along and whether or not the actor's user row still exists;
    afterwards the actor has no image, and a second delete gives the same
    redirect and the same state. *)
Theorem photo_delete_removes_own_images
    `{AuthServer} `{Utilities}
    (request : Request) (w : World) (userId : string) (formData : FormObject) :
  getUserId request w = Some userId →
  parseFormData request ProfilePhoto.MAX_SIZE = Ok formData →
  formData !! "intent" = Some (FText "delete") →
  let gone := withoutImages userId w in
  ProfilePhoto.action request w
  = (Throw (ThrownResponse (redirect "/settings/profile" noInit)), gone)
  ∧ imagesOf userId gone = []
  ∧ (getUserId request gone = Some userId →
     ProfilePhoto.action request gone
     = (Throw (ThrownResponse (redirect "/settings/profile" noInit)), gone)).
Proof.
  intros Ha Hfd Hintent gone.
  assert (Hparse : ∀ w0,
            ProfilePhoto.parseForm (sub_value (parseSubmission formData)) w0
            = (Ok (ZSuccess ProfilePhoto.DataDelete), w0)).
  { intros w0.
    unfold ProfilePhoto.parseForm, bind at 1, transform, transformCtx,
      ProfilePhoto.PhotoFormSchema.
    rewrite parseSubmission_lookup by discriminate. rewrite Hintent.
    reflexivity. }
  assert (Hrun : ∀ w0, getUserId request w0 = Some userId →
            ProfilePhoto.action request w0
            = (Throw (ThrownResponse (redirect "/settings/profile" noInit)),
               withoutImages userId w0)).
  { intros w0 Ha0. unfold ProfilePhoto.action, bind at 1, requireUserId.
    rewrite Ha0. unfold bind at 1, liftOutcome. rewrite Hfd.
    unfold bind at 1. rewrite Hparse. reflexivity. }
  split_and!.
  - by apply Hrun.
  - apply imagesOf_without_own.
  - intros Ha'. rewrite (Hrun gone Ha'). unfold gone.
    by rewrite withoutImages_again.
Qed.

Lemma photo_delete_removes_own_images_witness :
  @ProfilePhoto.action Sample.auth Sample.utilities
    (Sample.asKody (Sample.form [("intent", "delete")])) Sample.world
  = (Throw (ThrownResponse (redirect "/settings/profile" noInit)),
     withoutImages "u1" Sample.world)
  ∧ imagesOf "u1" (withoutImages "u1" Sample.world) = [].
Proof.
  destruct (@photo_delete_removes_own_images Sample.auth Sample.utilities
              (Sample.asKody (Sample.form [("intent", "delete")]))
              Sample.world "u1" (Sample.form [("intent", "delete")]))
    as (Hrun & Hgone & _); [reflexivity..|].
  by split.
Defined.

(** X17.  The only error the photo action raises by itself.  Once the
    upload has been read, the action throws an error (and not a
    response) only when the actor's user row is missing, the error being
    the ORM's 'Record to update not found'; the deletion that preceded
    the failed update has been rolled back.  The unique constraint on
    images cannot fail, and the update is never sent without an image to
    create. *)
Theorem photo_action_only_error
    `{AuthServer} `{Utilities}
    (request : Request) (w : World) (formData : FormObject)
    (e : string) (w' : World) :
  parseFormData request ProfilePhoto.MAX_SIZE = Ok formData →
  ProfilePhoto.action request w = (Throw (ThrownError e), w') →
  e = "Record to update not found"
  ∧ w' = w
  ∧ ∃ userId, getUserId request w = Some userId ∧ ¬ userExists userId w.
Proof.
  intros Hfd Hrun. apply photo_action_cases in Hrun.
  inversion Hrun; subst; try congruence.
  split_and!; [done | done | by eexists].
Qed.

Lemma photo_action_only_error_witness :
  "Record to update not found" = "Record to update not found"
  ∧ Sample.worldWithoutUsers = Sample.worldWithoutUsers
  ∧ ∃ userId,
      @getUserId Sample.auth (Sample.asKody (Sample.photoForm 1024))
        Sample.worldWithoutUsers = Some userId
      ∧ ¬ userExists userId Sample.worldWithoutUsers.
Proof.
  apply (@photo_action_only_error Sample.auth Sample.utilities
           (Sample.asKody (Sample.photoForm 1024)) Sample.worldWithoutUsers
           (Sample.photoForm 1024)).
  - reflexivity.
  - vm_compute. reflexivity.
Defined.

(** ** Loaders and actions share their guards *)

Lemma bind_ok {A B} (c : M A) (k : A -> M B) (w : World) (a : A) (w' : World) :
  c w = (Ok a, w') → bind c k w = k a w'.
Proof. intros Hc. unfold bind. by rewrite Hc. Qed.

Lemma bind_throw {A B} (c : M A) (k : A -> M B) (w : World) (t : Thrown)
    (w' : World) :
  c w = (Throw t, w') → bind c k w = (Throw t, w').
Proof. intros Hc. unfold bind. by rewrite Hc. Qed.

(** X18.  On the onboarding and the reset-password page the loader
    changes nothing, and whenever the loader throws, the action of the
    page throws the same thing for the same request and state, before it
    has looked at the honeypot or the form or written anything. *)
Theorem anonymous_pages_share_their_guard
    `{UserValidation} `{AuthServer} `{Utilities}
    (request : Request) (w : World) :
  (∀ o w', Onboarding.loader request w = (o, w') →
     w' = w ∧ ∀ t, o = Throw t → Onboarding.action request w = (Throw t, w))
  ∧ (∀ o w', ResetPassword.loader request w = (o, w') →
       w' = w
       ∧ ∀ t, o = Throw t → ResetPassword.action request w = (Throw t, w)).
Proof.
  split_and!; intros o w'.
  - unfold Onboarding.loader, Onboarding.action.
    destruct (Onboarding.requireOnboardingEmail request w) as [[email|t0] w0]
      eqn:Hg; pose proof (requireOnboardingEmail_state _ _ _ _ Hg) as ->.
    + rewrite (bind_ok _ _ _ _ _ Hg). intros [= <- <-]. by split.
    + rewrite !(bind_throw _ _ _ _ _ Hg). intros [= <- <-].
      split; [done|]. by intros t [= <-].
  - unfold ResetPassword.loader, ResetPassword.action.
    destruct (ResetPassword.requireResetPasswordUsername request w)
      as [[name|t0] w0] eqn:Hg;
      pose proof (requireResetPasswordUsername_state _ _ _ _ Hg) as ->.
    + rewrite (bind_ok _ _ _ _ _ Hg). intros [= <- <-]. by split.
    + rewrite !(bind_throw _ _ _ _ _ Hg). intros [= <- <-].
      split; [done|]. by intros t [= <-].
Qed.

(** X19.  The same on the password pages: the loaders of the
    create-password page (in both versions) and of the change-password
    page change nothing, and whenever one throws, the action of its page
    throws the same thing for the same request and state, before it has
    read the form or written anything. *)
Theorem password_pages_share_their_guard
    `{UserValidation} `{AuthServer} (request : Request) (w : World) :
  (∀ o w', CreatePassword.loader request w = (o, w') →
     w' = w
     ∧ ∀ t, o = Throw t → CreatePassword.action request w = (Throw t, w))
  ∧ (∀ o w', CreatePasswordLegacy.loader request w = (o, w') →
       w' = w
       ∧ ∀ t, o = Throw t →
              CreatePasswordLegacy.action request w = (Throw t, w))
  ∧ (∀ o w', ChangePassword.loader request w = (o, w') →
       w' = w
       ∧ ∀ t, o = Throw t → ChangePassword.action request w = (Throw t, w)).
Proof.
  split_and!; intros o w'.
  - unfold CreatePassword.loader, CreatePassword.action.
    destruct (requireUserId request w) as [[userId|t0] w0] eqn:Hu;
      pose proof (requireUserId_state _ _ _ _ Hu) as ->.
    + rewrite !(bind_ok _ _ _ _ _ Hu).
      destruct (CreatePassword.requireNoPassword userId w) as [[[]|t0] w0]
        eqn:Hg; pose proof (requireNoPassword_state _ _ _ _ Hg) as ->.
      * rewrite (bind_ok _ _ _ _ _ Hg). intros [= <- <-]. by split.
      * rewrite !(bind_throw _ _ _ _ _ Hg). intros [= <- <-].
        split; [done|]. by intros t [= <-].
    + rewrite !(bind_throw _ _ _ _ _ Hu). intros [= <- <-].
      split; [done|]. by intros t [= <-].
  - unfold CreatePasswordLegacy.loader, CreatePasswordLegacy.action.
    destruct (requireUserId request w) as [[userId|t0] w0] eqn:Hu;
      pose proof (requireUserId_state _ _ _ _ Hu) as ->.
    + rewrite !(bind_ok _ _ _ _ _ Hu).
      destruct (CreatePasswordLegacy.requireNoPassword userId w)
        as [[[]|t0] w0] eqn:Hg;
        pose proof (requireNoPassword_state _ _ _ _ Hg) as ->.
      * rewrite (bind_ok _ _ _ _ _ Hg). intros [= <- <-]. by split.
      * rewrite !(bind_throw _ _ _ _ _ Hg). intros [= <- <-].
        split; [done|]. by intros t [= <-].
    + rewrite !(bind_throw _ _ _ _ _ Hu). intros [= <- <-].
      split; [done|]. by intros t [= <-].
  - unfold ChangePassword.loader, ChangePassword.action.
    destruct (requireUserId request w) as [[userId|t0] w0] eqn:Hu;
      pose proof (requireUserId_state _ _ _ _ Hu) as ->.
    + rewrite !(bind_ok _ _ _ _ _ Hu).
      destruct (ChangePassword.requirePassword userId w) as [[[]|t0] w0]
        eqn:Hg; pose proof (requirePassword_state _ _ _ _ Hg) as ->.
      * rewrite (bind_ok _ _ _ _ _ Hg). intros [= <- <-]. by split.
      * rewrite !(bind_throw _ _ _ _ _ Hg). intros [= <- <-].
        split; [done|]. by intros t [= <-].
    + rewrite !(bind_throw _ _ _ _ _ Hu). intros [= <- <-].
      split; [done|]. by intros t [= <-].
Qed.

(** ** A username that is taken *)

Lemma find_username_taken (name : string) (w : World) :
  (∃ u, u ∈ users w ∧ user_username u = name) →
  ∃ u, prisma.user_findUnique_username name w = (Ok (Some u), w).
Proof.
  intros (u & Hu & Hname).
  destruct (find_some_exists (fun u => bool_decide (user_username u = name))
              (users w)) as (y & Hy & _).
  - exists u. split; [done|]. by apply bool_decide_eq_true.
  - exists y. unfold prisma.user_findUnique_username, gets. by rewrite Hy.
Qed.

(** X20.  Both signup actions refuse a username that is taken.  When the
    guard of the page has passed and the schema accepts the form, but a
    user with the form's username exists, the action answers with the
    400 report whose only error is
    'A user already exists with this username' under [username]; no
    account is created and the state is as before. *)
Theorem signup_rejects_taken_username
    `{UserValidation} `{AuthServer} `{Utilities}
    (args : ActionArgs) (w : World) (name : string) :
  (∃ u, u ∈ users w ∧ user_username u = name) →
  let formData := req_formData (request args) in
  let value := sub_value (parseSubmission formData) in
  (∀ email d,
     Onboarding.requireOnboardingEmail (request args) w = (Ok email, w) →
     checkHoneypot formData = None →
     Onboarding.SignupFormSchema value = PValid d →
     Onboarding.username d = name →
     Onboarding.action (request args) w = (Ok (usernameTaken formData), w))
  ∧ (∀ required d,
       OnboardingProvider.requireData args w = (Ok required, w) →
       OnboardingProvider.SignupFormSchema value = PValid d →
       OnboardingProvider.username d = name →
       OnboardingProvider.action args w = (Ok (usernameTaken formData), w)).
Proof.
  intros Htaken formData value.
  destruct (find_username_taken _ _ Htaken) as [u Hu]. split.
  - intros email d Hg Hh Hs Hname.
    assert (Hparse : Onboarding.parseForm email value w
              = (Ok (ZFailure
                       [mkIssue ["username"]
                          "A user already exists with this username"]), w)).
    { unfold Onboarding.parseForm, superRefine. rewrite Hs.
      unfold bind. by rewrite Hname, Hu. }
    unfold Onboarding.action. rewrite (bind_ok _ _ _ _ _ Hg).
    fold formData. rewrite Hh.
    rewrite (bind_ok (check None) _ w tt w eq_refl).
    fold value. by rewrite (bind_ok _ _ _ _ _ Hparse).
  - intros required d Hg Hs Hname.
    assert (Hparse : OnboardingProvider.parseForm required value w
              = (Ok (ZFailure
                       [mkIssue ["username"]
                          "A user already exists with this username"]), w)).
    { unfold OnboardingProvider.parseForm, superRefine. rewrite Hs.
      unfold bind. by rewrite Hname, Hu. }
    unfold OnboardingProvider.action. rewrite (bind_ok _ _ _ _ _ Hg).
    fold formData. fold value. by rewrite (bind_ok _ _ _ _ _ Hparse).
Qed.

Lemma signup_rejects_taken_username_witness :
  @OnboardingProvider.action Sample.validation Sample.auth Sample.utilities
    Sample.kodyProviderSignup Sample.world
  = (Ok (usernameTaken (req_formData (request Sample.kodyProviderSignup))),
     Sample.world).
Proof.
  destruct (@signup_rejects_taken_username Sample.validation Sample.auth
              Sample.utilities Sample.kodyProviderSignup Sample.world "kody")
    as [_ T].
  - exists Sample.kody. split; [apply list_elem_of_here | reflexivity].
  - apply (T (OnboardingProvider.mkRequiredData "new@example.com" "github"
                "gh-42")
             (OnboardingProvider.mkSignupForm None "kody" "Hannah" true None
                None)).
    + reflexivity.
    + vm_compute. reflexivity.
    + reflexivity.
Defined.

(** ** The loader of the photo page *)

(** X21.  The loader of the photo page changes nothing and returns only
    the actor's own record: a user it returns is a row of the users
    table whose id is the id of the authenticated actor.  It throws
    either the redirect to /login, for an anonymous actor, or a 404
    response, for an actor whose user row is missing. *)
Theorem photo_loader_returns_actor
    `{AuthServer} (request : Request) (w : World)
    (o : Outcome User) (w' : World) :
  ProfilePhoto.loader request w = (o, w') →
  w' = w
  ∧ match o with
    | Ok user =>
        user ∈ users w ∧ getUserId request w = Some (user_id user)
    | Throw t =>
        (getUserId request w = None
         ∧ t = ThrownResponse (redirect "/login" noInit))
        ∨ (∃ userId, getUserId request w = Some userId
                     ∧ ¬ userExists userId w
                     ∧ t = ThrownResponse (mkResponse 404 None [] BodyEmpty))
    end.
Proof.
  unfold ProfilePhoto.loader, bind at 1, requireUserId.
  destruct (getUserId request w) as [userId|] eqn:Ha;
    [|intros [= <- <-]; split; [done|]; by left].
  unfold bind, prisma.user_findUnique_id, gets.
  destruct (find _ (users w)) as [u|] eqn:Hu; intros [= <- <-];
    (split; [done|]).
  - apply find_some in Hu as [Hin Hid]. apply bool_decide_eq_true in Hid.
    split; [by apply list_elem_of_In | by rewrite Hid].
  - right. exists userId. split_and!; [done | by apply find_user_none | done].
Qed.

Lemma photo_loader_returns_actor_witness :
  Sample.world = Sample.world
  ∧ Sample.kody ∈ users Sample.world
  ∧ @getUserId Sample.auth (Sample.asKody ∅) Sample.world
    = Some (user_id Sample.kody).
Proof.
  apply (@photo_loader_returns_actor Sample.auth (Sample.asKody ∅)
           Sample.world (Ok Sample.kody) Sample.world).
  reflexivity.
Defined.
